(** * AppStream lifecycle check: [plugins/module_utils/appstream_check_core.py] and its front ends

    A shallow embedding of the functions of the core ([parse_date],
    [detect_target_major], [parse_rpm_modularity_output],
    [collect_installed_from_rpm], [evaluate_appstream_check], with the helper
    [_is_retired]), of the Ansible module [plugins/modules/appstream_check.py]
    and of the stand-alone script [scripts/appstream_check_standalone.py],
    and of the Python built-ins they call, followed by the properties of the
    specification.

    Conventions.
    - Text is a Rocq [string]; a character is a code point below 256 (the
      Latin-1 range of Unicode), and every built-in of [Py] is modelled on
      that range.
    - The file of [detect_target_major] is read as UTF-8 and can hold any
      character. The detector is therefore modelled a second time, in
      [Unicode], on texts that are lists of code points, with the character
      database of the interpreter as a parameter; on Latin-1 text the two
      models agree ([detect_target_major_of_string]).
    - A raised exception is a value of [exn]; a computation that may raise
      returns [result]. The texts of the exceptions of the built-ins are those
      of CPython 3.11; [OverflowError] carries none, its text depends on the
      platform and on the value that overflows, so two of them are told apart
      by nothing here.
    - A Python [dict] is a [gmap], a Python [set] a [gset]; [sorted] is a merge
      sort on the code-point order of strings.
    - The reference table is typed as the specification describes it: a name
      or a stream is a string or [None], an end date is a string, a [date] or
      [None], and a missing key reads as [None].
    - The file that [detect_target_major] reads is its text, or [None] when
      the path does not exist or reading raises [OSError].
    - What the front ends call outside the repository ([AnsibleModule],
      [subprocess], the loaders and printers of YAML and JSON) is a
      parameter of their models. *)

From Stdlib Require Import ZArith Ascii String List Lia Bool.
From stdpp Require Import base tactics option list gmap sets strings sorting pretty.

Local Open Scope Z_scope.

(** ** Exceptions and results *)

Inductive exn :=
  | ValueError (msg : string)
  | KeyError (key : string)
  | IndexError
  | OverflowError.

Inductive result (A : Type) :=
  | Ok (a : A)
  | Raise (e : exn).
Arguments Ok {A} a.
Arguments Raise {A} e.

Global Instance result_ret : MRet result := λ A a, Ok a.
Global Instance result_bind : MBind result := λ A B k r,
  match r with
  | Ok a => k a
  | Raise e => Raise e
  end.

(** ** Python built-ins on text *)

Module Py.

Definition code (c : ascii) : N := N_of_ascii c.

(** [str.isspace] of one character. *)
Definition isspace (c : ascii) : bool :=
  let n := code c in
  ((9 <=? n) && (n <=? 13) || (28 <=? n) && (n <=? 32)
   || (n =? 133) || (n =? 160))%N.

(** ASCII decimal digit, and its value. *)
Definition is_decimal (c : ascii) : bool :=
  let n := code c in ((48 <=? n) && (n <=? 57))%N.

Definition digit_value (c : ascii) : Z := Z.of_N (code c) - 48.

(** [str.isdigit] of one character: the decimal digits and the superscripts
    two, three and one. *)
Definition isdigit_char (c : ascii) : bool :=
  let n := code c in
  (is_decimal c || (n =? 178) || (n =? 179) || (n =? 185))%N.

(** [str.isprintable] of one character. *)
Definition isprintable (c : ascii) : bool :=
  let n := code c in
  ((32 <=? n) && (n <=? 126) || (161 <=? n) && negb (n =? 173))%N.

Fixpoint forallb_str (p : ascii → bool) (s : string) : bool :=
  match s with
  | EmptyString => true
  | String c s' => p c && forallb_str p s'
  end.

Fixpoint existsb_str (p : ascii → bool) (s : string) : bool :=
  match s with
  | EmptyString => false
  | String c s' => p c || existsb_str p s'
  end.

Definition is_empty (s : string) : bool :=
  match s with EmptyString => true | _ => false end.

(** [s.isdigit()]: non-empty and every character a digit. *)
Definition isdigit (s : string) : bool :=
  negb (is_empty s) && forallb_str isdigit_char s.

(** [s.lstrip()], [s.rstrip()], [s.strip()] for a set of characters [p]. *)
Fixpoint lstrip_by (p : ascii → bool) (s : string) : string :=
  match s with
  | EmptyString => EmptyString
  | String c s' => if p c then lstrip_by p s' else s
  end.

Fixpoint rstrip_by (p : ascii → bool) (s : string) : string :=
  match s with
  | EmptyString => EmptyString
  | String c s' =>
      let r := rstrip_by p s' in
      if p c && is_empty r then EmptyString else String c r
  end.

Definition strip_by (p : ascii → bool) (s : string) : string :=
  rstrip_by p (lstrip_by p s).

(** [s.strip()] *)
Definition strip (s : string) : string := strip_by isspace s.

(** [s.strip(ch)] for a one-character argument. *)
Definition strip_char (ch : ascii) (s : string) : string :=
  strip_by (λ c, bool_decide (c = ch)) s.

(** [s.split(sep)] for a one-character separator: never the empty list. *)
Fixpoint split (sep : ascii) (s : string) : list string :=
  match s with
  | EmptyString => [EmptyString]
  | String c s' =>
      if bool_decide (c = sep) then EmptyString :: split sep s'
      else match split sep s' with
           | h :: t => String c h :: t
           | [] => [String c EmptyString]
           end
  end.

(** [s.split(sep, 1)]: one element when [sep] does not occur, else the text
    before the first [sep] and the text after it. *)
Fixpoint split1 (sep : ascii) (s : string) : list string :=
  match s with
  | EmptyString => [EmptyString]
  | String c s' =>
      if bool_decide (c = sep) then [EmptyString; s']
      else match split1 sep s' with
           | h :: t => String c h :: t
           | [] => [String c EmptyString]
           end
  end.

(** [s.startswith(p)] *)
Definition startswith (p s : string) : bool := String.prefix p s.

(** Line boundaries of [str.splitlines]: LF, VT, FF, CR (CR LF counts once),
    FS, GS, RS and NEL. *)
Definition is_linebreak (c : ascii) : bool :=
  let n := code c in
  ((10 <=? n) && (n <=? 13) || (28 <=? n) && (n <=? 30) || (n =? 133))%N.

Definition CR : ascii := ascii_of_N 13.
Definition LF : ascii := ascii_of_N 10.

(** [s.splitlines()]; in [splitlines_go cur s], [cur] is the line being read,
    reversed. *)
Fixpoint splitlines_go (cur : string) (s : string) : list string :=
  match s with
  | EmptyString => if is_empty cur then [] else [String.rev cur]
  | String c s' =>
      if is_linebreak c then
        String.rev cur ::
          match s' with
          | String c' s'' =>
              if bool_decide (c = CR) && bool_decide (c' = LF)
              then splitlines_go EmptyString s''
              else splitlines_go EmptyString s'
          | EmptyString => []
          end
      else splitlines_go (String c cur) s'
  end.

Definition splitlines (s : string) : list string := splitlines_go EmptyString s.

(** The lines of a file read in text mode, as [for line in file_handle] yields
    them: each of LF, CR LF and CR ends a line and is read as LF, which stays
    at the end of the line. *)
Fixpoint readlines_go (cur : string) (s : string) : list string :=
  match s with
  | EmptyString => if is_empty cur then [] else [String.rev cur]
  | String c s' =>
      if bool_decide (c = LF) then
        String.rev (String LF cur) :: readlines_go EmptyString s'
      else if bool_decide (c = CR) then
        String.rev (String LF cur) ::
          match s' with
          | String c' s'' =>
              if bool_decide (c' = LF)
              then readlines_go EmptyString s''
              else readlines_go EmptyString s'
          | EmptyString => []
          end
      else readlines_go (String c cur) s'
  end.

Definition readlines (s : string) : list string := readlines_go EmptyString s.

(** [sorted(xs)] on strings, and [sorted(s)] on a set of strings. *)
Definition sorted (xs : list string) : list string := merge_sort String.le xs.

Definition sorted_set (s : gset string) : list string := sorted (elements s).

(** [str(x)] of a value that is a string or [None]. *)
Definition str_of (x : option string) : string := default "None" x.

(** Truth value of a value that is a string or [None]. *)
Definition truthy (x : option string) : bool :=
  match x with
  | Some s => negb (is_empty s)
  | None => false
  end.


(** [s.find(ch) >= 0] *)
Definition contains (ch : ascii) (s : string) : bool :=
  existsb_str (λ c, bool_decide (c = ch)) s.

Fixpoint take_while (p : ascii → bool) (s : string) : string :=
  match s with
  | EmptyString => EmptyString
  | String c s' => if p c then String c (take_while p s') else EmptyString
  end.

Fixpoint take (n : nat) (s : string) : string :=
  match n, s with
  | S n', String c s' => String c (take n' s')
  | _, _ => EmptyString
  end.

(** *** [repr] of a string *)

Definition DQUOTE : ascii := ascii_of_N 34.
Definition SQUOTE : ascii := ascii_of_N 39.
Definition BACKSLASH : ascii := ascii_of_N 92.
Definition TAB : ascii := ascii_of_N 9.

Definition hex_digit (n : N) : ascii :=
  if (n <? 10)%N then ascii_of_N (48 + n) else ascii_of_N (87 + n).

Definition escape_char (quote c : ascii) : string :=
  if bool_decide (c = quote) || bool_decide (c = BACKSLASH)
  then String BACKSLASH (String c EmptyString)
  else if bool_decide (c = TAB) then String BACKSLASH "t"
  else if bool_decide (c = LF) then String BACKSLASH "n"
  else if bool_decide (c = CR) then String BACKSLASH "r"
  else if isprintable c then String c EmptyString
  else String BACKSLASH
         (String "x" (String (hex_digit (code c / 16))
                        (String (hex_digit (code c mod 16)) EmptyString))).

Fixpoint escape (quote : ascii) (s : string) : string :=
  match s with
  | EmptyString => EmptyString
  | String c s' => escape_char quote c +:+ escape quote s'
  end.

(** [repr(s)]: single quotes, unless [s] has a single quote and no double
    quote. *)
Definition repr (s : string) : string :=
  let quote :=
    if contains SQUOTE s && negb (contains DQUOTE s) then DQUOTE else SQUOTE in
  String quote (escape quote s +:+ String quote EmptyString).

(** *** [int(s)] in base 10 *)

(** White space that [int] skips around the literal. *)
Definition int_space (c : ascii) : bool :=
  let n := code c in
  ((9 <=? n) && (n <=? 13) || (n =? 32) || (n =? 133) || (n =? 160))%N.

Definition is_underscore (c : ascii) : bool := bool_decide (c = "_"%char).

Definition int_body_char (c : ascii) : bool := is_decimal c || is_underscore c.

(** Digits separated by single underscores: no underscore first, last or
    doubled, and at least one digit. *)
Fixpoint int_body_ok (prev_digit : bool) (s : string) : bool :=
  match s with
  | EmptyString => prev_digit
  | String c s' =>
      if is_decimal c then int_body_ok true s'
      else is_underscore c && prev_digit && int_body_ok false s'
  end.

Fixpoint int_body_value (acc : Z) (s : string) : Z :=
  match s with
  | EmptyString => acc
  | String c s' =>
      if is_decimal c then int_body_value (10 * acc + digit_value c) s'
      else int_body_value acc s'
  end.

Fixpoint count_decimal (s : string) : N :=
  match s with
  | EmptyString => 0%N
  | String c s' => ((if is_decimal c then 1 else 0) + count_decimal s')%N
  end.

Definition int_invalid_literal (s : string) : exn :=
  ValueError ("invalid literal for int() with base 10: " +:+ take 200 (repr s)).

Definition int_limit_exceeded (limit digits : N) : exn :=
  ValueError ("Exceeds the limit (" +:+ pretty limit
    +:+ " digits) for integer string conversion: value has " +:+ pretty digits
    +:+ " digits; use sys.set_int_max_str_digits() to increase the limit").

(** The optional sign of a literal: whether it is negative, and the rest. *)
Definition split_sign (t : string) : bool * string :=
  match t with
  | String c r =>
      if bool_decide (c = "+"%char) then (false, r)
      else if bool_decide (c = "-"%char) then (true, r)
      else (false, t)
  | EmptyString => (false, t)
  end.

(** [int(s)] under the interpreter limit [max_str_digits] on the number of
    digits of a literal (0: no limit). The digits are scanned and counted
    against the limit before what follows them is looked at, as CPython 3.11
    does; both failures are a [ValueError]. *)
Definition int (max_str_digits : N) (s : string) : result Z :=
  let '(negative, u) := split_sign (lstrip_by int_space s) in
  let body := take_while int_body_char u in
  let rest := lstrip_by int_body_char u in
  if int_body_ok false body then
    if ((0 <? max_str_digits) && (max_str_digits <? count_decimal body))%N
    then Raise (int_limit_exceeded max_str_digits (count_decimal body))
    else if forallb_str int_space rest
    then Ok (if negative then - int_body_value 0 body else int_body_value 0 body)
    else Raise (int_invalid_literal s)
  else Raise (int_invalid_literal s).

End Py.

(** ** Calendar dates: [datetime.date] *)

Record date := Date { year : Z; month : Z; day : Z }.

Definition is_leap (y : Z) : bool :=
  (y mod 4 =? 0) && (negb (y mod 100 =? 0) || (y mod 400 =? 0)).

Definition days_in_month (y m : Z) : Z :=
  if m =? 2 then (if is_leap y then 29 else 28)
  else if (m =? 4) || (m =? 6) || (m =? 9) || (m =? 11) then 30
  else 31.

(** The values a [date] object can hold. *)
Definition valid_date (d : date) : Prop :=
  1 ≤ year d ≤ 9999 ∧ 1 ≤ month d ≤ 12
  ∧ 1 ≤ day d ≤ days_in_month (year d) (month d).

Definition fits_c_int (z : Z) : bool := (- 2 ^ 31 <=? z) && (z <=? 2 ^ 31 - 1).

(** [date(y, m, d)]: the arguments are first converted to C [int]s, which
    raises [OverflowError] outside 32 bits; the ranges are checked after
    that. *)
Definition date_new (y m d : Z) : result date :=
  if negb (fits_c_int y && fits_c_int m && fits_c_int d) then Raise OverflowError
  else if negb ((1 <=? y) && (y <=? 9999))
  then Raise (ValueError ("year " +:+ pretty y +:+ " is out of range"))
  else if negb ((1 <=? m) && (m <=? 12))
  then Raise (ValueError "month must be in 1..12")
  else if negb ((1 <=? d) && (d <=? days_in_month y m))
  then Raise (ValueError "day is out of range for month")
  else Ok (Date y m d).

(** [a < b] on dates. *)
Definition date_ltb (a b : date) : bool :=
  (year a <? year b)
  || (year a =? year b) && ((month a <? month b)
                            || (month a =? month b) && (day a <? day b)).

(** [str(n).zfill(width)] for [0 ≤ n]. *)
Definition zero_pad (width : nat) (n : Z) : string :=
  let s := pretty n in
  String.string_of_list_ascii
    (replicate (width - String.length s) "0"%char) +:+ s.

(** [d.isoformat()], the zero-padded [YYYY-MM-DD] text of a date. *)
Definition isoformat (d : date) : string :=
  zero_pad 4 (year d) +:+ "-" +:+ zero_pad 2 (month d) +:+ "-" +:+ zero_pad 2 (day d).

(** ** The interpreter

    Two things the core relies on vary between releases of the interpreter:
    the texts [date.fromisoformat] accepts (up to 3.10 only the zero-padded
    [YYYY-MM-DD]; from 3.11 also the basic and the week formats of ISO 8601),
    and the limit on the digits of an integer literal (none, or at least 640
    digits). Both are fields of [Interpreter], with the laws the properties
    below rest on: [fromisoformat] reads the text of [isoformat] back, and
    where it accepts a text that also splits on dashes into three integer
    literals, the [date] of these integers is what it returns. The two
    parsers that follow satisfy them ([strict_interpreter],
    [extended_interpreter]). [None] stands for the [ValueError] that
    [fromisoformat] raises. *)

Class Interpreter := {
  fromisoformat : string → option date;
  int_max_str_digits : N;
  fromisoformat_isoformat d :
    valid_date d → fromisoformat (isoformat d) = Some d;
  fromisoformat_fields s d a b c y m dd :
    fromisoformat s = Some d →
    Py.split "-" s = [a; b; c] →
    Py.int int_max_str_digits a = Ok y →
    Py.int int_max_str_digits b = Ok m →
    Py.int int_max_str_digits c = Ok dd →
    date_new y m dd = Ok d;
  int_max_str_digits_range :
    int_max_str_digits = 0%N ∨ (640 ≤ int_max_str_digits)%N
}.

(** The strict parser of the releases before 3.11: exactly four digits, a
    dash, two digits, a dash, two digits. *)
Definition digits_value (s : string) : Z := Py.int_body_value 0 s.

Definition fromisoformat_strict (s : string) : option date :=
  match s with
  | String y1 (String y2 (String y3 (String y4 (String s1
      (String m1 (String m2 (String s2
        (String d1 (String d2 EmptyString))))))))) =>
      let ys := String y1 (String y2 (String y3 (String y4 EmptyString))) in
      let ms := String m1 (String m2 EmptyString) in
      let ds := String d1 (String d2 EmptyString) in
      if bool_decide (s1 = "-"%char) && bool_decide (s2 = "-"%char)
         && Py.forallb_str Py.is_decimal ys && Py.forallb_str Py.is_decimal ms
         && Py.forallb_str Py.is_decimal ds
      then match date_new (digits_value ys) (digits_value ms) (digits_value ds) with
           | Ok d => Some d
           | Raise _ => None
           end
      else None
  | _ => None
  end.

(** The parser of the releases from 3.11 on, as its C implementation reads
    the UTF-8 bytes of the text: a text of 7, 8 or 10 bytes that starts with
    [YYYY-MM-DD], [YYYYMMDD], [YYYY-Www], [YYYY-Www-D], [YYYYWww] or
    [YYYYWwwD]; what follows a complete date is not looked at. *)

(** Reads [n] decimal digits. *)
Fixpoint parse_digits (n : nat) (acc : Z) (s : string) : option (Z * string) :=
  match n with
  | O => Some (acc, s)
  | S n' =>
      match s with
      | String c s' =>
          if Py.is_decimal c then parse_digits n' (10 * acc + Py.digit_value c) s'
          else None
      | EmptyString => None
      end
  end.

(** The number of bytes of the UTF-8 encoding. *)
Fixpoint utf8_length (s : string) : nat :=
  match s with
  | EmptyString => O
  | String c s' => ((if (Py.code c <? 128)%N then 1 else 2) + utf8_length s')%nat
  end.

Definition days_before_year (y : Z) : Z :=
  (y - 1) * 365 + (y - 1) / 4 - (y - 1) / 100 + (y - 1) / 400.

(** The ordinal of the first of January: day 1 is 0001-01-01. *)
Definition first_day_of_year (y : Z) : Z := days_before_year y + 1.

(** Monday is 0. *)
Definition weekday_of_ordinal (n : Z) : Z := (n + 6) mod 7.

Definition iso_week1_monday (y : Z) : Z :=
  let first_day := first_day_of_year y in
  let first_weekday := weekday_of_ordinal first_day in
  let week1_monday := first_day - first_weekday in
  if 3 <? first_weekday then week1_monday + 7 else week1_monday.

Definition DI4Y : Z := 1461.
Definition DI100Y : Z := 36524.
Definition DI400Y : Z := 146097.

(** Year, month and day of a positive ordinal. *)
Definition ord_to_ymd (ordinal : Z) : Z * Z * Z :=
  let n0 := ordinal - 1 in
  let n400 := n0 / DI400Y in
  let n := n0 mod DI400Y in
  let n100 := n / DI100Y in
  let n := n mod DI100Y in
  let n4 := n / DI4Y in
  let n := n mod DI4Y in
  let n1 := n / 365 in
  let n := n mod 365 in
  let y := n400 * 400 + 1 + n100 * 100 + n4 * 4 + n1 in
  if (n1 =? 4) || (n100 =? 4) then (y - 1, 12, 31)
  else
    let leapyear := (n1 =? 3) && (negb (n4 =? 24) || (n100 =? 3)) in
    let m := Z.shiftr (n + 50) 5 in
    let preceding :=
      nth (Z.to_nat m) [0; 0; 31; 59; 90; 120; 151; 181; 212; 243; 273; 304; 334] 0
      + (if (2 <? m) && leapyear then 1 else 0) in
    if n <? preceding
    then (y, m - 1, n - (preceding - days_in_month y (m - 1)) + 1)
    else (y, m, n - preceding + 1).

(** The date of an ISO year, week and day; [None] for a week or a day out of
    range. In the year 0 no ordinal is positive and no date comes out. *)
Definition iso_to_ymd (iso_year iso_week iso_day : Z) : option (Z * Z * Z) :=
  let first_weekday := weekday_of_ordinal (first_day_of_year iso_year) in
  if iso_year <? 1 then None
  else if ((iso_week <=? 0) || (53 <=? iso_week))
          && negb ((iso_week =? 53)
                   && ((first_weekday =? 3) || (first_weekday =? 2) && is_leap iso_year))
  then None
  else if (iso_day <=? 0) || (8 <=? iso_day) then None
  else Some (ord_to_ymd (iso_week1_monday iso_year + (iso_week - 1) * 7 + iso_day - 1)).

Definition make_date (ymd : Z * Z * Z) : option date :=
  let '(y, m, d) := ymd in
  match date_new y m d with
  | Ok d => Some d
  | Raise _ => None
  end.

Definition skip_char (c : ascii) (s : string) : option string :=
  match s with
  | String c' s' => if bool_decide (c' = c) then Some s' else None
  | EmptyString => None
  end.

Definition fromisoformat_extended (s : string) : option date :=
  let len := utf8_length s in
  if negb ((len =? 7) || (len =? 8) || (len =? 10))%nat then None
  else
    '(y, p) ← parse_digits 4 0 s;
    let uses_separator := bool_decide (skip_char "-" p ≠ None) in
    let p := default p (skip_char "-" p) in
    match skip_char "W" p with
    | Some p =>
        '(iso_week, p) ← parse_digits 2 0 p;
        '(iso_day, p) ←
          (if (utf8_length s - utf8_length p <? len)%nat then
             p ← (if uses_separator then skip_char "-" p else Some p);
             parse_digits 1 0 p
           else Some (1, p));
        iso_to_ymd y iso_week iso_day ≫= make_date
    | None =>
        '(m, p) ← parse_digits 2 0 p;
        p ← (if uses_separator then skip_char "-" p else Some p);
        '(d, p) ← parse_digits 2 0 p;
        make_date (y, m, d)
    end.

(** ** The core: [appstream_check_core.py] *)

(** A date given as text or as a [date] object: [Union[str, date]]. *)
Inductive date_input :=
  | DStr (s : string)
  | DDate (d : date).

(** The lifecycle reference table. A missing field and a field holding
    [None] read the same through [dict.get]. *)
Record package_entry := {
  pkg_name : option string;
  pkg_end_date : option date_input
}.

Record module_entry := {
  mod_name : option string;
  mod_stream : option string;
  mod_end_date : option date_input
}.

Record major_data := {
  package : option (list package_entry);
  dnf_module : option (list module_entry)
}.

Record check_result := {
  target_major : string;
  matched_packages : list string;
  matched_dnf_modules : list string;
  matched_dnf_modules_packages : list string;
  any_match : bool
}.

Section core.
Context {interp : Interpreter}.

Definition int := Py.int int_max_str_digits.

Definition invalid_date_format (value : string) : exn :=
  ValueError ("Invalid date format " +:+ Py.repr value +:+ ", expected YYYY-MM-DD").

(** [parse_date]: the handler of the fallback catches [ValueError],
    [IndexError] and [TypeError], and nothing else. *)
Definition parse_date (value : date_input) : result date :=
  match value with
  | DDate d => Ok d
  | DStr s =>
      let text := Py.strip s in
      match fromisoformat text with
      | Some d => Ok d
      | None =>
          match Py.split "-" text with
          | [p0; p1; p2] =>
              match y ← int p0; m ← int p1; d ← int p2; date_new y m d with
              | Ok d => Ok d
              | Raise (ValueError _) | Raise IndexError => Raise (invalid_date_format s)
              | Raise e => Raise e
              end
          | _ => Raise (invalid_date_format s)
          end
      end
  end.

Definition version_id_not_found : exn :=
  ValueError "Unable to detect VERSION_ID from /etc/os-release; pass target_major explicitly.".

Definition major_not_parsed (version_id : string) : exn :=
  ValueError ("Unable to parse major version from VERSION_ID=" +:+ Py.repr version_id
              +:+ "; pass target_major explicitly.").

(** The loop over the lines of the file, up to its [break]. *)
Fixpoint find_version_id (lines : list string) : result (option string) :=
  match lines with
  | [] => Ok None
  | line :: rest =>
      let line := Py.strip line in
      if Py.startswith "VERSION_ID=" line then
        match Py.split1 "=" line with
        | _ :: value :: _ =>
            Ok (Some (Py.strip_char Py.SQUOTE (Py.strip_char Py.DQUOTE (Py.strip value))))
        | _ => Raise IndexError
        end
      else find_version_id rest
  end.

(** [detect_target_major]: [os_release] is the text of the file, [None] when
    the path does not exist or reading it raises [OSError]. *)
Definition detect_target_major (os_release : option string) : result string :=
  version_id ←
    match os_release with
    | Some text => find_version_id (Py.readlines text)
    | None => Ok None
    end;
  match version_id with
  | None | Some EmptyString => Raise version_id_not_found
  | Some version_id =>
      match Py.split1 "." version_id with
      | major :: _ =>
          if negb (Py.isdigit major) then Raise (major_not_parsed version_id)
          else n ← int major; Ok ("el" +:+ pretty n)
      | [] => Raise IndexError
      end
  end.

Definition unexpected_line (line : string) : exn :=
  ValueError ("Unexpected rpm output line (expected 2 columns): '" +:+ line +:+ "'").

Definition invalid_modularity_label (package_name label : string) : exn :=
  ValueError ("Invalid MODULARITYLABEL format for package '" +:+ package_name
              +:+ "': '" +:+ label +:+ "'").

(** [d.setdefault(key, []).append(x)] *)
Definition setdefault_append (key x : string) (d : gmap string (list string))
    : gmap string (list string) :=
  <[key := default [] (d !! key) ++ [x]]> d.

(** The loop of [parse_rpm_modularity_output] over the lines, threading the
    two accumulators. *)
Fixpoint parse_lines (lines : list string)
    (modules_raw : gmap string (list string)) (installed_packages : list string)
    : result (gmap string (list string) * list string) :=
  match lines with
  | [] => Ok (modules_raw, installed_packages)
  | line :: rest =>
      let line := Py.strip line in
      if Py.is_empty line then parse_lines rest modules_raw installed_packages
      else
        match Py.split1 " " line with
        | [p0; p1] =>
            let package_name := Py.strip p0 in
            let label := Py.strip p1 in
            if bool_decide (label = "(none)") then
              parse_lines rest modules_raw (installed_packages ++ [package_name])
            else
              match Py.split ":" label with
              | l0 :: l1 :: _ =>
                  if Py.is_empty l0 || Py.is_empty l1
                  then Raise (invalid_modularity_label package_name label)
                  else
                    let key := l0 +:+ ":" +:+ l1 in
                    parse_lines rest (setdefault_append key package_name modules_raw)
                      installed_packages
              | _ => Raise (invalid_modularity_label package_name label)
              end
        | _ => Raise (unexpected_line line)
        end
  end.

Definition parse_rpm_modularity_output (output : string)
    : result (gmap string (list string) * list string) :=
  '(modules_raw, installed_packages) ← parse_lines (Py.splitlines output) ∅ [];
  Ok (modules_raw, Py.sorted_set (list_to_set installed_packages)).

(** [_is_retired]: its handler catches [ValueError] only. *)
Definition _is_retired (end_date_raw : option date_input) (cutoff : date) : result bool :=
  match end_date_raw with
  | None | Some (DStr EmptyString) => Ok false
  | Some value =>
      match parse_date value with
      | Ok d => Ok (date_ltb d cutoff)
      | Raise (ValueError _) => Ok false
      | Raise e => Raise e
      end
  end.

(** A generator expression [elem(x) for x in items if cond(x)], consumed in
    order; the first [cond] that raises ends it. *)
Fixpoint comprehension {A B} (cond : A → result bool) (elem : A → B) (items : list A)
    : result (list B) :=
  match items with
  | [] => Ok []
  | x :: rest =>
      keep ← cond x;
      selected ← comprehension cond elem rest;
      Ok (if keep : bool then elem x :: selected else selected)
  end.

Definition package_selected (cutoff : date) (item : package_entry) : result bool :=
  retired ← _is_retired (pkg_end_date item) cutoff;
  Ok (retired && Py.truthy (pkg_name item)).

Definition module_selected (cutoff : date) (item : module_entry) : result bool :=
  retired ← _is_retired (mod_end_date item) cutoff;
  Ok (retired && Py.truthy (mod_name item) && Py.truthy (mod_stream item)).

Definition module_key (item : module_entry) : string :=
  Py.str_of (mod_name item) +:+ ":" +:+ Py.str_of (mod_stream item).

Definition reference_package_names (cutoff : date) (packages_data : list package_entry)
    : result (list string) :=
  names ← comprehension (package_selected cutoff) (λ item, Py.str_of (pkg_name item))
            packages_data;
  Ok (Py.sorted_set (list_to_set names)).

Definition reference_module_names (cutoff : date) (modules_data : list module_entry)
    : result (list string) :=
  keys ← comprehension (module_selected cutoff) module_key modules_data;
  Ok (Py.sorted_set (list_to_set keys)).

Definition evaluate_appstream_check
    (grouped_data : gmap string major_data) (target_major : string)
    (selected_date : date_input)
    (installed_dnf_modules_raw : gmap string (list string))
    (installed_packages : list string) : result (check_result * list string) :=
  cutoff ← parse_date selected_date;
  match grouped_data !! target_major with
  | None => Raise (KeyError target_major)
  | Some major_data =>
      let packages_data := default [] (package major_data) in
      let modules_data := default [] (dnf_module major_data) in
      reference_package_names ← reference_package_names cutoff packages_data;
      reference_module_names ← reference_module_names cutoff modules_data;
      let retired_installed_packages :=
        Py.sorted_set (list_to_set installed_packages ∩ list_to_set reference_package_names) in
      let installed_dnf_modules :=
        Py.sorted_set (dom installed_dnf_modules_raw ∩ list_to_set reference_module_names) in
      let matched_dnf_modules_packages :=
        Py.sorted_set (list_to_set
          (module_name ← installed_dnf_modules;
           default [] (installed_dnf_modules_raw !! module_name))) in
      let any_match :=
        negb (bool_decide (retired_installed_packages = []))
        || negb (bool_decide (installed_dnf_modules = [])) in
      let packages_to_remove :=
        Py.sorted_set (list_to_set (retired_installed_packages ++ matched_dnf_modules_packages)) in
      Ok ({| target_major := target_major;
             matched_packages := retired_installed_packages;
             matched_dnf_modules := installed_dnf_modules;
             matched_dnf_modules_packages := matched_dnf_modules_packages;
             any_match := any_match |},
          packages_to_remove)
  end.

End core.

(** ** Text beyond Latin-1: the file of [detect_target_major]

    The file is read as UTF-8, so a line of it can hold any character of
    Unicode. Here a text is the list of its code points, and the built-ins
    that [detect_target_major] calls are modelled on all of them. What
    depends on the Unicode character database of the interpreter is a
    parameter, with the facts that no version of the database changes. *)

Module Unicode.

Definition text := list N.

(** A text of Latin-1 characters. *)
Definition of_string (s : string) : text := Py.code <$> list_ascii_of_string s.

(** Whether a code point is in one of the ranges of a table. *)
Definition in_ranges (ranges : list (N * N)) (c : N) : bool :=
  existsb (λ range, (range.1 <=? c) && (c <=? range.2))%N ranges.

(** [str.isspace] of one character: TAB to CR, FS to the space, NEL, the
    no-break space, and the spaces and separators beyond Latin-1. *)
Definition space_ranges : list (N * N) :=
  [(9, 13); (28, 32); (133, 133); (160, 160); (5760, 5760); (8192, 8202);
   (8232, 8233); (8239, 8239); (8287, 8287); (12288, 12288)]%N.

Definition isspace (c : N) : bool := in_ranges space_ranges c.

(** The character database of the interpreter:
    - [isdigit_char c], for [str.isdigit] of the character: its numeric type
      is [Digit] or [Decimal];
    - [decimal c]: the value of a decimal digit, of any script;
    - [isprintable c], for [str.isprintable] of the character.
    On Latin-1 they are what [Py] has; a decimal digit is a digit, and its
    value is below ten; white space is no digit. *)
Class Database := {
  isdigit_char : N → bool;
  decimal : N → option N;
  isprintable : N → bool;
  isdigit_char_latin1 c : isdigit_char (Py.code c) = Py.isdigit_char c;
  decimal_latin1 c :
    decimal (Py.code c) = if Py.is_decimal c then Some (Py.code c - 48)%N else None;
  isprintable_latin1 c : isprintable (Py.code c) = Py.isprintable c;
  decimal_isdigit c d : decimal c = Some d → isdigit_char c = true;
  decimal_below_ten c d : decimal c = Some d → (d < 10)%N;
  isspace_not_digit c : isspace c = true → isdigit_char c = false
}.

Definition is_empty (s : text) : bool :=
  match s with [] => true | _ => false end.

(** [s.lstrip()], [s.rstrip()], [s.strip()] for a set of characters [p]. *)
Fixpoint lstrip_by (p : N → bool) (s : text) : text :=
  match s with
  | [] => []
  | c :: s' => if p c then lstrip_by p s' else s
  end.

Fixpoint rstrip_by (p : N → bool) (s : text) : text :=
  match s with
  | [] => []
  | c :: s' =>
      let r := rstrip_by p s' in
      if p c && is_empty r then [] else c :: r
  end.

Definition strip_by (p : N → bool) (s : text) : text :=
  rstrip_by p (lstrip_by p s).

(** [s.strip()] *)
Definition strip (s : text) : text := strip_by isspace s.

(** [s.strip(ch)] for a one-character argument. *)
Definition strip_char (ch : N) (s : text) : text :=
  strip_by (λ c, bool_decide (c = ch)) s.

(** [s.split(sep, 1)]: one element when [sep] does not occur, else the text
    before the first [sep] and the text after it. *)
Fixpoint split1 (sep : N) (s : text) : list text :=
  match s with
  | [] => [[]]
  | c :: s' =>
      if bool_decide (c = sep) then [[]; s']
      else match split1 sep s' with
           | h :: t => (c :: h) :: t
           | [] => [[c]]
           end
  end.

(** [s.startswith(p)] *)
Fixpoint startswith (p s : text) : bool :=
  match p, s with
  | [], _ => true
  | a :: p', b :: s' => bool_decide (a = b) && startswith p' s'
  | _ :: _, [] => false
  end.

Definition CR : N := 13.
Definition LF : N := 10.

(** The lines of a file read in text mode, as [for line in file_handle] yields
    them: each of LF, CR LF and CR ends a line and is read as LF, which stays
    at the end of the line. *)
Fixpoint readlines_go (cur : text) (s : text) : list text :=
  match s with
  | [] => if is_empty cur then [] else [rev cur]
  | c :: s' =>
      if bool_decide (c = LF) then
        rev (LF :: cur) :: readlines_go [] s'
      else if bool_decide (c = CR) then
        rev (LF :: cur) ::
          match s' with
          | c' :: s'' =>
              if bool_decide (c' = LF)
              then readlines_go [] s''
              else readlines_go [] s'
          | [] => []
          end
      else readlines_go (c :: cur) s'
  end.

Definition readlines (s : text) : list text := readlines_go [] s.

(** [ValueError], with its text, and [IndexError]. *)
Inductive exn :=
  | ValueError (msg : text)
  | IndexError.

Section builtins.
Context {ucd : Database}.

(** [s.isdigit()]: non-empty and every character a digit. *)
Definition isdigit (s : text) : bool :=
  negb (is_empty s) && forallb isdigit_char s.

(** *** [repr] of a string *)

Definition DQUOTE : N := 34.
Definition SQUOTE : N := 39.
Definition BACKSLASH : N := 92.
Definition TAB : N := 9.

(** The last [width] hexadecimal digits of [n]. *)
Fixpoint hex (width : nat) (n : N) : text :=
  match width with
  | O => []
  | S w => hex w (n / 16) ++ [Py.code (Py.hex_digit (n mod 16))]
  end.

Definition escape_char (quote c : N) : text :=
  if bool_decide (c = quote) || bool_decide (c = BACKSLASH) then [BACKSLASH; c]
  else if bool_decide (c = TAB) then BACKSLASH :: of_string "t"
  else if bool_decide (c = LF) then BACKSLASH :: of_string "n"
  else if bool_decide (c = CR) then BACKSLASH :: of_string "r"
  else if ((c <? 32) || (c =? 127))%N then BACKSLASH :: of_string "x" ++ hex 2 c
  else if (c <? 127)%N then [c]
  else if isprintable c then [c]
  else if (c <=? 255)%N then BACKSLASH :: of_string "x" ++ hex 2 c
  else if (c <=? 65535)%N then BACKSLASH :: of_string "u" ++ hex 4 c
  else BACKSLASH :: of_string "U" ++ hex 8 c.

(** [repr(s)]: single quotes, unless [s] has a single quote and no double
    quote. *)
Definition repr (s : text) : text :=
  let quote :=
    if bool_decide (SQUOTE ∈ s) && negb (bool_decide (DQUOTE ∈ s))
    then DQUOTE else SQUOTE in
  quote :: (s ≫= escape_char quote) ++ [quote].

(** *** [int(s)] in base 10 *)

(** The text that [int] reads in place of [s]: [s] itself when it is ASCII;
    else white space is read as a space and a decimal digit of any script
    as its ASCII digit, and the text ends with a question mark at the first
    character that is neither of them nor below 127. *)
Fixpoint decimal_and_space_to_ascii (s : text) : string :=
  match s with
  | [] => EmptyString
  | c :: s' =>
      if (c <? 127)%N then String (ascii_of_N c) (decimal_and_space_to_ascii s')
      else if isspace c then String " " (decimal_and_space_to_ascii s')
      else match decimal c with
           | Some d => String (ascii_of_N (48 + d)) (decimal_and_space_to_ascii s')
           | None => "?"
           end
  end.

Definition to_ascii (s : text) : string :=
  if forallb (λ c, c <? 128)%N s then string_of_list_ascii (ascii_of_N <$> s)
  else decimal_and_space_to_ascii s.

Definition int_invalid_literal (s : text) : exn :=
  ValueError (of_string "invalid literal for int() with base 10: " ++ take 200 (repr s)).

Definition int_limit_exceeded (limit digits : N) : exn :=
  ValueError (of_string
    ("Exceeds the limit (" +:+ pretty limit
     +:+ " digits) for integer string conversion: value has " +:+ pretty digits
     +:+ " digits; use sys.set_int_max_str_digits() to increase the limit")).

(** [int(s)] under the interpreter limit [max_str_digits] on the number of
    digits of a literal (0: no limit): the literal is read in the ASCII text
    that stands for [s], and the error for a text that is no literal shows
    [s] itself. *)
Definition int (max_str_digits : N) (s : text) : exn + Z :=
  let '(negative, u) := Py.split_sign (Py.lstrip_by Py.int_space (to_ascii s)) in
  let body := Py.take_while Py.int_body_char u in
  let rest := Py.lstrip_by Py.int_body_char u in
  if Py.int_body_ok false body then
    if ((0 <? max_str_digits) && (max_str_digits <? Py.count_decimal body))%N
    then inl (int_limit_exceeded max_str_digits (Py.count_decimal body))
    else if Py.forallb_str Py.int_space rest
    then inr (if negative then - Py.int_body_value 0 body else Py.int_body_value 0 body)
    else inl (int_invalid_literal s)
  else inl (int_invalid_literal s).

End builtins.

(** *** [detect_target_major] *)

Section detector.
Context {interp : Interpreter} {ucd : Database}.

Definition version_id_not_found : exn :=
  ValueError (of_string
    "Unable to detect VERSION_ID from /etc/os-release; pass target_major explicitly.").

Definition major_not_parsed (version_id : text) : exn :=
  ValueError (of_string "Unable to parse major version from VERSION_ID="
              ++ repr version_id ++ of_string "; pass target_major explicitly.").

(** The loop over the lines of the file, up to its [break]. *)
Fixpoint find_version_id (lines : list text) : exn + option text :=
  match lines with
  | [] => inr None
  | line :: rest =>
      let line := strip line in
      if startswith (of_string "VERSION_ID=") line then
        match split1 61 line with
        | _ :: value :: _ =>
            inr (Some (strip_char SQUOTE (strip_char DQUOTE (strip value))))
        | _ => inl IndexError
        end
      else find_version_id rest
  end.

(** [detect_target_major]: [os_release] is the text of the file, [None] when
    the path does not exist or reading it raises [OSError]. *)
Definition detect_target_major (os_release : option text) : exn + text :=
  match (match os_release with
         | Some text => find_version_id (readlines text)
         | None => inr None
         end) with
  | inl e => inl e
  | inr None | inr (Some []) => inl version_id_not_found
  | inr (Some version_id) =>
      match split1 46 version_id with
      | major :: _ =>
          if negb (isdigit major) then inl (major_not_parsed version_id)
          else match int int_max_str_digits major with
               | inl e => inl e
               | inr n => inr (of_string ("el" +:+ pretty n))
               end
      | [] => inl IndexError
      end
  end.

End detector.

End Unicode.

(** ** The character database of CPython 3.11: Unicode 14.0 *)

(** The decimal digits: in each range the digits 0 to 9 follow each other,
    from the first code point on. *)
Definition decimal_ranges : list (N * N) :=
  [(48, 57); (1632, 1641); (1776, 1785); (1984, 1993); (2406, 2415); (2534, 2543);
   (2662, 2671); (2790, 2799); (2918, 2927); (3046, 3055); (3174, 3183); (3302, 3311);
   (3430, 3439); (3558, 3567); (3664, 3673); (3792, 3801); (3872, 3881); (4160, 4169);
   (4240, 4249); (6112, 6121); (6160, 6169); (6470, 6479); (6608, 6617); (6784, 6793);
   (6800, 6809); (6992, 7001); (7088, 7097); (7232, 7241); (7248, 7257);
   (42528, 42537); (43216, 43225); (43264, 43273); (43472, 43481); (43504, 43513);
   (43600, 43609); (44016, 44025); (65296, 65305); (66720, 66729); (68912, 68921);
   (69734, 69743); (69872, 69881); (69942, 69951); (70096, 70105); (70384, 70393);
   (70736, 70745); (70864, 70873); (71248, 71257); (71360, 71369); (71472, 71481);
   (71904, 71913); (72016, 72025); (72784, 72793); (73040, 73049); (73120, 73129);
   (92768, 92777); (92864, 92873); (93008, 93017); (120782, 120831); (123200, 123209);
   (123632, 123641); (125264, 125273); (130032, 130041)]%N.

(** The characters of numeric type [Digit] or [Decimal]. *)
Definition digit_ranges : list (N * N) :=
  [(48, 57); (178, 179); (185, 185); (1632, 1641); (1776, 1785); (1984, 1993);
   (2406, 2415); (2534, 2543); (2662, 2671); (2790, 2799); (2918, 2927); (3046, 3055);
   (3174, 3183); (3302, 3311); (3430, 3439); (3558, 3567); (3664, 3673); (3792, 3801);
   (3872, 3881); (4160, 4169); (4240, 4249); (4969, 4977); (6112, 6121); (6160, 6169);
   (6470, 6479); (6608, 6618); (6784, 6793); (6800, 6809); (6992, 7001); (7088, 7097);
   (7232, 7241); (7248, 7257); (8304, 8304); (8308, 8313); (8320, 8329); (9312, 9320);
   (9332, 9340); (9352, 9360); (9450, 9450); (9461, 9469); (9471, 9471);
   (10102, 10110); (10112, 10120); (10122, 10130); (42528, 42537); (43216, 43225);
   (43264, 43273); (43472, 43481); (43504, 43513); (43600, 43609); (44016, 44025);
   (65296, 65305); (66720, 66729); (68160, 68163); (68912, 68921); (69216, 69224);
   (69714, 69722); (69734, 69743); (69872, 69881); (69942, 69951); (70096, 70105);
   (70384, 70393); (70736, 70745); (70864, 70873); (71248, 71257); (71360, 71369);
   (71472, 71481); (71904, 71913); (72016, 72025); (72784, 72793); (73040, 73049);
   (73120, 73129); (92768, 92777); (92864, 92873); (93008, 93017); (120782, 120831);
   (123200, 123209); (123632, 123641); (125264, 125273); (127232, 127242);
   (130032, 130041)]%N.

(** The printable characters. *)
Definition printable_ranges : list (N * N) :=
  [(32, 126); (161, 172); (174, 887); (890, 895); (900, 906); (908, 908); (910, 929);
   (931, 1327); (1329, 1366); (1369, 1418); (1421, 1423); (1425, 1479); (1488, 1514);
   (1519, 1524); (1542, 1563); (1565, 1756); (1758, 1805); (1808, 1866); (1869, 1969);
   (1984, 2042); (2045, 2093); (2096, 2110); (2112, 2139); (2142, 2142); (2144, 2154);
   (2160, 2190); (2200, 2273); (2275, 2435); (2437, 2444); (2447, 2448); (2451, 2472);
   (2474, 2480); (2482, 2482); (2486, 2489); (2492, 2500); (2503, 2504); (2507, 2510);
   (2519, 2519); (2524, 2525); (2527, 2531); (2534, 2558); (2561, 2563); (2565, 2570);
   (2575, 2576); (2579, 2600); (2602, 2608); (2610, 2611); (2613, 2614); (2616, 2617);
   (2620, 2620); (2622, 2626); (2631, 2632); (2635, 2637); (2641, 2641); (2649, 2652);
   (2654, 2654); (2662, 2678); (2689, 2691); (2693, 2701); (2703, 2705); (2707, 2728);
   (2730, 2736); (2738, 2739); (2741, 2745); (2748, 2757); (2759, 2761); (2763, 2765);
   (2768, 2768); (2784, 2787); (2790, 2801); (2809, 2815); (2817, 2819); (2821, 2828);
   (2831, 2832); (2835, 2856); (2858, 2864); (2866, 2867); (2869, 2873); (2876, 2884);
   (2887, 2888); (2891, 2893); (2901, 2903); (2908, 2909); (2911, 2915); (2918, 2935);
   (2946, 2947); (2949, 2954); (2958, 2960); (2962, 2965); (2969, 2970); (2972, 2972);
   (2974, 2975); (2979, 2980); (2984, 2986); (2990, 3001); (3006, 3010); (3014, 3016);
   (3018, 3021); (3024, 3024); (3031, 3031); (3046, 3066); (3072, 3084); (3086, 3088);
   (3090, 3112); (3114, 3129); (3132, 3140); (3142, 3144); (3146, 3149); (3157, 3158);
   (3160, 3162); (3165, 3165); (3168, 3171); (3174, 3183); (3191, 3212); (3214, 3216);
   (3218, 3240); (3242, 3251); (3253, 3257); (3260, 3268); (3270, 3272); (3274, 3277);
   (3285, 3286); (3293, 3294); (3296, 3299); (3302, 3311); (3313, 3314); (3328, 3340);
   (3342, 3344); (3346, 3396); (3398, 3400); (3402, 3407); (3412, 3427); (3430, 3455);
   (3457, 3459); (3461, 3478); (3482, 3505); (3507, 3515); (3517, 3517); (3520, 3526);
   (3530, 3530); (3535, 3540); (3542, 3542); (3544, 3551); (3558, 3567); (3570, 3572);
   (3585, 3642); (3647, 3675); (3713, 3714); (3716, 3716); (3718, 3722); (3724, 3747);
   (3749, 3749); (3751, 3773); (3776, 3780); (3782, 3782); (3784, 3789); (3792, 3801);
   (3804, 3807); (3840, 3911); (3913, 3948); (3953, 3991); (3993, 4028); (4030, 4044);
   (4046, 4058); (4096, 4293); (4295, 4295); (4301, 4301); (4304, 4680); (4682, 4685);
   (4688, 4694); (4696, 4696); (4698, 4701); (4704, 4744); (4746, 4749); (4752, 4784);
   (4786, 4789); (4792, 4798); (4800, 4800); (4802, 4805); (4808, 4822); (4824, 4880);
   (4882, 4885); (4888, 4954); (4957, 4988); (4992, 5017); (5024, 5109); (5112, 5117);
   (5120, 5759); (5761, 5788); (5792, 5880); (5888, 5909); (5919, 5942); (5952, 5971);
   (5984, 5996); (5998, 6000); (6002, 6003); (6016, 6109); (6112, 6121); (6128, 6137);
   (6144, 6157); (6159, 6169); (6176, 6264); (6272, 6314); (6320, 6389); (6400, 6430);
   (6432, 6443); (6448, 6459); (6464, 6464); (6468, 6509); (6512, 6516); (6528, 6571);
   (6576, 6601); (6608, 6618); (6622, 6683); (6686, 6750); (6752, 6780); (6783, 6793);
   (6800, 6809); (6816, 6829); (6832, 6862); (6912, 6988); (6992, 7038); (7040, 7155);
   (7164, 7223); (7227, 7241); (7245, 7304); (7312, 7354); (7357, 7367); (7376, 7418);
   (7424, 7957); (7960, 7965); (7968, 8005); (8008, 8013); (8016, 8023); (8025, 8025);
   (8027, 8027); (8029, 8029); (8031, 8061); (8064, 8116); (8118, 8132); (8134, 8147);
   (8150, 8155); (8157, 8175); (8178, 8180); (8182, 8190); (8208, 8231); (8240, 8286);
   (8304, 8305); (8308, 8334); (8336, 8348); (8352, 8384); (8400, 8432); (8448, 8587);
   (8592, 9254); (9280, 9290); (9312, 11123); (11126, 11157); (11159, 11507);
   (11513, 11557); (11559, 11559); (11565, 11565); (11568, 11623); (11631, 11632);
   (11647, 11670); (11680, 11686); (11688, 11694); (11696, 11702); (11704, 11710);
   (11712, 11718); (11720, 11726); (11728, 11734); (11736, 11742); (11744, 11869);
   (11904, 11929); (11931, 12019); (12032, 12245); (12272, 12283); (12289, 12351);
   (12353, 12438); (12441, 12543); (12549, 12591); (12593, 12686); (12688, 12771);
   (12784, 12830); (12832, 42124); (42128, 42182); (42192, 42539); (42560, 42743);
   (42752, 42954); (42960, 42961); (42963, 42963); (42965, 42969); (42994, 43052);
   (43056, 43065); (43072, 43127); (43136, 43205); (43214, 43225); (43232, 43347);
   (43359, 43388); (43392, 43469); (43471, 43481); (43486, 43518); (43520, 43574);
   (43584, 43597); (43600, 43609); (43612, 43714); (43739, 43766); (43777, 43782);
   (43785, 43790); (43793, 43798); (43808, 43814); (43816, 43822); (43824, 43883);
   (43888, 44013); (44016, 44025); (44032, 55203); (55216, 55238); (55243, 55291);
   (63744, 64109); (64112, 64217); (64256, 64262); (64275, 64279); (64285, 64310);
   (64312, 64316); (64318, 64318); (64320, 64321); (64323, 64324); (64326, 64450);
   (64467, 64911); (64914, 64967); (64975, 64975); (65008, 65049); (65056, 65106);
   (65108, 65126); (65128, 65131); (65136, 65140); (65142, 65276); (65281, 65470);
   (65474, 65479); (65482, 65487); (65490, 65495); (65498, 65500); (65504, 65510);
   (65512, 65518); (65532, 65533); (65536, 65547); (65549, 65574); (65576, 65594);
   (65596, 65597); (65599, 65613); (65616, 65629); (65664, 65786); (65792, 65794);
   (65799, 65843); (65847, 65934); (65936, 65948); (65952, 65952); (66000, 66045);
   (66176, 66204); (66208, 66256); (66272, 66299); (66304, 66339); (66349, 66378);
   (66384, 66426); (66432, 66461); (66463, 66499); (66504, 66517); (66560, 66717);
   (66720, 66729); (66736, 66771); (66776, 66811); (66816, 66855); (66864, 66915);
   (66927, 66938); (66940, 66954); (66956, 66962); (66964, 66965); (66967, 66977);
   (66979, 66993); (66995, 67001); (67003, 67004); (67072, 67382); (67392, 67413);
   (67424, 67431); (67456, 67461); (67463, 67504); (67506, 67514); (67584, 67589);
   (67592, 67592); (67594, 67637); (67639, 67640); (67644, 67644); (67647, 67669);
   (67671, 67742); (67751, 67759); (67808, 67826); (67828, 67829); (67835, 67867);
   (67871, 67897); (67903, 67903); (67968, 68023); (68028, 68047); (68050, 68099);
   (68101, 68102); (68108, 68115); (68117, 68119); (68121, 68149); (68152, 68154);
   (68159, 68168); (68176, 68184); (68192, 68255); (68288, 68326); (68331, 68342);
   (68352, 68405); (68409, 68437); (68440, 68466); (68472, 68497); (68505, 68508);
   (68521, 68527); (68608, 68680); (68736, 68786); (68800, 68850); (68858, 68903);
   (68912, 68921); (69216, 69246); (69248, 69289); (69291, 69293); (69296, 69297);
   (69376, 69415); (69424, 69465); (69488, 69513); (69552, 69579); (69600, 69622);
   (69632, 69709); (69714, 69749); (69759, 69820); (69822, 69826); (69840, 69864);
   (69872, 69881); (69888, 69940); (69942, 69959); (69968, 70006); (70016, 70111);
   (70113, 70132); (70144, 70161); (70163, 70206); (70272, 70278); (70280, 70280);
   (70282, 70285); (70287, 70301); (70303, 70313); (70320, 70378); (70384, 70393);
   (70400, 70403); (70405, 70412); (70415, 70416); (70419, 70440); (70442, 70448);
   (70450, 70451); (70453, 70457); (70459, 70468); (70471, 70472); (70475, 70477);
   (70480, 70480); (70487, 70487); (70493, 70499); (70502, 70508); (70512, 70516);
   (70656, 70747); (70749, 70753); (70784, 70855); (70864, 70873); (71040, 71093);
   (71096, 71133); (71168, 71236); (71248, 71257); (71264, 71276); (71296, 71353);
   (71360, 71369); (71424, 71450); (71453, 71467); (71472, 71494); (71680, 71739);
   (71840, 71922); (71935, 71942); (71945, 71945); (71948, 71955); (71957, 71958);
   (71960, 71989); (71991, 71992); (71995, 72006); (72016, 72025); (72096, 72103);
   (72106, 72151); (72154, 72164); (72192, 72263); (72272, 72354); (72368, 72440);
   (72704, 72712); (72714, 72758); (72760, 72773); (72784, 72812); (72816, 72847);
   (72850, 72871); (72873, 72886); (72960, 72966); (72968, 72969); (72971, 73014);
   (73018, 73018); (73020, 73021); (73023, 73031); (73040, 73049); (73056, 73061);
   (73063, 73064); (73066, 73102); (73104, 73105); (73107, 73112); (73120, 73129);
   (73440, 73464); (73648, 73648); (73664, 73713); (73727, 74649); (74752, 74862);
   (74864, 74868); (74880, 75075); (77712, 77810); (77824, 78894); (82944, 83526);
   (92160, 92728); (92736, 92766); (92768, 92777); (92782, 92862); (92864, 92873);
   (92880, 92909); (92912, 92917); (92928, 92997); (93008, 93017); (93019, 93025);
   (93027, 93047); (93053, 93071); (93760, 93850); (93952, 94026); (94031, 94087);
   (94095, 94111); (94176, 94180); (94192, 94193); (94208, 100343); (100352, 101589);
   (101632, 101640); (110576, 110579); (110581, 110587); (110589, 110590);
   (110592, 110882); (110928, 110930); (110948, 110951); (110960, 111355);
   (113664, 113770); (113776, 113788); (113792, 113800); (113808, 113817);
   (113820, 113823); (118528, 118573); (118576, 118598); (118608, 118723);
   (118784, 119029); (119040, 119078); (119081, 119154); (119163, 119274);
   (119296, 119365); (119520, 119539); (119552, 119638); (119648, 119672);
   (119808, 119892); (119894, 119964); (119966, 119967); (119970, 119970);
   (119973, 119974); (119977, 119980); (119982, 119993); (119995, 119995);
   (119997, 120003); (120005, 120069); (120071, 120074); (120077, 120084);
   (120086, 120092); (120094, 120121); (120123, 120126); (120128, 120132);
   (120134, 120134); (120138, 120144); (120146, 120485); (120488, 120779);
   (120782, 121483); (121499, 121503); (121505, 121519); (122624, 122654);
   (122880, 122886); (122888, 122904); (122907, 122913); (122915, 122916);
   (122918, 122922); (123136, 123180); (123184, 123197); (123200, 123209);
   (123214, 123215); (123536, 123566); (123584, 123641); (123647, 123647);
   (124896, 124902); (124904, 124907); (124909, 124910); (124912, 124926);
   (124928, 125124); (125127, 125142); (125184, 125259); (125264, 125273);
   (125278, 125279); (126065, 126132); (126209, 126269); (126464, 126467);
   (126469, 126495); (126497, 126498); (126500, 126500); (126503, 126503);
   (126505, 126514); (126516, 126519); (126521, 126521); (126523, 126523);
   (126530, 126530); (126535, 126535); (126537, 126537); (126539, 126539);
   (126541, 126543); (126545, 126546); (126548, 126548); (126551, 126551);
   (126553, 126553); (126555, 126555); (126557, 126557); (126559, 126559);
   (126561, 126562); (126564, 126564); (126567, 126570); (126572, 126578);
   (126580, 126583); (126585, 126588); (126590, 126590); (126592, 126601);
   (126603, 126619); (126625, 126627); (126629, 126633); (126635, 126651);
   (126704, 126705); (126976, 127019); (127024, 127123); (127136, 127150);
   (127153, 127167); (127169, 127183); (127185, 127221); (127232, 127405);
   (127462, 127490); (127504, 127547); (127552, 127560); (127568, 127569);
   (127584, 127589); (127744, 128727); (128733, 128748); (128752, 128764);
   (128768, 128883); (128896, 128984); (128992, 129003); (129008, 129008);
   (129024, 129035); (129040, 129095); (129104, 129113); (129120, 129159);
   (129168, 129197); (129200, 129201); (129280, 129619); (129632, 129645);
   (129648, 129652); (129656, 129660); (129664, 129670); (129680, 129708);
   (129712, 129722); (129728, 129733); (129744, 129753); (129760, 129767);
   (129776, 129782); (129792, 129938); (129940, 129994); (130032, 130041);
   (131072, 173791); (173824, 177976); (177984, 178205); (178208, 183969);
   (183984, 191456); (194560, 195101); (196608, 201546); (917760, 917999)]%N.

(** The value of a decimal digit, from the ranges of the digits. *)
Definition decimal_in (ranges : list (N * N)) (c : N) : option N :=
  (λ range, (c - range.1) mod 10)%N
    <$> find (λ range, (range.1 <=? c) && (c <=? range.2))%N ranges.

(** Every range of [small] lies in a range of [big]. *)
Definition ranges_within (small big : list (N * N)) : bool :=
  forallb (λ r, existsb (λ r', (r'.1 <=? r.1) && (r.2 <=? r'.2))%N big) small.

(** No range of [small] meets a range of [big]. *)
Definition ranges_apart (small big : list (N * N)) : bool :=
  forallb (λ r, forallb (λ r', (r.2 <? r'.1) || (r'.2 <? r.1))%N big) small.

(** ** The inventory query: [collect_installed_from_rpm] *)

(** The command line of the query; [rpm] itself reads the two characters
    [\n] that end the format as a line feed. *)
Definition rpm_query : list string :=
  ["rpm"; "-qa"; "--qf"; "%{NAME} %{MODULARITYLABEL}\n"].

(** [collect_installed_from_rpm]: [run_command] answers with a return code,
    the standard output and the standard error, or fails in a way of its own
    ([E]), which is passed on. The return code and the standard error are
    not looked at. *)
Definition collect_installed_from_rpm {E : Type}
    (run_command : list string → E + Z * string * string)
    : E + result (gmap string (list string) * list string) :=
  match run_command rpm_query with
  | inl failure => inl failure
  | inr (_return_code, output, _error) => inr (parse_rpm_modularity_output output)
  end.

(** * The front ends *)

(** What both front ends read from the host besides the answer to the
    query: the text of [/etc/os-release] ([None] as for
    [detect_target_major]) and the date of the day, [date.today()]. *)
Record host := {
  os_release : option string;
  today : date
}.

(** [x or y] for an [x] that is a string or [None]. *)
Definition or_else (x : option string) (y : string) : string :=
  if Py.truthy x then Py.str_of x else y.

(** [str(xs)] of a list of strings: the [repr] of each, between brackets. *)
Fixpoint repr_items (xs : list string) : string :=
  match xs with
  | [] => EmptyString
  | [x] => Py.repr x
  | x :: rest => Py.repr x +:+ ", " +:+ repr_items rest
  end.

Definition str_list (xs : list string) : string := "[" +:+ repr_items xs +:+ "]".

(** ** The Ansible module: [plugins/modules/appstream_check.py] *)

Module appstream_check.

(** [module.params], once Ansible has checked them against the argument
    specification; the table is typed as for the evaluator. *)
Record params := {
  param_grouped_data : gmap string major_data;
  param_fail_on_match : bool;
  param_target_major : option string;
  param_date : option string
}.

(** The keyword arguments of [exit_json], and of [fail_json] on a match. *)
Record response := {
  changed : bool;
  appstream_check_result : check_result;
  packages_to_remove : list string;
  response_date : string
}.

(** How [main] ends. [exit_json] and [fail_json] end the process; a
    [fail_json] has its message and, on a match, the response. *)
Inductive outcome :=
  | exit_json (r : response)
  | fail_json (msg : string) (r : option response)
  | uncaught (e : exn).

(** The [AnsibleModule] object: its parameters, and [run_command command
    check_rc], which answers as the process did or ends the module with a
    [fail_json] of Ansible ([inl], with its message), as it does with
    [check_rc] on a return code other than zero. *)
Record AnsibleModule := {
  module_params : params;
  run_command : list string → bool → string + Z * string * string
}.

(** A step of [main]: it goes on with a value, or the module has ended. *)
Inductive step (A : Type) :=
  | continue (a : A)
  | stop (o : outcome).
Arguments continue {A} a.
Arguments stop {A} o.

Global Instance step_bind : MBind step := λ A B k s,
  match s with
  | continue a => k a
  | stop o => stop o
  end.

Section main.
Context {interp : Interpreter}.

Definition _detect_target_major (h : host) : step string :=
  match detect_target_major (os_release h) with
  | Ok target => continue target
  | Raise (ValueError msg) => stop (fail_json msg None)
  | Raise e => stop (uncaught e)
  end.

Definition _run_rpm_modularity (module : AnsibleModule)
    : step (gmap string (list string) * list string) :=
  match collect_installed_from_rpm (λ command, run_command module command true) with
  | inl msg => stop (fail_json msg None)
  | inr (Ok inventory) => continue inventory
  | inr (Raise (ValueError msg)) => stop (fail_json msg None)
  | inr (Raise e) => stop (uncaught e)
  end.

Definition target_not_found (target : string) : string :=
  "target_major '" +:+ target +:+ "' not found in grouped_data.".

Definition match_detected (r : check_result) (removal : list string) : string :=
  "Detected matching AppStream entries on target. "
  +:+ "packages=" +:+ str_list (matched_packages r)
  +:+ " dnf_modules=" +:+ str_list (matched_dnf_modules r)
  +:+ " packages_including_modules=" +:+ str_list removal.

(** [main]. The table of the parameters is a dictionary, for which
    [grouped_data or {}] changes nothing. The date is validated with
    [parse_date] before the query runs; the evaluation parses it again. *)
Definition main (module : AnsibleModule) (h : host) : outcome :=
  let grouped_data := param_grouped_data (module_params module) in
  let fail_on_match := param_fail_on_match (module_params module) in
  let ended :=
    target ←
      (if Py.truthy (param_target_major (module_params module))
       then continue (Py.str_of (param_target_major (module_params module)))
       else _detect_target_major h);
    let selected_date :=
      or_else (param_date (module_params module)) (isoformat (today h)) in
    _ ← match parse_date (DStr selected_date) with
        | Ok cutoff => continue cutoff
        | Raise (ValueError msg) => stop (fail_json msg None)
        | Raise e => stop (uncaught e)
        end;
    '(installed_dnf_modules_raw, installed_packages) ← _run_rpm_modularity module;
    '(result, removal) ←
      match evaluate_appstream_check grouped_data target (DStr selected_date)
              installed_dnf_modules_raw installed_packages with
      | Ok evaluated => continue evaluated
      | Raise (KeyError _) => stop (fail_json (target_not_found target) None)
      | Raise e => stop (uncaught e)
      end;
    let response :=
      {| changed := false;
         appstream_check_result := result;
         packages_to_remove := removal;
         response_date := selected_date |} in
    if fail_on_match && any_match result
    then stop (fail_json (match_detected result removal) (Some response))
    else stop (exit_json response) in
  match ended with
  | continue o | stop o => o
  end.

End main.

End appstream_check.

(** ** The stand-alone script: [scripts/appstream_check_standalone.py] *)

Module appstream_check_standalone.

Inductive output_format := text | json | yaml.

(** The command-line arguments, as [_parse_args] returns them. *)
Record args := {
  arg_grouped_data_file : string;
  arg_target_major : option string;
  arg_date : option string;
  arg_output_format : output_format;
  arg_fail_on_match : bool
}.

(** The exceptions [main] tells apart: those of the core, the one of
    [subprocess.run], those of the file system, and any other
    ([yaml.YAMLError], [TypeError], ...). The text is [str(exc)]. *)
Inductive error :=
  | core (e : exn)
  | CalledProcessError (text : string)
  | OSError (text : string)
  | other (text : string).

Record payload := {
  payload_date : string;
  appstream_check_result : check_result;
  packages_to_remove : list string
}.

(** How the script ends: with an exit status, after writing to the standard
    output and to the standard error; or with an exception that [main] does
    not catch. *)
Inductive ending :=
  | exited (stdout stderr : string) (status : Z)
  | uncaught (e : error).

(** What [print(s)] writes. *)
Definition print (s : string) : string := s +:+ String Py.LF EmptyString.

(** What the script calls outside the repository and the core:
    - [load_grouped_data file]: the table that [_load_grouped_data] returns
      for the file, read at the type of the evaluator, or what it raises;
    - [subprocess_run command], for
      [subprocess.run(command, check=True, capture_output=True, text=True)]:
      the return code, the standard output and the standard error of the
      process, or what it raises;
    - [json_dumps payload], for [json.dumps(payload, indent=2, sort_keys=True)];
    - [yaml_safe_dump payload], for [yaml.safe_dump(payload, sort_keys=False)]. *)
Class System := {
  load_grouped_data : string → error + gmap string major_data;
  subprocess_run : list string → error + Z * string * string;
  json_dumps : payload → string;
  yaml_safe_dump : payload → string
}.

Section main.
Context {interp : Interpreter} {system : System}.

Definition _run_command (command : list string) : error + Z * string * string :=
  subprocess_run command.

(** An exception of the core, among those of the script. *)
Definition lift {A} (r : result A) : error + A :=
  match r with
  | Ok a => inr a
  | Raise e => inl (core e)
  end.

Definition _collect_payload (a : args) (h : host) : error + payload :=
  match load_grouped_data (arg_grouped_data_file a) with
  | inl e => inl e
  | inr grouped_data =>
      match (if Py.truthy (arg_target_major a)
             then inr (Py.str_of (arg_target_major a))
             else lift (detect_target_major (os_release h))) with
      | inl e => inl e
      | inr target =>
          let selected_date := or_else (arg_date a) (isoformat (today h)) in
          match lift (parse_date (DStr selected_date)) with
          | inl e => inl e
          | inr _ =>
              match collect_installed_from_rpm _run_command with
              | inl e => inl e
              | inr (Raise e) => inl (core e)
              | inr (Ok (installed_dnf_modules_raw, installed_packages)) =>
                  match lift (evaluate_appstream_check grouped_data target
                                (DStr selected_date)
                                installed_dnf_modules_raw installed_packages) with
                  | inl e => inl e
                  | inr (result, removal) =>
                      inr {| payload_date := selected_date;
                             appstream_check_result := result;
                             packages_to_remove := removal |}
                  end
              end
          end
      end
  end.

(** One block of the text report: the heading and a line for each item, or
    the line that says there is none. *)
Definition block (heading none : string) (items : list string) : string :=
  match items with
  | [] => print (String Py.LF none)
  | _ =>
      print (String Py.LF heading)
      +:+ foldr (λ item out, print ("- " +:+ item) +:+ out) EmptyString items
  end.

Definition _print_text_output (p : payload) : string :=
  print ("Target major: " +:+ target_major (appstream_check_result p))
  +:+ print ("Date: " +:+ payload_date p)
  +:+ block "Outdated packages:" "No outdated packages"
        (matched_packages (appstream_check_result p))
  +:+ block "Outdated modules:" "No outdated modules"
        (matched_dnf_modules (appstream_check_result p))
  +:+ block "Packages to remove:" "No packages to remove" (packages_to_remove p).

Definition _print_payload (p : payload) (format : output_format) : string :=
  match format with
  | json => print (json_dumps p)
  | yaml => yaml_safe_dump p
  | text => _print_text_output p
  end.

Definition target_not_found (target : string) : string :=
  "target_major '" +:+ target +:+ "' not found in grouped_data.".

(** [main]: the exit status, with what was printed. A [KeyError] of the
    core carries the missing key. *)
Definition main (a : args) (h : host) : ending :=
  match _collect_payload a h with
  | inl (core (KeyError missing_target)) =>
      exited EmptyString (print (target_not_found missing_target)) 1
  | inl (CalledProcessError exc) =>
      exited EmptyString (print ("Failed to query installed RPM data: " +:+ exc)) 1
  | inl (core (ValueError exc)) | inl (OSError exc) =>
      exited EmptyString (print exc) 1
  | inl e => uncaught e
  | inr p =>
      exited (_print_payload p (arg_output_format a)) EmptyString
        (if arg_fail_on_match a && any_match (appstream_check_result p) then 2 else 0)
  end.

End main.

End appstream_check_standalone.

(** * Vocabulary of the properties *)

(** ** Decimal text of the fields of a date *)

(** A non-empty string of at most four decimal digits that reads as [n]. *)
Definition reads_as (n : Z) (s : string) : bool :=
  negb (Py.is_empty s) && Py.forallb_str Py.is_decimal s
  && (digits_value s =? n) && (String.length s <=? 4)%nat.

Definition field_text_ok (width : nat) (n : Z) : bool :=
  reads_as n (zero_pad width n) && reads_as n (pretty n)
  && (String.length (zero_pad width n) =? width)%nat.

(** ** [parse_rpm_modularity_output] *)

(** The two columns of a line, once stripped: the package name and the
    label. *)
Definition columns (line : string) : option (string * string) :=
  match Py.split1 " " (Py.strip line) with
  | [p0; p1] => Some (Py.strip p0, Py.strip p1)
  | _ => None
  end.

(** The key of a label: its first two components, when both are there and
    not empty. *)
Definition stream_key (label : string) : option string :=
  match Py.split ":" label with
  | l0 :: l1 :: _ =>
      if Py.is_empty l0 || Py.is_empty l1 then None else Some (l0 +:+ ":" +:+ l1)
  | _ => None
  end.

Definition blank (line : string) : bool := Py.is_empty (Py.strip line).

(** What one line is to the parser. *)
Inductive line_class :=
  | Blank
  | NonModular (package_name : string)
  | Modular (key package_name : string)
  | Malformed (e : exn).

Definition classify (line : string) : line_class :=
  if blank line then Blank
  else
    match columns line with
    | None => Malformed (unexpected_line (Py.strip line))
    | Some (package_name, label) =>
        if bool_decide (label = "(none)") then NonModular package_name
        else
          match stream_key label with
          | Some key => Modular key package_name
          | None => Malformed (invalid_modularity_label package_name label)
          end
    end.

(** The error of the first malformed line. *)
Fixpoint first_malformed (lines : list string) : option exn :=
  match lines with
  | [] => None
  | line :: rest =>
      match classify line with
      | Malformed e => Some e
      | _ => first_malformed rest
      end
  end.

(** The non-modular package names, in line order. *)
Definition non_modular_names (lines : list string) : list string :=
  omap (λ line, match classify line with
                | NonModular package_name => Some package_name
                | _ => None
                end) lines.

(** The package names of the lines of one stream, in line order. *)
Definition stream_packages (key : string) (lines : list string) : list string :=
  omap (λ line, match classify line with
                | Modular k package_name =>
                    if bool_decide (k = key) then Some package_name else None
                | _ => None
                end) lines.

(** The dictionary after the loop has run over the lines. *)
Fixpoint record_streams (lines : list string) (modules_raw : gmap string (list string))
    : gmap string (list string) :=
  match lines with
  | [] => modules_raw
  | line :: rest =>
      record_streams rest
        match classify line with
        | Modular key package_name => setdefault_append key package_name modules_raw
        | _ => modules_raw
        end
  end.

(** The text of a [ValueError]. *)
Definition message (e : exn) : option string :=
  match e with
  | ValueError msg => Some msg
  | _ => None
  end.

(** [part] occurs in [whole] as it is. *)
Definition includes (part : string) (whole : option string) : Prop :=
  ∃ before after, whole = Some (before +:+ part +:+ after).

(** ** [detect_target_major] *)

(** On the text of [Py]: not empty, and ASCII decimal digits only. *)
Definition is_numeric (s : string) : bool :=
  negb (Py.is_empty s) && Py.forallb_str Py.is_decimal s.

(** *** On Unicode text *)

(** A line that assigns [VERSION_ID]. *)
Definition assigns_version_id (line : Unicode.text) : bool :=
  Unicode.startswith (Unicode.of_string "VERSION_ID=") (Unicode.strip line).

(** The value of the assignment without white space and quotes around it. *)
Definition unquoted (value : Unicode.text) : Unicode.text :=
  Unicode.strip_char Unicode.SQUOTE
    (Unicode.strip_char Unicode.DQUOTE (Unicode.strip value)).

(** The text before the first dot. *)
Definition major_text (version_id : Unicode.text) : Unicode.text :=
  match Unicode.split1 46 version_id with
  | major :: _ => major
  | [] => []
  end.

(** The number that decimal digits stand for, in any script and with any
    leading zeros; no number for a text with another character. *)
Fixpoint decimal_value {ucd : Unicode.Database} (acc : Z) (s : Unicode.text)
    : option Z :=
  match s with
  | [] => Some acc
  | c :: s' =>
      match Unicode.decimal c with
      | Some d => decimal_value (10 * acc + Z.of_N d) s'
      | None => None
      end
  end.

(** A purely numeric text, and its number: decimal digits, and one at
    least. *)
Definition numeral {ucd : Unicode.Database} (s : Unicode.text) : option Z :=
  if Unicode.is_empty s then None else decimal_value 0 s.

(** How many decimal digits a text starts with. *)
Fixpoint leading_decimals {ucd : Unicode.Database} (s : Unicode.text) : N :=
  match s with
  | [] => 0
  | c :: s' =>
      match Unicode.decimal c with
      | Some _ => 1 + leading_decimals s'
      | None => 0
      end
  end%N.

(** The ASCII digits of the decimal digits that a text starts with. *)
Fixpoint leading_digits {ucd : Unicode.Database} (s : Unicode.text) : string :=
  match s with
  | [] => EmptyString
  | c :: s' =>
      match Unicode.decimal c with
      | Some d => String (ascii_of_N (48 + d)) (leading_digits s')
      | None => EmptyString
      end
  end.

(** Decimal digits only. *)
Definition all_decimal {ucd : Unicode.Database} (s : Unicode.text) : bool :=
  forallb (λ c, bool_decide (is_Some (Unicode.decimal c))) s.

(** A result on the text of [Py], as a result on Unicode text; the detector
    raises no other exception than those two. *)
Definition latin1 {A B} (f : A → B) (r : result A) : option (Unicode.exn + B) :=
  match r with
  | Ok a => Some (inr (f a))
  | Raise (ValueError msg) => Some (inl (Unicode.ValueError (Unicode.of_string msg)))
  | Raise IndexError => Some (inl Unicode.IndexError)
  | Raise _ => None
  end.

(** ** [evaluate_appstream_check] *)

(** An end date that is retired at the cutoff: it is there, it is not the
    empty string, it parses, and its date is strictly before the cutoff. *)
Definition retired {interp : Interpreter} (cutoff : date)
    (end_date_raw : option date_input) : Prop :=
  ∃ value d, end_date_raw = Some value ∧ value ≠ DStr EmptyString
             ∧ parse_date value = Ok d ∧ date_ltb d cutoff = true.

(** A package name, and the key of a stream, that the entries of a major
    retire at the cutoff. *)
Definition retired_package {interp : Interpreter} (cutoff : date) (major : major_data)
    (x : string) : Prop :=
  x ≠ EmptyString
  ∧ ∃ item, item ∈ default [] (package major) ∧ pkg_name item = Some x
            ∧ retired cutoff (pkg_end_date item).

Definition retired_stream {interp : Interpreter} (cutoff : date) (major : major_data)
    (key : string) : Prop :=
  ∃ item name stream,
    item ∈ default [] (dnf_module major)
    ∧ mod_name item = Some name ∧ name ≠ EmptyString
    ∧ mod_stream item = Some stream ∧ stream ≠ EmptyString
    ∧ key = name +:+ ":" +:+ stream
    ∧ retired cutoff (mod_end_date item).

(** [s] is the text of an end date of the entries of a major. *)
Definition end_date_text (major : major_data) (s : string) : Prop :=
  (∃ item, item ∈ default [] (package major) ∧ pkg_end_date item = Some (DStr s))
  ∨ ∃ item, item ∈ default [] (dnf_module major) ∧ mod_end_date item = Some (DStr s).

(** Two runs of a generator expression end the same way: with the same
    exception, or with lists of the same elements. *)
Definition same_selection {B} (r1 r2 : result (list B)) : Prop :=
  match r1, r2 with
  | Ok l1, Ok l2 => l1 ≡ₚ l2
  | Raise e1, Raise e2 => e1 = e2
  | _, _ => False
  end.

(** Two evaluations end the same way: with the same result, or with the
    same exception. An [OverflowError] has no text here, so of two of them
    this says that both are raised, not that their texts are the same. *)
Definition same_outcome {A} (r1 r2 : result A) : Prop :=
  match r1, r2 with
  | Ok a1, Ok a2 => a1 = a2
  | Raise OverflowError, Raise OverflowError => True
  | Raise e1, Raise e2 => e1 = e2
  | _, _ => False
  end.

(** ** The front ends *)

(** The target key and the date of a run of the module: the parameter, or
    the detected key and the date of the day. *)
Definition module_target {interp : Interpreter} (module : appstream_check.AnsibleModule)
    (h : host) : result string :=
  if Py.truthy (appstream_check.param_target_major (appstream_check.module_params module))
  then Ok (Py.str_of
             (appstream_check.param_target_major (appstream_check.module_params module)))
  else detect_target_major (os_release h).

Definition module_date (module : appstream_check.AnsibleModule) (h : host) : string :=
  or_else (appstream_check.param_date (appstream_check.module_params module))
    (isoformat (today h)).

(** The same for a run of the script. *)
Definition script_target {interp : Interpreter} (a : appstream_check_standalone.args)
    (h : host) : result string :=
  if Py.truthy (appstream_check_standalone.arg_target_major a)
  then Ok (Py.str_of (appstream_check_standalone.arg_target_major a))
  else detect_target_major (os_release h).

Definition script_date (a : appstream_check_standalone.args) (h : host) : string :=
  or_else (appstream_check_standalone.arg_date a) (isoformat (today h)).

(** The response of the module as a payload of the script. *)
Definition payload_of (r : appstream_check.response) : appstream_check_standalone.payload :=
  {| appstream_check_standalone.payload_date := appstream_check.response_date r;
     appstream_check_standalone.appstream_check_result :=
       appstream_check.appstream_check_result r;
     appstream_check_standalone.packages_to_remove :=
       appstream_check.packages_to_remove r |}.

(** The exit status of the process of the script, once its arguments have
    parsed: the status that [main] returns, which goes to [SystemExit]; and
    1 when an exception escapes [main], which the interpreter reports with
    a traceback. *)
Definition exit_status (e : appstream_check_standalone.ending) : Z :=
  match e with
  | appstream_check_standalone.exited _ _ status => status
  | appstream_check_standalone.uncaught _ => 1
  end.

(** The exceptions that [main] of the script catches. *)
Definition caught (e : appstream_check_standalone.error) : bool :=
  match e with
  | appstream_check_standalone.core (KeyError _)
  | appstream_check_standalone.core (ValueError _)
  | appstream_check_standalone.CalledProcessError _
  | appstream_check_standalone.OSError _ => true
  | _ => false
  end.

(** ** Example data *)

(** The reference table, the inventory and the result of scenario A of the
    specification. *)
Definition scenario_reference : gmap string major_data :=
  {[ "el9" :=
       {| package :=
            Some [ {| pkg_name := Some "retired-nonmod";
                      pkg_end_date := Some (DStr "2020-01-01") |} ];
          dnf_module :=
            Some [ {| mod_name := Some "nodejs"; mod_stream := Some "18";
                      mod_end_date := Some (DStr "2020-01-01") |} ] |} ]}.

Definition scenario_modules : gmap string (list string) :=
  {[ "nodejs:18" := ["nodejs-libs"] ]}.

Definition scenario_result : check_result :=
  {| target_major := "el9";
     matched_packages := ["retired-nonmod"];
     matched_dnf_modules := ["nodejs:18"];
     matched_dnf_modules_packages := ["nodejs-libs"];
     any_match := true |}.

(** A reference table with one package whose end date has a year beyond
    32 bits. *)
Definition overflow_reference : gmap string major_data :=
  {[ "el9" :=
       {| package :=
            Some [ {| pkg_name := Some "pkg";
                      pkg_end_date := Some (DStr "99999999999-1-1") |} ];
          dnf_module := None |} ]}.

(** Two retired package entries, one without a name. *)
Definition nameless_retired : package_entry :=
  {| pkg_name := None; pkg_end_date := Some (DStr "2020-01-01") |}.

Definition named_retired : package_entry :=
  {| pkg_name := Some "old"; pkg_end_date := Some (DStr "2020-01-01") |}.

Definition nameless_reference : gmap string major_data :=
  {[ "el9" := {| package := Some [nameless_retired; named_retired];
                 dnf_module := None |} ]}.

(** [s] between double quotes. *)
Definition quoted (s : string) : string :=
  String Py.DQUOTE (s +:+ String Py.DQUOTE EmptyString).

(** Three lines of query output: the same package of the stream [x:1] twice,
    once with a context after the stream, and a non-modular package. *)
Definition repeated_output : string :=
  "a x:1:ctx" +:+ String Py.LF ("a x:1" +:+ String Py.LF "b (none)").

Definition repeated_modules : gmap string (list string) := {[ "x:1" := ["a"; "a"] ]}.

(** A run of the front ends: the table of scenario A, the target and the
    date given, and a query that answers with one non-modular package. *)
Definition example_host : host := {| os_release := None; today := Date 2026 2 17 |}.

Definition example_module : appstream_check.AnsibleModule :=
  {| appstream_check.module_params :=
       {| appstream_check.param_grouped_data := scenario_reference;
          appstream_check.param_fail_on_match := true;
          appstream_check.param_target_major := Some "el9";
          appstream_check.param_date := Some "2026-02-17" |};
     appstream_check.run_command := λ _ _, inr (0, "retired-nonmod (none)", EmptyString) |}.

Definition example_system : appstream_check_standalone.System :=
  {| appstream_check_standalone.load_grouped_data := λ _, inr scenario_reference;
     appstream_check_standalone.subprocess_run :=
       λ _, inr (0, "retired-nonmod (none)", EmptyString);
     appstream_check_standalone.json_dumps := λ _, EmptyString;
     appstream_check_standalone.yaml_safe_dump := λ _, EmptyString |}.

Definition example_args : appstream_check_standalone.args :=
  {| appstream_check_standalone.arg_grouped_data_file := "redhat_appstreams.yml";
     appstream_check_standalone.arg_target_major := Some "el9";
     appstream_check_standalone.arg_date := Some "2026-02-17";
     appstream_check_standalone.arg_output_format := appstream_check_standalone.text;
     appstream_check_standalone.arg_fail_on_match := true |}.

Definition example_payload : appstream_check_standalone.payload :=
  {| appstream_check_standalone.payload_date := "2026-02-17";
     appstream_check_standalone.appstream_check_result :=
       {| target_major := "el9";
          matched_packages := ["retired-nonmod"];
          matched_dnf_modules := [];
          matched_dnf_modules_packages := [];
          any_match := true |};
     appstream_check_standalone.packages_to_remove := ["retired-nonmod"] |}.

(** The table of [nameless_reference] with its two entries the other way
    round. *)
Definition swapped_reference : gmap string major_data :=
  {[ "el9" := {| package := Some [named_retired; nameless_retired];
                 dnf_module := None |} ]}.

(** The table of scenario A with a second package, supported until the end
    of June 2026. *)
Definition staggered_reference : gmap string major_data :=
  {[ "el9" :=
       {| package :=
            Some [ {| pkg_name := Some "retired-nonmod";
                      pkg_end_date := Some (DStr "2020-01-01") |};
                   {| pkg_name := Some "newer";
                      pkg_end_date := Some (DStr "2026-06-30") |} ];
          dnf_module :=
            Some [ {| mod_name := Some "nodejs"; mod_stream := Some "18";
                      mod_end_date := Some (DStr "2020-01-01") |} ] |} ]}.

(** The answer of the query on a host with the packages of scenario A and
    one that the table does not name; and a runner that answers that query
    and no other command. *)
Definition scenario_output : string :=
  "retired-nonmod (none)" +:+ String Py.LF
    ("nodejs-libs nodejs:18:ctx" +:+ String Py.LF "bash (none)").

Definition scenario_runner (command : list string) : string + Z * string * string :=
  if bool_decide (command = rpm_query) then inr (0, scenario_output, EmptyString)
  else inl "command not found".

(** * Properties of the built-ins *)

(** ** Characters *)

Lemma is_decimal_code c : Py.is_decimal c = true ↔ (48 ≤ Py.code c ≤ 57)%N.
Proof. unfold Py.is_decimal. rewrite andb_true_iff, !N.leb_le. tauto. Qed.

Lemma is_decimal_not_isspace c : Py.is_decimal c = true → Py.isspace c = false.
Proof.
  intros H. apply is_decimal_code in H. unfold Py.isspace.
  repeat match goal with
  | |- context [(?a <=? ?b)%N] => destruct (N.leb_spec a b)
  | |- context [(?a =? ?b)%N] => destruct (N.eqb_spec a b)
  end; simpl; try reflexivity; lia.
Qed.

Lemma is_decimal_not_int_space c : Py.is_decimal c = true → Py.int_space c = false.
Proof.
  intros H. apply is_decimal_code in H. unfold Py.int_space.
  repeat match goal with
  | |- context [(?a <=? ?b)%N] => destruct (N.leb_spec a b)
  | |- context [(?a =? ?b)%N] => destruct (N.eqb_spec a b)
  end; simpl; try reflexivity; lia.
Qed.

Lemma is_decimal_neq c ch :
  Py.is_decimal c = true → Py.is_decimal ch = false → c ≠ ch.
Proof. intros H1 H2 ->. congruence. Qed.

Lemma is_decimal_body_char c : Py.is_decimal c = true → Py.int_body_char c = true.
Proof. unfold Py.int_body_char. by intros ->. Qed.

(** ** Strings *)

Lemma string_app_nil_l s : EmptyString +:+ s = s.
Proof. reflexivity. Qed.

Lemma string_app_cons c s t : String c s +:+ t = String c (s +:+ t).
Proof. reflexivity. Qed.

Lemma string_app_nil_r s : s +:+ EmptyString = s.
Proof. induction s; rewrite ?string_app_cons; by f_equal. Qed.

Lemma string_app_assoc s1 s2 s3 : (s1 +:+ s2) +:+ s3 = s1 +:+ s2 +:+ s3.
Proof. induction s1; rewrite ?string_app_cons, ?string_app_nil_l; by f_equal. Qed.

Lemma existsb_str_app p s1 s2 :
  Py.existsb_str p (s1 +:+ s2) = Py.existsb_str p s1 || Py.existsb_str p s2.
Proof.
  induction s1 as [|c s1 IH]; rewrite ?string_app_cons, ?string_app_nil_l; simpl; [done|].
  by rewrite IH, orb_assoc.
Qed.

Lemma existsb_str_false p q s :
  (∀ c, q c = true → p c = false) →
  Py.forallb_str q s = true → Py.existsb_str p s = false.
Proof.
  intros Hpq. induction s as [|c s IH]; simpl; [done|].
  intros [Hc Hs]%andb_true_iff. by rewrite (Hpq c Hc), IH.
Qed.

Lemma lstrip_by_none p s : Py.existsb_str p s = false → Py.lstrip_by p s = s.
Proof. destruct s as [|c s]; simpl; [done|]. by intros [-> _]%orb_false_iff. Qed.

Lemma rstrip_by_none p s : Py.existsb_str p s = false → Py.rstrip_by p s = s.
Proof.
  induction s as [|c s IH]; simpl; [done|].
  intros [Hc Hs]%orb_false_iff. by rewrite Hc, IH.
Qed.

Lemma strip_by_none p s : Py.existsb_str p s = false → Py.strip_by p s = s.
Proof. intros H. unfold Py.strip_by. by rewrite lstrip_by_none, rstrip_by_none. Qed.

Lemma lstrip_by_all p s : Py.forallb_str p s = true → Py.lstrip_by p s = EmptyString.
Proof. induction s as [|c s IH]; simpl; [done|]. by intros [-> ?]%andb_true_iff; auto. Qed.

Lemma take_while_all p s : Py.forallb_str p s = true → Py.take_while p s = s.
Proof.
  induction s as [|c s IH]; simpl; [done|].
  intros [-> ?]%andb_true_iff. f_equal; auto.
Qed.

Lemma forallb_str_impl (p q : ascii → bool) s :
  (∀ c, p c = true → q c = true) →
  Py.forallb_str p s = true → Py.forallb_str q s = true.
Proof.
  intros Hpq. induction s as [|c s IH]; simpl; [done|].
  intros [Hc Hs]%andb_true_iff. by rewrite (Hpq c Hc), IH.
Qed.

(** *** [split] *)

Lemma split_ne_nil sep s : Py.split sep s ≠ [].
Proof.
  destruct s as [|c s]; simpl; [done|].
  case_bool_decide; [done|]. by destruct (Py.split sep s).
Qed.

Lemma split_no_sep sep s : Py.contains sep s = false → Py.split sep s = [s].
Proof.
  unfold Py.contains. induction s as [|c s IH]; simpl; [done|].
  intros [Hc Hs]%orb_false_iff. rewrite Hc. by rewrite IH.
Qed.

Lemma split_app_sep sep s1 s2 :
  Py.contains sep s1 = false →
  Py.split sep (s1 +:+ String sep s2) = s1 :: Py.split sep s2.
Proof.
  unfold Py.contains.
  induction s1 as [|c s1 IH]; rewrite ?string_app_cons, ?string_app_nil_l; simpl.
  - intros _. by rewrite bool_decide_eq_true_2.
  - intros [Hc Hs]%orb_false_iff. rewrite Hc. by rewrite IH.
Qed.

Lemma decimal_no_char ch s :
  Py.is_decimal ch = false →
  Py.forallb_str Py.is_decimal s = true → Py.contains ch s = false.
Proof.
  intros Hch. apply existsb_str_false. intros c Hc.
  apply bool_decide_eq_false_2. by apply is_decimal_neq.
Qed.

(** *** [int] on a string of decimal digits *)

Lemma split_sign_decimal c s :
  Py.is_decimal c = true → Py.split_sign (String c s) = (false, String c s).
Proof.
  intros Hc. unfold Py.split_sign.
  rewrite !bool_decide_eq_false_2; [done|by apply is_decimal_neq..].
Qed.

Lemma int_body_ok_decimal b s :
  Py.forallb_str Py.is_decimal s = true →
  Py.int_body_ok b s = b || negb (Py.is_empty s).
Proof.
  revert b. induction s as [|c s IH]; intros b; simpl.
  - by rewrite orb_false_r.
  - intros [-> Hs]%andb_true_iff. rewrite IH by done. by rewrite orb_true_r.
Qed.

Lemma count_decimal_all s :
  Py.forallb_str Py.is_decimal s = true →
  Py.count_decimal s = N.of_nat (String.length s).
Proof.
  induction s as [|c s IH]; simpl; [done|].
  intros [-> Hs]%andb_true_iff. rewrite IH by done. lia.
Qed.

Lemma int_decimal L s :
  s ≠ EmptyString →
  Py.forallb_str Py.is_decimal s = true →
  (L = 0 ∨ N.of_nat (String.length s) ≤ L)%N →
  Py.int L s = Ok (digits_value s).
Proof.
  intros Hne Hs HL. unfold Py.int.
  destruct s as [|c s]; [done|].
  assert (Hc : Py.is_decimal c = true)
    by (simpl in Hs; by apply andb_true_iff in Hs as [? ?]).
  rewrite lstrip_by_none.
  2:{ eapply existsb_str_false; [|exact Hs]. apply is_decimal_not_int_space. }
  rewrite split_sign_decimal by done.
  assert (Hb : Py.forallb_str Py.int_body_char (String c s) = true)
    by (eapply forallb_str_impl; [apply is_decimal_body_char|done]).
  rewrite take_while_all, lstrip_by_all by done.
  rewrite int_body_ok_decimal by done. simpl Py.is_empty. simpl Py.forallb_str.
  rewrite count_decimal_all by done. cbn [negb orb].
  replace ((0 <? L)%N && (L <? N.of_nat (String.length (String c s)))%N)
    with false; [done|].
  symmetry. apply andb_false_iff. destruct HL as [->|HL]; [by left|right].
  by apply N.ltb_ge.
Qed.

Lemma forallb_seqZ (f : Z → bool) lo len n :
  forallb f (seqZ lo len) = true → lo ≤ n < lo + len → f n = true.
Proof.
  intros H Hn. rewrite forallb_forall in H. apply H.
  apply list_elem_of_In, elem_of_seqZ. lia.
Qed.

Lemma year_text_ok y : 1 ≤ y ≤ 9999 → field_text_ok 4 y = true.
Proof.
  intros Hy. apply (forallb_seqZ (field_text_ok 4) 1 9999); [|lia].
  vm_compute. reflexivity.
Qed.

Lemma month_day_text_ok n : 1 ≤ n ≤ 31 → field_text_ok 2 n = true.
Proof.
  intros Hn. apply (forallb_seqZ (field_text_ok 2) 1 31); [|lia].
  vm_compute. reflexivity.
Qed.

Lemma reads_as_spec n s :
  reads_as n s = true →
  s ≠ EmptyString ∧ Py.forallb_str Py.is_decimal s = true
  ∧ digits_value s = n ∧ (String.length s ≤ 4)%nat.
Proof.
  unfold reads_as. rewrite !andb_true_iff, Z.eqb_eq, Nat.leb_le, negb_true_iff.
  intros [[[H1 H2] H3] H4]. repeat split; try done. by intros ->.
Qed.

Lemma reads_as_int {interp : Interpreter} n s : reads_as n s = true → int s = Ok n.
Proof.
  intros (Hne & Hdec & <- & Hlen)%reads_as_spec.
  apply int_decimal; [done..|].
  destruct int_max_str_digits_range as [->|?]; [by left|right; lia].
Qed.

Lemma days_in_month_le y m : days_in_month y m ≤ 31.
Proof. unfold days_in_month. repeat case_match; lia. Qed.

Lemma date_new_valid d :
  valid_date d → date_new (year d) (month d) (day d) = Ok d.
Proof.
  destruct d as [y m dd]. unfold valid_date, date_new, fits_c_int. simpl.
  intros (Hy & Hm & Hd). pose proof (days_in_month_le y m).
  repeat match goal with
  | |- context [(?a <=? ?b)] => destruct (Z.leb_spec a b); try lia
  end. done.
Qed.

Lemma date_new_Ok y m dd d :
  date_new y m dd = Ok d → d = Date y m dd ∧ valid_date d.
Proof.
  unfold date_new, valid_date.
  destruct (negb (fits_c_int y && _ && _)); [discriminate|].
  destruct (negb ((1 <=? y) && _)) eqn:Hy; [discriminate|].
  destruct (negb ((1 <=? m) && _)) eqn:Hm; [discriminate|].
  destruct (negb ((1 <=? dd) && _)) eqn:Hd; [discriminate|].
  intros [= <-]. simpl.
  apply negb_false_iff, andb_true_iff in Hy as [?%Z.leb_le ?%Z.leb_le].
  apply negb_false_iff, andb_true_iff in Hm as [?%Z.leb_le ?%Z.leb_le].
  apply negb_false_iff, andb_true_iff in Hd as [?%Z.leb_le ?%Z.leb_le].
  repeat split; lia.
Qed.

(** ** The strict parser is an interpreter *)

Lemma fromisoformat_strict_fields ys ms ds :
  String.length ys = 4%nat → String.length ms = 2%nat → String.length ds = 2%nat →
  Py.forallb_str Py.is_decimal ys = true →
  Py.forallb_str Py.is_decimal ms = true →
  Py.forallb_str Py.is_decimal ds = true →
  fromisoformat_strict (ys +:+ "-" +:+ ms +:+ "-" +:+ ds) =
    match date_new (digits_value ys) (digits_value ms) (digits_value ds) with
    | Ok d => Some d
    | Raise _ => None
    end.
Proof.
  intros Ly Lm Ld Hy Hm Hd.
  destruct ys as [|y1 [|y2 [|y3 [|y4 [|]]]]]; try discriminate Ly.
  destruct ms as [|m1 [|m2 [|]]]; try discriminate Lm.
  destruct ds as [|d1 [|d2 [|]]]; try discriminate Ld.
  cbv [String.append]. unfold fromisoformat_strict.
  rewrite Hy, Hm, Hd. by rewrite !bool_decide_eq_true_2.
Qed.

Lemma fromisoformat_strict_inv s d :
  fromisoformat_strict s = Some d →
  ∃ ys ms ds,
    s = ys +:+ "-" +:+ ms +:+ "-" +:+ ds
    ∧ String.length ys = 4%nat ∧ String.length ms = 2%nat ∧ String.length ds = 2%nat
    ∧ Py.forallb_str Py.is_decimal ys = true
    ∧ Py.forallb_str Py.is_decimal ms = true
    ∧ Py.forallb_str Py.is_decimal ds = true
    ∧ date_new (digits_value ys) (digits_value ms) (digits_value ds) = Ok d.
Proof.
  unfold fromisoformat_strict.
  destruct s as [|y1 [|y2 [|y3 [|y4 [|s1 [|m1 [|m2 [|s2 [|d1 [|d2 [|]]]]]]]]]]];
    try discriminate.
  destruct (_ && _) eqn:E; [|discriminate].
  apply andb_true_iff in E as [E Hd]. apply andb_true_iff in E as [E Hm].
  apply andb_true_iff in E as [E Hy]. apply andb_true_iff in E as [E1 E2].
  apply bool_decide_eq_true_1 in E1 as ->. apply bool_decide_eq_true_1 in E2 as ->.
  destruct (date_new _ _ _) as [d'|] eqn:Hnew; [|discriminate]. intros [= ->].
  eexists (String y1 (String y2 (String y3 (String y4 EmptyString)))),
    (String m1 (String m2 EmptyString)), (String d1 (String d2 EmptyString)).
  by repeat split.
Qed.

Lemma field_text_ok_spec width n :
  field_text_ok width n = true →
  reads_as n (zero_pad width n) = true ∧ reads_as n (pretty n) = true
  ∧ String.length (zero_pad width n) = width.
Proof.
  unfold field_text_ok. rewrite !andb_true_iff, Nat.eqb_eq. tauto.
Qed.

Lemma valid_date_fields d :
  valid_date d →
  field_text_ok 4 (year d) = true ∧ field_text_ok 2 (month d) = true
  ∧ field_text_ok 2 (day d) = true.
Proof.
  intros (Hy & Hm & Hd). pose proof (days_in_month_le (year d) (month d)).
  split; [|split]; [apply year_text_ok|apply month_day_text_ok..]; lia.
Qed.

Lemma split_fields a b c :
  Py.forallb_str Py.is_decimal a = true →
  Py.forallb_str Py.is_decimal b = true →
  Py.forallb_str Py.is_decimal c = true →
  Py.split "-" (a +:+ "-" +:+ b +:+ "-" +:+ c) = [a; b; c].
Proof.
  intros Ha Hb Hc.
  change (Py.split "-" (a +:+ String "-" (b +:+ String "-" c)) = [a; b; c]).
  rewrite !split_app_sep, split_no_sep; try done; by apply decimal_no_char.
Qed.

Lemma fromisoformat_strict_isoformat d :
  valid_date d → fromisoformat_strict (isoformat d) = Some d.
Proof.
  intros Hd. destruct (valid_date_fields d Hd) as (Hy & Hm & Hdd).
  apply field_text_ok_spec in Hy as ((_ & Hy & Vy & _)%reads_as_spec & _ & Ly).
  apply field_text_ok_spec in Hm as ((_ & Hm & Vm & _)%reads_as_spec & _ & Lm).
  apply field_text_ok_spec in Hdd as ((_ & Hdd & Vd & _)%reads_as_spec & _ & Ld).
  unfold isoformat. rewrite fromisoformat_strict_fields by done.
  rewrite Vy, Vm, Vd. by rewrite date_new_valid.
Qed.

Lemma fromisoformat_strict_agrees L s d a b c y m dd :
  (L = 0 ∨ 640 ≤ L)%N →
  fromisoformat_strict s = Some d →
  Py.split "-" s = [a; b; c] →
  Py.int L a = Ok y → Py.int L b = Ok m → Py.int L c = Ok dd →
  date_new y m dd = Ok d.
Proof.
  intros HL (ys & ms & ds & -> & Ly & Lm & Ld & Hy & Hm & Hd & Hnew)%fromisoformat_strict_inv.
  rewrite split_fields by done. intros [= <- <- <-].
  assert (∀ t n, String.length t = n → (0 < n ≤ 4)%nat →
            Py.forallb_str Py.is_decimal t = true →
            Py.int L t = Ok (digits_value t)) as Hint.
  { intros t n Hlen Hn Ht. apply int_decimal; [|done|].
    - intros ->. simpl in Hlen. lia.
    - destruct HL; [by left|right; lia]. }
  rewrite (Hint ys 4%nat), (Hint ms 2%nat), (Hint ds 2%nat) by (done || lia).
  by intros [= <-] [= <-] [= <-].
Qed.

(** The interpreter with the strict parser and a digit limit [L]. *)
Definition strict_interpreter (L : N) (HL : (L = 0 ∨ 640 ≤ L)%N) : Interpreter := {|
  fromisoformat := fromisoformat_strict;
  int_max_str_digits := L;
  fromisoformat_isoformat := fromisoformat_strict_isoformat;
  fromisoformat_fields s d a b c y m dd := fromisoformat_strict_agrees L s d a b c y m dd HL;
  int_max_str_digits_range := HL
|}.

Lemma default_limit_range : (4300 = 0 ∨ 640 ≤ 4300)%N.
Proof. right. lia. Qed.

(** CPython 3.10 (3.10.7 or later) with the default limit of 4300 digits. *)
Definition cpython310 : Interpreter := strict_interpreter 4300 default_limit_range.

(** ** The extended parser is an interpreter *)

Lemma parse_digits_app n acc ds rest :
  String.length ds = n → Py.forallb_str Py.is_decimal ds = true →
  parse_digits n acc (ds +:+ rest) = Some (Py.int_body_value acc ds, rest).
Proof.
  revert acc ds. induction n as [|n IH]; intros acc [|c ds]; try discriminate.
  - done.
  - simpl. intros [= Hlen] [Hc Hds]%andb_true_iff.
    rewrite Hc. by apply IH.
Qed.

Lemma parse_digits_inv n acc s v p :
  parse_digits n acc s = Some (v, p) →
  ∃ ds, s = ds +:+ p ∧ String.length ds = n
        ∧ Py.forallb_str Py.is_decimal ds = true ∧ v = Py.int_body_value acc ds.
Proof.
  revert acc s. induction n as [|n IH]; intros acc s; simpl.
  - intros [= <- <-]. by exists EmptyString.
  - destruct s as [|c s]; [discriminate|].
    destruct (Py.is_decimal c) eqn:Hc; [|discriminate].
    intros (ds & -> & Hlen & Hds & ->)%IH.
    exists (String c ds). simpl. rewrite Hc, Hds, Hlen. by rewrite string_app_cons.
Qed.

Lemma skip_char_inv c s p : skip_char c s = Some p → s = String c p.
Proof.
  destruct s as [|c' s]; [discriminate|]. simpl.
  case_bool_decide; [|discriminate]. by intros [= <-]; subst.
Qed.

Lemma skip_char_decimal ch c s :
  Py.is_decimal ch = false → Py.is_decimal c = true → skip_char ch (String c s) = None.
Proof.
  intros Hch Hc. simpl. rewrite bool_decide_eq_false_2; [done|].
  by apply is_decimal_neq.
Qed.

Lemma utf8_length_app s1 s2 :
  utf8_length (s1 +:+ s2) = (utf8_length s1 + utf8_length s2)%nat.
Proof.
  induction s1 as [|c s1 IH]; [done|]. rewrite string_app_cons. simpl. rewrite IH. lia.
Qed.

Lemma utf8_length_decimal s :
  Py.forallb_str Py.is_decimal s = true → utf8_length s = String.length s.
Proof.
  induction s as [|c s IH]; simpl; [done|].
  intros [Hc%is_decimal_code Hs]%andb_true_iff. rewrite IH by done.
  destruct (N.ltb_spec (Py.code c) 128); [done|lia].
Qed.

Lemma utf8_length_ge s : (String.length s ≤ utf8_length s)%nat.
Proof. induction s as [|c s IH]; simpl; [done|]. destruct (_ <? _)%N; lia. Qed.

Lemma utf8_length_0 s : utf8_length s = 0%nat → s = EmptyString.
Proof. destruct s as [|c s]; [done|]. simpl. destruct (_ <? _)%N; lia. Qed.

Lemma parse_digits_all n acc ds :
  String.length ds = n → Py.forallb_str Py.is_decimal ds = true →
  parse_digits n acc ds = Some (Py.int_body_value acc ds, EmptyString).
Proof.
  intros Hlen Hds. rewrite <-(string_app_nil_r ds) at 1. by apply parse_digits_app.
Qed.

Lemma fromisoformat_extended_fields ys ms ds :
  String.length ys = 4%nat → String.length ms = 2%nat → String.length ds = 2%nat →
  Py.forallb_str Py.is_decimal ys = true →
  Py.forallb_str Py.is_decimal ms = true →
  Py.forallb_str Py.is_decimal ds = true →
  fromisoformat_extended (ys +:+ "-" +:+ ms +:+ "-" +:+ ds) =
    make_date (digits_value ys, digits_value ms, digits_value ds).
Proof.
  intros Ly Lm Ld Hy Hm Hd. unfold fromisoformat_extended.
  assert (Hlen : utf8_length (ys +:+ "-" +:+ ms +:+ "-" +:+ ds) = 10%nat).
  { rewrite !utf8_length_app, (utf8_length_decimal ys), (utf8_length_decimal ms),
      (utf8_length_decimal ds), Ly, Lm, Ld by done. reflexivity. }
  rewrite Hlen. change (negb _) with false. cbn iota.
  rewrite (parse_digits_app 4) by done. cbn [mbind option_bind].
  change (skip_char "-" ("-" +:+ ?s)) with (Some s). cbn [default from_option id].
  destruct ms as [|m1 ms]; [discriminate|].
  assert (Hm1 : Py.is_decimal m1 = true) by (simpl in Hm; by apply andb_true_iff in Hm as [? _]).
  rewrite string_app_cons, (skip_char_decimal "W") by done.
  rewrite <-string_app_cons, (parse_digits_app 2) by done. cbn [mbind option_bind].
  rewrite bool_decide_eq_true_2 by done.
  change (skip_char "-" ("-" +:+ ?s)) with (Some s). cbn [mbind option_bind].
  by rewrite (parse_digits_all 2).
Qed.

Lemma split_app_no_sep sep s1 s2 :
  Py.contains sep s1 = false →
  Py.split sep (s1 +:+ s2) =
    match Py.split sep s2 with
    | h :: t => (s1 +:+ h) :: t
    | [] => [s1]
    end.
Proof.
  unfold Py.contains. induction s1 as [|c s1 IH].
  - intros _. rewrite string_app_nil_l.
    pose proof (split_ne_nil sep s2). by destruct (Py.split sep s2).
  - simpl. intros [Hc Hs]%orb_false_iff. rewrite Hc, IH by done.
    by destruct (Py.split sep s2).
Qed.

Lemma take_while_app p ds c rest :
  Py.forallb_str p ds = true → p c = false →
  Py.take_while p (ds +:+ String c rest) = ds
  ∧ Py.lstrip_by p (ds +:+ String c rest) = String c rest.
Proof.
  intros Hds Hc. induction ds as [|c' ds IH]; simpl.
  - by rewrite Hc.
  - simpl in Hds. apply andb_true_iff in Hds as [Hc' Hds].
    rewrite Hc'. destruct (IH Hds) as [-> ->]. done.
Qed.

(** Decimal digits followed by a character that is neither a digit, an
    underscore nor white space are no literal. *)
Lemma int_decimal_then_other L ds c rest n :
  (L = 0 ∨ 640 ≤ L)%N → (String.length ds ≤ 640)%nat →
  ds ≠ EmptyString → Py.forallb_str Py.is_decimal ds = true →
  Py.int_body_char c = false → Py.int_space c = false →
  Py.int L (ds +:+ String c rest) ≠ Ok n.
Proof.
  intros HL Hlen Hne Hds Hbody Hspace. unfold Py.int.
  destruct ds as [|d ds]; [done|]. rewrite string_app_cons.
  assert (Hd : Py.is_decimal d = true) by (simpl in Hds; by apply andb_true_iff in Hds as [? _]).
  assert (Hlstrip : Py.lstrip_by Py.int_space (String d (ds +:+ String c rest))
                    = String d (ds +:+ String c rest))
    by (simpl; by rewrite is_decimal_not_int_space).
  rewrite Hlstrip, split_sign_decimal by done. rewrite <-string_app_cons.
  destruct (take_while_app Py.int_body_char (String d ds) c rest) as [-> ->];
    [by eapply forallb_str_impl; [apply is_decimal_body_char|]|done|].
  rewrite int_body_ok_decimal by done. cbn [orb negb Py.is_empty].
  rewrite count_decimal_all by done.
  replace ((0 <? L)%N && (L <? N.of_nat (String.length (String d ds)))%N) with false.
  2:{ symmetry. apply andb_false_iff. destruct HL as [->|HL]; [by left|right].
      apply N.ltb_ge. lia. }
  simpl. by rewrite Hspace.
Qed.

Lemma int_empty L n : Py.int L EmptyString ≠ Ok n.
Proof. done. Qed.

Lemma int_W L s n : Py.int L (String "W" s) ≠ Ok n.
Proof. done. Qed.

Lemma utf8_length_dash s : utf8_length (String "-" s) = S (utf8_length s).
Proof. reflexivity. Qed.

Lemma make_date_Some y m dd d : make_date (y, m, dd) = Some d → date_new y m dd = Ok d.
Proof. simpl. destruct (date_new y m dd); [by intros [= ->]|discriminate]. Qed.

Lemma fromisoformat_extended_agrees L s d a b c y m dd :
  (L = 0 ∨ 640 ≤ L)%N →
  fromisoformat_extended s = Some d →
  Py.split "-" s = [a; b; c] →
  Py.int L a = Ok y → Py.int L b = Ok m → Py.int L c = Ok dd →
  date_new y m dd = Ok d.
Proof.
  intros HL. unfold fromisoformat_extended.
  destruct (negb _) eqn:Hlen; [discriminate|].
  apply negb_false_iff in Hlen.
  destruct (parse_digits 4 0 s) as [[yv p]|] eqn:Hy; [|discriminate].
  apply parse_digits_inv in Hy as (ys & -> & Ly & Hys & ->).
  cbn [mbind option_bind].
  assert (Hnodash : ∀ t, Py.forallb_str Py.is_decimal t = true → Py.contains "-" t = false)
    by (intros t; by apply decimal_no_char).
  destruct (skip_char "-" p) as [p1|] eqn:Hsep; cbn [default from_option id].
  - (* a dash after the year *)
    apply skip_char_inv in Hsep as ->.
    rewrite bool_decide_eq_true_2 by done.
    destruct (skip_char "W" p1) as [p2|] eqn:HW.
    + (* a week date: the second field starts with W *)
      apply skip_char_inv in HW as ->. intros _.
      rewrite split_app_sep by auto. simpl.
      destruct (Py.split "-" p2) as [|h t]; intros [= <- <- Ht] _ Hb; by destruct (int_W L _ _ Hb).
    + (* month and day *)
      destruct (parse_digits 2 0 p1) as [[mv p2]|] eqn:Hm; [|discriminate].
      apply parse_digits_inv in Hm as (ms & -> & Lm & Hms & ->).
      cbn [mbind option_bind].
      destruct (skip_char "-" p2) as [p3|] eqn:Hsep2; [|discriminate].
      apply skip_char_inv in Hsep2 as ->. cbn [mbind option_bind].
      destruct (parse_digits 2 0 p3) as [[dv p4]|] eqn:Hd; [|discriminate].
      apply parse_digits_inv in Hd as (ds & -> & Ld & Hds & ->).
      cbn [mbind option_bind]. intros Hnew%make_date_Some.
      assert (p4 = EmptyString) as ->.
      { apply utf8_length_0.
        repeat (rewrite utf8_length_app in Hlen || rewrite utf8_length_dash in Hlen).
        rewrite (utf8_length_decimal ys), (utf8_length_decimal ms),
          (utf8_length_decimal ds), Ly, Lm, Ld in Hlen by done.
        apply orb_true_iff in Hlen as [Hlen|Hlen%Nat.eqb_eq]; [|lia].
        apply orb_true_iff in Hlen as [Hlen%Nat.eqb_eq|Hlen%Nat.eqb_eq]; lia. }
      rewrite string_app_nil_r.
      change (Py.split "-" (ys +:+ "-" +:+ ms +:+ "-" +:+ ds) = [a; b; c] →
              Py.int L a = Ok y → Py.int L b = Ok m → Py.int L c = Ok dd →
              date_new y m dd = Ok d).
      rewrite split_fields by done. intros [= <- <- <-].
      assert (∀ t n, String.length t = n → (0 < n ≤ 4)%nat →
                Py.forallb_str Py.is_decimal t = true →
                Py.int L t = Ok (digits_value t)) as Hint.
      { intros t n Ht Hn Hdec. apply int_decimal; [|done|].
        - intros ->. simpl in Ht. lia.
        - destruct HL; [by left|right; lia]. }
      rewrite (Hint ys 4%nat), (Hint ms 2%nat), (Hint ds 2%nat) by (done || lia).
      by intros [= <-] [= <-] [= <-].
  - (* no dash after the year *)
    rewrite bool_decide_eq_false_2 by (by intros ?).
    destruct (skip_char "W" p) as [p2|] eqn:HW.
    + (* a week date: the first field has a W after the year *)
      apply skip_char_inv in HW as ->. intros _.
      rewrite split_app_no_sep by auto. simpl.
      destruct (Py.split "-" p2) as [|h t]; intros [= <- _] Ha;
        (eapply int_decimal_then_other in Ha; [done|done|lia| |done..]);
        intros ->; discriminate.
    + (* month and day, and what follows them *)
      destruct (parse_digits 2 0 p) as [[mv p2]|] eqn:Hm; [|discriminate].
      apply parse_digits_inv in Hm as (ms & -> & Lm & Hms & ->).
      cbn [mbind option_bind].
      destruct (parse_digits 2 0 p2) as [[dv p4]|] eqn:Hd; [|discriminate].
      apply parse_digits_inv in Hd as (ds & -> & Ld & Hds & ->).
      cbn [mbind option_bind]. intros _.
      rewrite !utf8_length_app in Hlen.
      rewrite (utf8_length_decimal ys), (utf8_length_decimal ms),
        (utf8_length_decimal ds), Ly, Lm, Ld in Hlen by done.
      pose proof (utf8_length_ge p4) as Hge.
      assert (String.length p4 ≤ 2)%nat as Hp4.
      { apply orb_true_iff in Hlen as [Hlen|Hlen%Nat.eqb_eq]; [|lia].
        apply orb_true_iff in Hlen as [Hlen%Nat.eqb_eq|Hlen%Nat.eqb_eq]; lia. }
      rewrite !split_app_no_sep by auto.
      destruct p4 as [|c1 [|c2 [|]]]; [..|simpl in Hp4; lia]; simpl;
        repeat case_bool_decide; intros [= <- <- <-] _ Hb;
        by destruct (int_empty L _ Hb).
Qed.

Lemma fromisoformat_extended_isoformat d :
  valid_date d → fromisoformat_extended (isoformat d) = Some d.
Proof.
  intros Hd. destruct (valid_date_fields d Hd) as (Hy & Hm & Hdd).
  apply field_text_ok_spec in Hy as ((_ & Hy & Vy & _)%reads_as_spec & _ & Ly).
  apply field_text_ok_spec in Hm as ((_ & Hm & Vm & _)%reads_as_spec & _ & Lm).
  apply field_text_ok_spec in Hdd as ((_ & Hdd & Vd & _)%reads_as_spec & _ & Ld).
  unfold isoformat. rewrite fromisoformat_extended_fields by done.
  rewrite Vy, Vm, Vd. simpl. by rewrite date_new_valid.
Qed.

(** The interpreter with the extended parser and a digit limit [L]. *)
Definition extended_interpreter (L : N) (HL : (L = 0 ∨ 640 ≤ L)%N) : Interpreter := {|
  fromisoformat := fromisoformat_extended;
  int_max_str_digits := L;
  fromisoformat_isoformat := fromisoformat_extended_isoformat;
  fromisoformat_fields s d a b c y m dd :=
    fromisoformat_extended_agrees L s d a b c y m dd HL;
  int_max_str_digits_range := HL
|}.

(** CPython 3.11 with the default limit of 4300 digits. *)
Definition cpython311 : Interpreter := extended_interpreter 4300 default_limit_range.

(** ** The character database of CPython 3.11 is a database *)

Lemma in_ranges_within small big c :
  ranges_within small big = true →
  Unicode.in_ranges small c = true → Unicode.in_ranges big c = true.
Proof.
  unfold ranges_within, Unicode.in_ranges.
  rewrite forallb_forall, !existsb_exists. intros Hall (r & Hr & Hc).
  specialize (Hall r Hr). apply existsb_exists in Hall as (r' & Hr' & Hin).
  exists r'. split; [done|].
  apply andb_true_iff in Hc as [?%N.leb_le ?%N.leb_le].
  apply andb_true_iff in Hin as [?%N.leb_le ?%N.leb_le].
  apply andb_true_iff. split; apply N.leb_le; lia.
Qed.

Lemma in_ranges_apart small big c :
  ranges_apart small big = true →
  Unicode.in_ranges small c = true → Unicode.in_ranges big c = false.
Proof.
  unfold ranges_apart, Unicode.in_ranges.
  rewrite forallb_forall, existsb_exists. intros Hall (r & Hr & Hc).
  specialize (Hall r Hr). rewrite forallb_forall in Hall.
  apply not_true_is_false. intros (r' & Hr' & Hc')%existsb_exists.
  specialize (Hall r' Hr').
  apply andb_true_iff in Hc as [?%N.leb_le ?%N.leb_le].
  apply andb_true_iff in Hc' as [?%N.leb_le ?%N.leb_le].
  apply orb_true_iff in Hall as [?%N.ltb_lt|?%N.ltb_lt]; lia.
Qed.

Lemma decimal_in_Some ranges c d :
  decimal_in ranges c = Some d → Unicode.in_ranges ranges c = true ∧ (d < 10)%N.
Proof.
  unfold decimal_in, Unicode.in_ranges.
  destruct (find _ _) as [r|] eqn:Hfind; [|discriminate]. intros [= <-].
  apply find_some in Hfind as [Hr Hc]. split.
  - apply existsb_exists. by exists r.
  - by apply N.mod_lt.
Qed.

Lemma all_ascii (P : ascii → Prop) :
  (∀ b0 b1 b2 b3 b4 b5 b6 b7, P (Ascii b0 b1 b2 b3 b4 b5 b6 b7)) → ∀ c, P c.
Proof. intros H []. apply H. Qed.

Ltac each_ascii :=
  apply all_ascii; intros [] [] [] [] [] [] [] []; vm_compute; reflexivity.

Lemma digit_ranges_latin1 c :
  Unicode.in_ranges digit_ranges (Py.code c) = Py.isdigit_char c.
Proof. revert c. each_ascii. Qed.

Lemma decimal_ranges_latin1 c :
  decimal_in decimal_ranges (Py.code c)
  = if Py.is_decimal c then Some (Py.code c - 48)%N else None.
Proof. revert c. each_ascii. Qed.

Lemma printable_ranges_latin1 c :
  Unicode.in_ranges printable_ranges (Py.code c) = Py.isprintable c.
Proof. revert c. each_ascii. Qed.

Definition unicode_14_0 : Unicode.Database := {|
  Unicode.isdigit_char := Unicode.in_ranges digit_ranges;
  Unicode.decimal := decimal_in decimal_ranges;
  Unicode.isprintable := Unicode.in_ranges printable_ranges;
  Unicode.isdigit_char_latin1 := digit_ranges_latin1;
  Unicode.decimal_latin1 := decimal_ranges_latin1;
  Unicode.isprintable_latin1 := printable_ranges_latin1;
  Unicode.decimal_isdigit c d H :=
    in_ranges_within decimal_ranges digit_ranges c eq_refl
      (proj1 (decimal_in_Some _ c d H));
  Unicode.decimal_below_ten c d H := proj2 (decimal_in_Some _ c d H);
  Unicode.isspace_not_digit c :=
    in_ranges_apart Unicode.space_ranges digit_ranges c eq_refl
|}.

(** * Properties of the core *)

(** ** [parse_date] *)

Section parse_date.
Context {interp : Interpreter}.

Lemma date_text_no_space a b c :
  Py.forallb_str Py.is_decimal a = true →
  Py.forallb_str Py.is_decimal b = true →
  Py.forallb_str Py.is_decimal c = true →
  Py.strip (a +:+ "-" +:+ b +:+ "-" +:+ c) = a +:+ "-" +:+ b +:+ "-" +:+ c.
Proof.
  intros Ha Hb Hc. apply strip_by_none.
  rewrite !existsb_str_app.
  rewrite (existsb_str_false Py.isspace Py.is_decimal a),
    (existsb_str_false Py.isspace Py.is_decimal b),
    (existsb_str_false Py.isspace Py.is_decimal c)
    by (done || apply is_decimal_not_isspace).
  reflexivity.
Qed.

(** The text of a date, each field zero-padded or not, reads as that date. *)
Lemma parse_date_fields d ys ms ds :
  valid_date d →
  reads_as (year d) ys = true →
  reads_as (month d) ms = true →
  reads_as (day d) ds = true →
  parse_date (DStr (ys +:+ "-" +:+ ms +:+ "-" +:+ ds)) = Ok d.
Proof.
  intros Hd Hy Hm Hdd. unfold parse_date.
  pose proof (reads_as_int _ _ Hy) as Iy.
  pose proof (reads_as_int _ _ Hm) as Im.
  pose proof (reads_as_int _ _ Hdd) as Idd.
  apply reads_as_spec in Hy as (_ & Hy & _ & _).
  apply reads_as_spec in Hm as (_ & Hm & _ & _).
  apply reads_as_spec in Hdd as (_ & Hdd & _ & _).
  rewrite date_text_no_space by done.
  destruct (fromisoformat _) as [d'|] eqn:Hiso.
  - pose proof (fromisoformat_fields _ _ _ _ _ _ _ _ Hiso
                  (split_fields _ _ _ Hy Hm Hdd) Iy Im Idd) as Hnew.
    rewrite date_new_valid in Hnew by done. by injection Hnew as ->.
  - rewrite split_fields by done. rewrite Iy, Im, Idd. simpl.
    by rewrite date_new_valid.
Qed.

Lemma parse_date_isoformat d :
  valid_date d → parse_date (DStr (isoformat d)) = Ok d.
Proof.
  intros Hd. destruct (valid_date_fields d Hd) as (Hy & Hm & Hdd).
  apply field_text_ok_spec in Hy as (Hy & _ & _).
  apply field_text_ok_spec in Hm as (Hm & _ & _).
  apply field_text_ok_spec in Hdd as (Hdd & _ & _).
  by apply parse_date_fields.
Qed.

(** [int] and [date] raise nothing but [ValueError] and [OverflowError]. *)
Lemma int_raises L s e : Py.int L s = Raise e → ∃ msg, e = ValueError msg.
Proof.
  unfold Py.int. destruct (Py.split_sign _) as [negative u].
  repeat case_match; intros [= <-]; eauto.
Qed.

Lemma date_new_raises y m dd e :
  date_new y m dd = Raise e → e = OverflowError ∨ ∃ msg, e = ValueError msg.
Proof. unfold date_new. repeat case_match; intros [= <-]; eauto. Qed.

(** [parse_date] raises its own [ValueError], or the [OverflowError] of the
    [date] constructor, which its handler lets through. *)
Lemma parse_date_raises value e :
  parse_date value = Raise e →
  ∃ s, value = DStr s ∧ (e = invalid_date_format s ∨ e = OverflowError).
Proof.
  destruct value as [s|d]; [|discriminate]. unfold parse_date. intros Hr.
  exists s. split; [done|].
  destruct (fromisoformat _); [discriminate|].
  destruct (Py.split _ _) as [|p0 [|p1 [|p2 [|]]]]; try (injection Hr as <-; by left).
  destruct (int p0) as [y|e0] eqn:E0; simpl in Hr.
  2:{ apply int_raises in E0 as [? ->]. injection Hr as <-. by left. }
  destruct (int p1) as [m|e1] eqn:E1; simpl in Hr.
  2:{ apply int_raises in E1 as [? ->]. injection Hr as <-. by left. }
  destruct (int p2) as [dd|e2] eqn:E2; simpl in Hr.
  2:{ apply int_raises in E2 as [? ->]. injection Hr as <-. by left. }
  destruct (date_new y m dd) as [?|e3] eqn:E3; [discriminate|].
  apply date_new_raises in E3 as [->|[? ->]]; injection Hr as <-; auto.
Qed.

(** A year beyond 32 bits: the [date] constructor raises [OverflowError],
    which is not a [ValueError]. *)
Lemma parse_date_overflow :
  parse_date (DStr "99999999999-1-1") = Raise OverflowError.
Proof.
  unfold parse_date.
  assert (Hs : Py.split "-" (Py.strip "99999999999-1-1") = ["99999999999"; "1"; "1"])
    by reflexivity.
  assert (Hy : int "99999999999" = Ok 99999999999).
  { apply int_decimal; [done|done|].
    destruct int_max_str_digits_range as [->|?]; [by left|right; simpl; lia]. }
  assert (H1 : int "1" = Ok 1).
  { apply int_decimal; [done|done|].
    destruct int_max_str_digits_range as [->|?]; [by left|right; simpl; lia]. }
  destruct (fromisoformat _) as [d|] eqn:Hiso.
  - by pose proof (fromisoformat_fields _ _ _ _ _ _ _ _ Hiso Hs Hy H1 H1).
  - rewrite Hs, Hy, H1. reflexivity.
Qed.

(** X1. For every valid date, the zero-padded text and every text with the
    year, the month or the day not padded read as that date, and a [date]
    object is returned as it is. *)
Theorem parse_date_sound d ys ms ds :
  valid_date d →
  ys ∈ [zero_pad 4 (year d); pretty (year d)] →
  ms ∈ [zero_pad 2 (month d); pretty (month d)] →
  ds ∈ [zero_pad 2 (day d); pretty (day d)] →
  parse_date (DStr (ys +:+ "-" +:+ ms +:+ "-" +:+ ds)) = Ok d
  ∧ parse_date (DStr (isoformat d)) = Ok d
  ∧ parse_date (DDate d) = Ok d.
Proof.
  intros Hd Hys Hms Hds. destruct (valid_date_fields d Hd) as (Hy & Hm & Hdd).
  apply field_text_ok_spec in Hy as (Hy1 & Hy2 & _).
  apply field_text_ok_spec in Hm as (Hm1 & Hm2 & _).
  apply field_text_ok_spec in Hdd as (Hd1 & Hd2 & _).
  split_and!; [|by apply parse_date_isoformat|done].
  apply parse_date_fields; [done|..].
  - apply elem_of_cons in Hys as [->|Hys]; [done|]. by apply list_elem_of_singleton in Hys as ->.
  - apply elem_of_cons in Hms as [->|Hms]; [done|]. by apply list_elem_of_singleton in Hms as ->.
  - apply elem_of_cons in Hds as [->|Hds]; [done|]. by apply list_elem_of_singleton in Hds as ->.
Qed.

(** X2. What [parse_date] raises: its [ValueError], whose text has the [repr]
    of the value as it was given, or the [OverflowError] of the [date]
    constructor. *)
Theorem parse_date_errors value e :
  parse_date value = Raise e →
  ∃ s, value = DStr s
       ∧ (e = ValueError ("Invalid date format " +:+ Py.repr s +:+ ", expected YYYY-MM-DD")
          ∨ e = OverflowError).
Proof. apply parse_date_raises. Qed.

(** C7, the failing input. The text [99999999999-1-1] is no ISO date, and
    the fallback splits it into three numbers; the [date] constructor then
    raises [OverflowError], which the handler of the fallback does not catch:
    [parse_date] ends with [OverflowError], not with its [ValueError]. *)
Theorem date_fallback_overflow :
  fromisoformat (Py.strip "99999999999-1-1") = None
  ∧ Py.split "-" (Py.strip "99999999999-1-1") = ["99999999999"; "1"; "1"]
  ∧ (y ← int "99999999999"; m ← int "1"; d ← int "1"; date_new y m d)
    = Raise OverflowError
  ∧ parse_date (DStr "99999999999-1-1") = Raise OverflowError.
Proof.
  assert (Hy : int "99999999999" = Ok 99999999999).
  { apply int_decimal; [done|done|].
    destruct int_max_str_digits_range as [->|?]; [by left|right; simpl; lia]. }
  assert (H1 : int "1" = Ok 1).
  { apply int_decimal; [done|done|].
    destruct int_max_str_digits_range as [->|?]; [by left|right; simpl; lia]. }
  split_and!.
  - destruct (fromisoformat _) as [d|] eqn:Hiso; [|done].
    by pose proof (fromisoformat_fields _ _ _ _ _ _ _ _ Hiso eq_refl Hy H1 H1).
  - reflexivity.
  - by rewrite Hy, H1.
  - apply parse_date_overflow.
Qed.

End parse_date.

(** ** [sorted(set(...))] *)

Lemma elem_of_sorted_set x (S : gset string) : x ∈ Py.sorted_set S ↔ x ∈ S.
Proof.
  unfold Py.sorted_set, Py.sorted. by rewrite merge_sort_Permutation, elem_of_elements.
Qed.

Lemma NoDup_sorted_set (S : gset string) : NoDup (Py.sorted_set S).
Proof.
  unfold Py.sorted_set, Py.sorted. rewrite merge_sort_Permutation. apply NoDup_elements.
Qed.

Lemma Sorted_sorted_set (S : gset string) : Sorted String.le (Py.sorted_set S).
Proof. apply (Sorted_merge_sort String.le). Qed.

(** ** Generator expressions *)

Section comprehension.
Context {A B : Type} (cond : A → result bool) (elem : A → B).

Lemma comprehension_Ok_cons x items l :
  comprehension cond elem (x :: items) = Ok l →
  ∃ keep l', cond x = Ok keep ∧ comprehension cond elem items = Ok l'
             ∧ l = if keep then elem x :: l' else l'.
Proof.
  simpl. destruct (cond x) as [keep|]; [|discriminate]. simpl.
  destruct (comprehension cond elem items) as [l'|]; [|discriminate]. simpl.
  intros [= <-]. eauto.
Qed.

Lemma elem_of_comprehension items l y :
  comprehension cond elem items = Ok l →
  y ∈ l ↔ ∃ x, x ∈ items ∧ cond x = Ok true ∧ elem x = y.
Proof.
  revert l. induction items as [|x items IH]; intros l.
  - intros [= <-]. split; [by intros ?%elem_of_nil|]. by intros (? & ?%elem_of_nil & _).
  - intros (keep & l' & Hx & Hl' & ->)%comprehension_Ok_cons.
    specialize (IH l' Hl'). split.
    + destruct keep.
      * intros [->|Hy]%elem_of_cons.
        -- exists x. split; [left|done].
        -- apply IH in Hy as (x' & ? & ? & ?). exists x'. split; [by right|done].
      * intros Hy. apply IH in Hy as (x' & ? & ? & ?). exists x'. split; [by right|done].
    + intros (x' & [->|Hin]%elem_of_cons & Hc & <-).
      * rewrite Hx in Hc. injection Hc as ->. left.
      * assert (elem x' ∈ l') by (apply IH; eauto). destruct keep; [by right|done].
Qed.

Lemma comprehension_all_Ok items l x :
  comprehension cond elem items = Ok l → x ∈ items → ∃ keep, cond x = Ok keep.
Proof.
  revert l. induction items as [|x' items IH]; intros l; [by intros _ ?%elem_of_nil|].
  intros (keep & l' & Hx & Hl' & ->)%comprehension_Ok_cons [->|Hin]%elem_of_cons; eauto.
Qed.

Lemma comprehension_Raise_inv items e :
  comprehension cond elem items = Raise e → ∃ x, x ∈ items ∧ cond x = Raise e.
Proof.
  induction items as [|x items IH]; [discriminate|]. simpl.
  destruct (cond x) as [keep|e'] eqn:Hx; simpl.
  - destruct (comprehension cond elem items) as [l|e']; [discriminate|]. simpl.
    intros [= <-]. destruct IH as (x' & Hin & Hx'); [done|].
    exists x'. split; [by right|done].
  - intros [= <-]. exists x. split; [left|done].
Qed.

(** An item that is not selected can be left out. *)
Lemma comprehension_skip before x after :
  cond x = Ok false →
  comprehension cond elem (before ++ x :: after) = comprehension cond elem (before ++ after).
Proof.
  intros Hx. induction before as [|b before IH]; simpl.
  - rewrite Hx. simpl. by destruct (comprehension cond elem after).
  - by rewrite IH.
Qed.

End comprehension.

(** ** [evaluate_appstream_check] *)

Section evaluate.
Context {interp : Interpreter}.

(** What a successful evaluation returns, by the names of the source. *)
Lemma evaluate_Ok_inv grouped_data target selected_date installed_dnf_modules_raw
    installed_packages r removal :
  evaluate_appstream_check grouped_data target selected_date
    installed_dnf_modules_raw installed_packages = Ok (r, removal) →
  ∃ cutoff major reference_packages reference_modules,
    parse_date selected_date = Ok cutoff
    ∧ grouped_data !! target = Some major
    ∧ reference_package_names cutoff (default [] (package major)) = Ok reference_packages
    ∧ reference_module_names cutoff (default [] (dnf_module major)) = Ok reference_modules
    ∧ target_major r = target
    ∧ matched_packages r =
        Py.sorted_set (list_to_set installed_packages ∩ list_to_set reference_packages)
    ∧ matched_dnf_modules r =
        Py.sorted_set (dom installed_dnf_modules_raw ∩ list_to_set reference_modules)
    ∧ matched_dnf_modules_packages r =
        Py.sorted_set (list_to_set
          (module_name ← matched_dnf_modules r;
           default [] (installed_dnf_modules_raw !! module_name)))
    ∧ any_match r =
        negb (bool_decide (matched_packages r = []))
        || negb (bool_decide (matched_dnf_modules r = []))
    ∧ removal =
        Py.sorted_set (list_to_set (matched_packages r ++ matched_dnf_modules_packages r)).
Proof.
  unfold evaluate_appstream_check.
  destruct (parse_date selected_date) as [cutoff|]; [|discriminate]. simpl.
  destruct (grouped_data !! target) as [major|]; [|discriminate].
  destruct (reference_package_names cutoff _) as [rp|] eqn:Hrp; [|discriminate]. simpl.
  destruct (reference_module_names cutoff _) as [rm|] eqn:Hrm; [|discriminate]. simpl.
  intros [= <- <-]. exists cutoff, major, rp, rm. by repeat split.
Qed.

End evaluate.

Lemma valid_date_dec_true d :
  bool_decide (1 ≤ year d ≤ 9999 ∧ 1 ≤ month d ≤ 12
               ∧ 1 ≤ day d ≤ days_in_month (year d) (month d)) = true →
  valid_date d.
Proof. apply bool_decide_eq_true_1. Qed.

Ltac valid_date := apply valid_date_dec_true; vm_compute; reflexivity.

Section evaluate_claims.
Context {interp : Interpreter}.

Lemma elem_of_reference_package_names cutoff packages_data names x :
  reference_package_names cutoff packages_data = Ok names →
  x ∈ names ↔
    ∃ item, item ∈ packages_data ∧ _is_retired (pkg_end_date item) cutoff = Ok true
            ∧ pkg_name item = Some x ∧ x ≠ EmptyString.
Proof.
  unfold reference_package_names.
  destruct (comprehension _ _ _) as [l|] eqn:Hl; [|discriminate]. simpl.
  intros [= <-]. rewrite elem_of_sorted_set, elem_of_list_to_set.
  rewrite (elem_of_comprehension _ _ _ _ _ Hl). unfold package_selected.
  split.
  - intros (item & Hin & Hsel & Hx). exists item. split; [done|].
    destruct (_is_retired _ _) as [[]|]; simpl in Hsel; try discriminate.
    destruct (pkg_name item) as [[|c s]|]; simpl in *; try discriminate.
    by subst x.
  - intros (item & Hin & Hret & Hname & Hne). exists item. split; [done|].
    rewrite Hret, Hname. simpl. by destruct x.
Qed.

Lemma elem_of_reference_module_names cutoff modules_data keys k :
  reference_module_names cutoff modules_data = Ok keys →
  k ∈ keys ↔
    ∃ item name stream,
      item ∈ modules_data ∧ _is_retired (mod_end_date item) cutoff = Ok true
      ∧ mod_name item = Some name ∧ name ≠ EmptyString
      ∧ mod_stream item = Some stream ∧ stream ≠ EmptyString
      ∧ k = name +:+ ":" +:+ stream.
Proof.
  unfold reference_module_names.
  destruct (comprehension _ _ _) as [l|] eqn:Hl; [|discriminate]. simpl.
  intros [= <-]. rewrite elem_of_sorted_set, elem_of_list_to_set.
  rewrite (elem_of_comprehension _ _ _ _ _ Hl). unfold module_selected, module_key.
  split.
  - intros (item & Hin & Hsel & Hx). exists item.
    destruct (_is_retired _ _) as [[]|]; simpl in Hsel; try discriminate.
    destruct (mod_name item) as [[|c s]|]; simpl in *; try discriminate.
    destruct (mod_stream item) as [[|c' s']|]; simpl in *; try discriminate.
    eexists _, _. by repeat split.
  - intros (item & name & stream & Hin & Hret & Hname & Hne & Hstream & Hne' & ->).
    exists item. split; [done|]. rewrite Hret, Hname, Hstream. simpl.
    by destruct name, stream.
Qed.

Lemma date_ltb_irrefl d : date_ltb d d = false.
Proof.
  unfold date_ltb. rewrite !Z.ltb_irrefl, !Z.eqb_refl. reflexivity.
Qed.

Lemma date_ltb_total a b :
  date_ltb a b = false ↔ b = a ∨ date_ltb b a = true.
Proof.
  destruct a as [y m d], b as [y' m' d']. unfold date_ltb. simpl.
  rewrite !orb_true_iff, !andb_true_iff, !orb_true_iff, !andb_true_iff,
    !orb_false_iff, !andb_false_iff, !orb_false_iff, !andb_false_iff,
    !Z.ltb_lt, !Z.eqb_eq, !Z.ltb_ge, !Z.eqb_neq.
  split.
  - intros H. destruct (decide (y' = y ∧ m' = m ∧ d' = d)) as [(-> & -> & ->)|Hne];
      [by left|right]. lia.
  - intros [[= -> -> ->]|H]; lia.
Qed.

Lemma is_retired_text s cutoff d :
  parse_date (DStr s) = Ok d → s ≠ EmptyString →
  _is_retired (Some (DStr s)) cutoff = Ok (date_ltb d cutoff).
Proof. intros Hp Hs. unfold _is_retired. destruct s; [done|]. by rewrite Hp. Qed.

(** X4. The end date is the last day of support. An entry whose end date
    is a valid date, given as a [date] or as text with the year, the month
    and the day zero-padded or not, is retired at a cutoff exactly when
    that date is strictly before the cutoff: it is not retired at a cutoff
    on the end date or before it, and in particular not on the end date
    itself. *)
Theorem end_date_boundary d ys ms ds cutoff :
  valid_date d →
  ys ∈ [zero_pad 4 (year d); pretty (year d)] →
  ms ∈ [zero_pad 2 (month d); pretty (month d)] →
  ds ∈ [zero_pad 2 (day d); pretty (day d)] →
  _is_retired (Some (DStr (ys +:+ "-" +:+ ms +:+ "-" +:+ ds))) cutoff
  = Ok (date_ltb d cutoff)
  ∧ _is_retired (Some (DDate d)) cutoff = Ok (date_ltb d cutoff)
  ∧ _is_retired (Some (DStr (ys +:+ "-" +:+ ms +:+ "-" +:+ ds))) d = Ok false
  ∧ (_is_retired (Some (DStr (ys +:+ "-" +:+ ms +:+ "-" +:+ ds))) cutoff = Ok false
     ↔ cutoff = d ∨ date_ltb cutoff d = true).
Proof.
  intros Hd Hys Hms Hds. destruct (valid_date_fields d Hd) as (Hy & Hm & Hdd).
  apply field_text_ok_spec in Hy as (Hy1 & Hy2 & _).
  apply field_text_ok_spec in Hm as (Hm1 & Hm2 & _).
  apply field_text_ok_spec in Hdd as (Hd1 & Hd2 & _).
  assert (Hparse : parse_date (DStr (ys +:+ "-" +:+ ms +:+ "-" +:+ ds)) = Ok d).
  { apply parse_date_fields; [done|..].
    - apply elem_of_cons in Hys as [->|Hys]; [done|].
      by apply list_elem_of_singleton in Hys as ->.
    - apply elem_of_cons in Hms as [->|Hms]; [done|].
      by apply list_elem_of_singleton in Hms as ->.
    - apply elem_of_cons in Hds as [->|Hds]; [done|].
      by apply list_elem_of_singleton in Hds as ->. }
  assert (Hne : ys +:+ "-" +:+ ms +:+ "-" +:+ ds ≠ EmptyString) by by destruct ys.
  rewrite !(is_retired_text _ _ _ Hparse Hne). split_and!; try done.
  - by rewrite date_ltb_irrefl.
  - rewrite <-date_ltb_total. split; congruence.
Qed.

(** [_is_retired] lets through the one exception of [parse_date] that is not
    a [ValueError]. *)
Lemma is_retired_raises end_date_raw cutoff e :
  _is_retired end_date_raw cutoff = Raise e →
  e = OverflowError
  ∧ ∃ s, end_date_raw = Some (DStr s) ∧ parse_date (DStr s) = Raise OverflowError.
Proof.
  unfold _is_retired.
  destruct end_date_raw as [[[|c s]|d]|]; try discriminate.
  destruct (parse_date _) as [d|e'] eqn:Hp; [discriminate|].
  destruct (parse_date_raises _ _ Hp) as (s' & [= <-] & [->| ->]); [discriminate|].
  intros [= <-]. eauto.
Qed.

(** An end date that is missing, empty, or that [parse_date] rejects with
    its [ValueError], is not retired. *)
Lemma is_retired_unparseable end_date_raw cutoff :
  end_date_raw = None ∨ end_date_raw = Some (DStr EmptyString)
  ∨ (∃ s msg, end_date_raw = Some (DStr s) ∧ parse_date (DStr s) = Raise (ValueError msg)) →
  _is_retired end_date_raw cutoff = Ok false.
Proof.
  intros [->|[->|(s & msg & -> & Hp)]]; [done..|].
  unfold _is_retired. destruct s; [done|]. by rewrite Hp.
Qed.

(** X3. An entry with such an end date can be left out of the reference table:
    the retired reference sets, and whether building them fails, are the
    same without it. *)
Theorem unretired_entries_excluded cutoff :
  (∀ before item after,
     pkg_end_date item = None ∨ pkg_end_date item = Some (DStr EmptyString)
     ∨ (∃ s msg, pkg_end_date item = Some (DStr s)
                 ∧ parse_date (DStr s) = Raise (ValueError msg)) →
     reference_package_names cutoff (before ++ item :: after)
     = reference_package_names cutoff (before ++ after))
  ∧ (∀ before item after,
       mod_end_date item = None ∨ mod_end_date item = Some (DStr EmptyString)
       ∨ (∃ s msg, mod_end_date item = Some (DStr s)
                   ∧ parse_date (DStr s) = Raise (ValueError msg)) →
       reference_module_names cutoff (before ++ item :: after)
       = reference_module_names cutoff (before ++ after)).
Proof.
  split; intros before item after Hend;
    apply (is_retired_unparseable _ cutoff) in Hend.
  - unfold reference_package_names. rewrite comprehension_skip; [done|].
    unfold package_selected. by rewrite Hend.
  - unfold reference_module_names. rewrite comprehension_skip; [done|].
    unfold module_selected. by rewrite Hend.
Qed.

(** X6. The failures of the evaluation: the error of [parse_date] on the cutoff,
    [KeyError] with the target key when the table lacks it, and the
    [OverflowError] that an end date of the table lets through. *)
Theorem evaluate_errors (grouped_data : gmap string major_data) target selected_date
    installed_dnf_modules_raw installed_packages e :
  evaluate_appstream_check grouped_data target selected_date
    installed_dnf_modules_raw installed_packages = Raise e →
  parse_date selected_date = Raise e
  ∨ (grouped_data !! target = None ∧ e = KeyError target)
  ∨ e = OverflowError.
Proof.
  unfold evaluate_appstream_check.
  destruct (parse_date selected_date) as [cutoff|e0]; simpl; [|intros [= <-]; by left].
  destruct (grouped_data !! target) as [major|]; [|intros [= <-]; right; by left].
  intros He. right. right.
  unfold reference_package_names, reference_module_names in He.
  destruct (comprehension (package_selected cutoff) _ _) as [names|e1] eqn:Hp; simpl in He.
  - destruct (comprehension (module_selected cutoff) _ _) as [keys|e2] eqn:Hm;
      simpl in He; [discriminate|]. injection He as <-.
    apply comprehension_Raise_inv in Hm as (item & _ & Hitem).
    unfold module_selected in Hitem.
    destruct (_is_retired _ _) as [?|e3] eqn:Hr; [discriminate|].
    injection Hitem as <-. by apply is_retired_raises in Hr as [-> _].
  - injection He as <-.
    apply comprehension_Raise_inv in Hp as (item & _ & Hitem).
    unfold package_selected in Hitem.
    destruct (_is_retired _ _) as [?|e3] eqn:Hr; [discriminate|].
    injection Hitem as <-. by apply is_retired_raises in Hr as [-> _].
Qed.

(** C1. The two scenarios of the specification: with the cutoff 2026-02-17
    the retired package and the retired stream are matched and their packages
    are to be removed; with the cutoff 2019-01-01, before the end dates,
    nothing is matched. *)
Theorem scenario_A_B :
  evaluate_appstream_check scenario_reference "el9" (DStr "2026-02-17")
    scenario_modules ["retired-nonmod"]
  = Ok ({| target_major := "el9";
           matched_packages := ["retired-nonmod"];
           matched_dnf_modules := ["nodejs:18"];
           matched_dnf_modules_packages := ["nodejs-libs"];
           any_match := true |},
        ["nodejs-libs"; "retired-nonmod"])
  ∧ evaluate_appstream_check scenario_reference "el9" (DStr "2019-01-01")
      scenario_modules ["retired-nonmod"]
    = Ok ({| target_major := "el9";
             matched_packages := [];
             matched_dnf_modules := [];
             matched_dnf_modules_packages := [];
             any_match := false |},
          []).
Proof.
  assert (Ha : parse_date (DStr "2026-02-17") = Ok (Date 2026 2 17))
    by (apply (parse_date_isoformat (Date 2026 2 17)); valid_date).
  assert (Hb : parse_date (DStr "2019-01-01") = Ok (Date 2019 1 1))
    by (apply (parse_date_isoformat (Date 2019 1 1)); valid_date).
  assert (He : parse_date (DStr "2020-01-01") = Ok (Date 2020 1 1))
    by (apply (parse_date_isoformat (Date 2020 1 1)); valid_date).
  unfold evaluate_appstream_check. rewrite Ha, Hb.
  replace (scenario_reference !! "el9") with
    (Some {| package :=
            Some [ {| pkg_name := Some "retired-nonmod";
                      pkg_end_date := Some (DStr "2020-01-01") |} ];
          dnf_module :=
            Some [ {| mod_name := Some "nodejs"; mod_stream := Some "18";
                      mod_end_date := Some (DStr "2020-01-01") |} ] |}) by reflexivity.
  unfold reference_package_names, reference_module_names.
  cbn [mbind result_bind comprehension package_selected module_selected _is_retired
       pkg_end_date pkg_name mod_end_date mod_name mod_stream package dnf_module
       from_option id].
  rewrite He.
  split; vm_compute; reflexivity.
Qed.

(** C4. A successful evaluation returns the intersections of the inventory
    with the retired reference sets; the removal list is the union of the
    matched packages and the packages of the matched streams, without
    duplicates; and every returned list is sorted. *)
Theorem evaluation_laws grouped_data target selected_date
    (installed_dnf_modules_raw : gmap string (list string))
    (installed_packages : list string) r removal :
  evaluate_appstream_check grouped_data target selected_date
    installed_dnf_modules_raw installed_packages = Ok (r, removal) →
  ∃ cutoff major reference_packages reference_modules,
    parse_date selected_date = Ok cutoff
    ∧ grouped_data !! target = Some major
    ∧ reference_package_names cutoff (default [] (package major)) = Ok reference_packages
    ∧ reference_module_names cutoff (default [] (dnf_module major)) = Ok reference_modules
    ∧ (∀ x, x ∈ matched_packages r ↔ x ∈ installed_packages ∧ x ∈ reference_packages)
    ∧ (∀ k, k ∈ matched_dnf_modules r ↔
            k ∈ dom installed_dnf_modules_raw ∧ k ∈ reference_modules)
    ∧ (∀ x, x ∈ removal ↔
            x ∈ matched_packages r ∨ x ∈ matched_dnf_modules_packages r)
    ∧ NoDup removal
    ∧ Sorted String.le (matched_packages r)
    ∧ Sorted String.le (matched_dnf_modules r)
    ∧ Sorted String.le (matched_dnf_modules_packages r)
    ∧ Sorted String.le removal.
Proof.
  intros (cutoff & major & rp & rm & Hc & Hm & Hrp & Hrm & _ & Hp & Hk & Hmp & _ & Hrem)
    %evaluate_Ok_inv.
  exists cutoff, major, rp, rm. rewrite Hrem, Hmp, Hp, Hk.
  split_and!; try done; try apply Sorted_sorted_set; try apply NoDup_sorted_set.
  - intros x. rewrite elem_of_sorted_set. set_solver.
  - intros k. rewrite elem_of_sorted_set. set_solver.
  - intros x. rewrite elem_of_sorted_set. set_solver.
Qed.

(** C2, the failing input. An end date that [parse_date] cannot parse is
    meant to be skipped; the end date [99999999999-1-1] is not: the [date]
    constructor raises [OverflowError], no handler catches it, and the
    evaluation ends with that exception. *)
Theorem unparseable_end_date_overflow :
  evaluate_appstream_check overflow_reference "el9" (DStr "2026-02-17") ∅ ["pkg"]
  = Raise OverflowError.
Proof.
  assert (Ha : parse_date (DStr "2026-02-17") = Ok (Date 2026 2 17))
    by (apply (parse_date_isoformat (Date 2026 2 17)); valid_date).
  unfold evaluate_appstream_check. rewrite Ha.
  replace (overflow_reference !! "el9") with
    (Some {| package :=
               Some [ {| pkg_name := Some "pkg";
                         pkg_end_date := Some (DStr "99999999999-1-1") |} ];
             dnf_module := None |}) by reflexivity.
  unfold reference_package_names.
  cbn [mbind result_bind comprehension package_selected _is_retired
       pkg_end_date pkg_name package from_option id].
  by rewrite parse_date_overflow.
Qed.

(** C3, as the code has it. The cutoff is normalised before the table is
    looked up: when the target key is missing, a cutoff that [parse_date]
    accepts gives [KeyError] with the key, and a cutoff that it rejects gives
    the exception of [parse_date]. *)
Theorem unknown_target (grouped_data : gmap string major_data) target selected_date
    installed_dnf_modules_raw installed_packages :
  grouped_data !! target = None →
  (∀ cutoff, parse_date selected_date = Ok cutoff →
     evaluate_appstream_check grouped_data target selected_date
       installed_dnf_modules_raw installed_packages = Raise (KeyError target))
  ∧ (∀ e, parse_date selected_date = Raise e →
       evaluate_appstream_check grouped_data target selected_date
         installed_dnf_modules_raw installed_packages = Raise e).
Proof.
  intros Hnone. unfold evaluate_appstream_check.
  split; [intros cutoff ->|intros e ->]; simpl; [by rewrite Hnone|done].
Qed.

(** A package entry without a name is not selected, and the reference set is
    the same without it. *)
Lemma nameless_package_skipped cutoff before item after names :
  pkg_name item = None ∨ pkg_name item = Some EmptyString →
  reference_package_names cutoff (before ++ item :: after) = Ok names →
  reference_package_names cutoff (before ++ after) = Ok names.
Proof.
  intros Hname Hnames.
  assert (Hskip : package_selected cutoff item = Ok false).
  { unfold reference_package_names in Hnames.
    destruct (comprehension _ _ _) as [l|] eqn:Hl; [|discriminate].
    destruct (comprehension_all_Ok _ _ _ _ item Hl) as [keep Hkeep];
      [apply elem_of_app; right; apply elem_of_cons; by left|].
    rewrite Hkeep. f_equal. unfold package_selected in Hkeep.
    destruct (_is_retired _ _) as [retired|]; [|discriminate]. simpl in Hkeep.
    injection Hkeep as <-. destruct Hname as [-> | ->]; simpl; apply andb_false_r. }
  unfold reference_package_names in *. by rewrite <-(comprehension_skip _ _ _ item).
Qed.

(** C10. A package entry without a name (missing, [None] or empty) is left
    out of the retired-package reference set, whatever its end date: a
    successful evaluation gives the same result on the table without the
    entry, the reference set is the same without it, every name in the set
    is the non-empty name of a retired entry, and the matched packages are
    among these names. *)
Theorem nameless_package_excluded (grouped_data : gmap string major_data) target major
    selected_date installed_dnf_modules_raw installed_packages
    before item after r removal :
  pkg_name item = None ∨ pkg_name item = Some EmptyString →
  grouped_data !! target = Some major →
  package major = Some (before ++ item :: after) →
  evaluate_appstream_check grouped_data target selected_date
    installed_dnf_modules_raw installed_packages = Ok (r, removal) →
  evaluate_appstream_check
    (<[target := {| package := Some (before ++ after);
                    dnf_module := dnf_module major |}]> grouped_data)
    target selected_date installed_dnf_modules_raw installed_packages = Ok (r, removal)
  ∧ ∃ cutoff names,
      parse_date selected_date = Ok cutoff
      ∧ reference_package_names cutoff (before ++ item :: after) = Ok names
      ∧ reference_package_names cutoff (before ++ after) = Ok names
      ∧ (∀ x, x ∈ names →
           ∃ named, named ∈ before ++ after ∧ pkg_name named = Some x
                    ∧ x ≠ EmptyString
                    ∧ _is_retired (pkg_end_date named) cutoff = Ok true)
      ∧ (∀ x, x ∈ matched_packages r → x ∈ names).
Proof.
  intros Hname Hmajor Hpackage Heval.
  pose proof Heval as
    (cutoff & major' & names & rm & Hc & Hm & Hrp & Hrm & _ & Hp & _)%evaluate_Ok_inv.
  rewrite Hmajor in Hm. injection Hm as <-. rewrite Hpackage in Hrp. simpl in Hrp.
  pose proof (nameless_package_skipped _ _ _ _ _ Hname Hrp) as Hsame.
  split.
  - unfold evaluate_appstream_check in *. rewrite Hc in *. simpl in *.
    rewrite lookup_insert_eq. rewrite Hmajor, Hpackage in Heval. simpl in *.
    rewrite Hrp in Heval. by rewrite Hsame.
  - exists cutoff, names. split_and!; try done.
    + intros x Hx.
      apply (elem_of_reference_package_names _ _ _ _ Hsame) in Hx
        as (named & Hin & Hret & Hn & Hne).
      by exists named.
    + intros x. rewrite Hp, elem_of_sorted_set, elem_of_intersection.
      intros [_ Hx]. by apply elem_of_list_to_set in Hx.
Qed.

End evaluate_claims.

(** ** [parse_rpm_modularity_output] *)

Lemma parse_lines_cons line rest modules_raw installed_packages :
  parse_lines (line :: rest) modules_raw installed_packages =
    match classify line with
    | Blank => parse_lines rest modules_raw installed_packages
    | NonModular package_name =>
        parse_lines rest modules_raw (installed_packages ++ [package_name])
    | Modular key package_name =>
        parse_lines rest (setdefault_append key package_name modules_raw) installed_packages
    | Malformed e => Raise e
    end.
Proof.
  unfold classify, blank, columns, stream_key. simpl.
  destruct (Py.is_empty (Py.strip line)); [done|].
  destruct (Py.split1 " " (Py.strip line)) as [|p0 [|p1 [|]]]; try done.
  case_bool_decide; [done|].
  destruct (Py.split ":" (Py.strip p1)) as [|l0 [|l1 ?]]; try done.
  by destruct (Py.is_empty l0 || Py.is_empty l1).
Qed.

Lemma parse_lines_spec lines modules_raw installed_packages :
  parse_lines lines modules_raw installed_packages =
    match first_malformed lines with
    | Some e => Raise e
    | None => Ok (record_streams lines modules_raw,
                  installed_packages ++ non_modular_names lines)
    end.
Proof.
  revert modules_raw installed_packages.
  induction lines as [|line rest IH]; intros modules_raw installed_packages.
  - simpl. by rewrite app_nil_r.
  - rewrite parse_lines_cons. unfold non_modular_names. simpl.
    destruct (classify line); rewrite ?IH; try done.
    destruct (first_malformed rest); [done|]. by rewrite <-app_assoc.
Qed.

Lemma record_streams_lookup lines modules_raw key :
  record_streams lines modules_raw !! key =
    match modules_raw !! key with
    | Some old => Some (old ++ stream_packages key lines)
    | None =>
        match stream_packages key lines with
        | [] => None
        | new => Some new
        end
    end.
Proof.
  revert modules_raw. induction lines as [|line rest IH]; intros modules_raw.
  - simpl. destruct (modules_raw !! key); [by rewrite app_nil_r|done].
  - simpl. rewrite IH. unfold stream_packages. simpl.
    destruct (classify line) as [| |k p|]; try done.
    unfold setdefault_append. case_bool_decide as Hk.
    + subst k. rewrite lookup_insert_eq. simpl.
      destruct (modules_raw !! key) as [old|]; simpl; [by rewrite <-app_assoc|done].
    + by rewrite lookup_insert_ne.
Qed.

Lemma parse_rpm_modularity_output_spec output :
  parse_rpm_modularity_output output =
    match first_malformed (Py.splitlines output) with
    | Some e => Raise e
    | None =>
        Ok (record_streams (Py.splitlines output) ∅,
            Py.sorted_set (list_to_set (non_modular_names (Py.splitlines output))))
    end.
Proof.
  unfold parse_rpm_modularity_output. rewrite parse_lines_spec.
  by destruct (first_malformed _).
Qed.

Lemma classify_Malformed line e :
  classify line = Malformed e ↔
    blank line = false
    ∧ (columns line = None ∧ e = unexpected_line (Py.strip line)
       ∨ ∃ package_name label,
           columns line = Some (package_name, label) ∧ label ≠ "(none)"
           ∧ stream_key label = None
           ∧ e = invalid_modularity_label package_name label).
Proof.
  unfold classify. destruct (blank line).
  { split; [done|]. by intros [? _]. }
  destruct (columns line) as [[p label]|].
  - case_bool_decide as Hl.
    { split; [done|]. intros (_ & [[? _]|(? & ? & [= <- <-] & ? & _)]); done. }
    destruct (stream_key label) as [key|] eqn:Hkey.
    + split; [done|]. intros (_ & [[? _]|(? & ? & [= <- <-] & _ & ? & _)]); congruence.
    + split.
      * intros [= <-]. split; [done|]. right. by exists p, label.
      * intros (_ & [[? _]|(? & ? & [= <- <-] & _ & _ & ->)]); done.
  - split.
    + intros [= <-]. split; [done|]. by left.
    + intros (_ & [[_ ->]|(? & ? & ? & _)]); done.
Qed.

Lemma stream_key_None label :
  stream_key label = None ↔
    (∃ l0, Py.split ":" label = [l0])
    ∨ ∃ l0 l1 rest, Py.split ":" label = l0 :: l1 :: rest
                    ∧ (l0 = EmptyString ∨ l1 = EmptyString).
Proof.
  unfold stream_key. pose proof (split_ne_nil ":" label) as Hne.
  destruct (Py.split ":" label) as [|l0 [|l1 rest]]; [done|..].
  - split; [intros _; left; by exists l0|done].
  - split.
    + intros Hk. right. exists l0, l1, rest. split; [done|].
      destruct l0; [by left|]. destruct l1; [by right|]. discriminate.
    + intros [[? [=]]|(? & ? & ? & [= <- <- <-] & [-> | ->])]; [done|].
      by rewrite orb_true_r.
Qed.

Lemma first_malformed_Some lines e :
  first_malformed lines = Some e ↔
    ∃ before line after,
      lines = before ++ line :: after ∧ classify line = Malformed e
      ∧ Forall (λ l, ∀ e', classify l ≠ Malformed e') before.
Proof.
  revert e. induction lines as [|l rest IH]; intros e; simpl.
  - split; [done|]. intros (before & ? & ? & Hl & _). by destruct before.
  - destruct (classify l) as [| | |e0] eqn:Hl.
    1-3: rewrite IH; split.
    1,3,5: intros (before & line & after & -> & Hc & Hb);
           exists (l :: before), line, after; split_and!; try done;
           constructor; [|done]; intros e'; by rewrite Hl.
    1-3: intros ([|l' before] & line & after & Heq & Hc & Hb); simplify_eq/=;
         [congruence|]; exists before, line, after; split_and!; try done;
         by inversion Hb.
    split.
    + intros [= <-]. exists [], l, rest. by split_and!.
    + intros ([|l' before] & line & after & Heq & Hc & Hb); simplify_eq/=.
      * congruence.
      * inversion Hb as [|? ? Hl' ?]. by destruct (Hl' e0).
Qed.

Lemma first_malformed_None lines :
  first_malformed lines = None ↔ ∀ line e, line ∈ lines → classify line ≠ Malformed e.
Proof.
  induction lines as [|l rest IH]; simpl.
  - split; [|done]. by intros _ line e ?%elem_of_nil.
  - destruct (classify l) as [| | |e0] eqn:Hl.
    1-3: rewrite IH; split;
      [intros Hrest line e [->|?]%elem_of_cons; [by rewrite Hl|by apply Hrest]
      |intros Hall line e ?; apply Hall; by right].
    split; [done|]. intros Hall. destruct (Hall l e0); [by left|done].
Qed.

(** X5. A text of blank lines only parses to an empty dictionary and an empty
    list. *)
Theorem blank_output_empty output :
  Forall (λ line, blank line = true) (Py.splitlines output) →
  parse_rpm_modularity_output output = Ok (∅, []).
Proof.
  intros Hblank. rewrite parse_rpm_modularity_output_spec.
  assert (Hclass : Forall (λ line, classify line = Blank) (Py.splitlines output)).
  { eapply Forall_impl; [done|]. intros line Hl. unfold classify. by rewrite Hl. }
  clear Hblank. unfold non_modular_names.
  induction Hclass as [|line lines Hline _ IH]; [done|].
  simpl. rewrite Hline. exact IH.
Qed.

(** C9. After a successful parse every key of the dictionary has at least
    one package; so every stream the evaluator matches against that
    dictionary gives at least one package to the packages of the matched
    streams. *)
Theorem parser_streams_nonempty {interp : Interpreter} output
    (modules_raw : gmap string (list string)) installed_packages :
  parse_rpm_modularity_output output = Ok (modules_raw, installed_packages) →
  (∀ key names, modules_raw !! key = Some names → names ≠ [])
  ∧ ∀ grouped_data target selected_date installed r removal,
      evaluate_appstream_check grouped_data target selected_date modules_raw installed
        = Ok (r, removal) →
      ∀ key, key ∈ matched_dnf_modules r →
        ∃ package_name, package_name ∈ default [] (modules_raw !! key)
                        ∧ package_name ∈ matched_dnf_modules_packages r.
Proof.
  rewrite parse_rpm_modularity_output_spec.
  destruct (first_malformed _); [discriminate|]. intros [= <- <-].
  assert (Hne : ∀ key names,
            record_streams (Py.splitlines output) ∅ !! key = Some names → names ≠ []).
  { intros key names. rewrite record_streams_lookup, lookup_empty.
    destruct (stream_packages key _); [done|]. by intros [= <-]. }
  split; [done|].
  intros grouped_data target selected_date installed r removal
    (cutoff & major & rp & rm & _ & _ & _ & _ & _ & _ & Hk & Hmp & _)%evaluate_Ok_inv
    key Hkey.
  assert (Hdom : key ∈ dom (record_streams (Py.splitlines output) ∅)).
  { rewrite Hk in Hkey. by apply elem_of_sorted_set, elem_of_intersection in Hkey as [? _]. }
  apply elem_of_dom in Hdom as [names Hnames].
  destruct names as [|p names]; [by destruct (Hne _ _ Hnames)|].
  exists p. rewrite Hnames. simpl. split; [left|].
  rewrite Hmp. apply elem_of_sorted_set, elem_of_list_to_set, list_elem_of_bind.
  exists key. split; [|done]. rewrite Hnames. simpl. left.
Qed.

(** C5. What an accepted text parses to: the non-modular names, sorted and
    without duplicates; for a line with a label other than [(none)], the key
    is the first two components of the label joined by a colon, whatever
    follows them; and each key holds the package names of its lines in line
    order, one per line, repeated names included. *)
Theorem parser_output output (modules_raw : gmap string (list string))
    installed_packages :
  parse_rpm_modularity_output output = Ok (modules_raw, installed_packages) →
  installed_packages
    = Py.sorted_set (list_to_set (non_modular_names (Py.splitlines output)))
  ∧ NoDup installed_packages
  ∧ Sorted String.le installed_packages
  ∧ (∀ line package_name label,
       line ∈ Py.splitlines output → blank line = false →
       columns line = Some (package_name, label) → label ≠ "(none)" →
       ∃ l0 l1 rest,
         Py.split ":" label = l0 :: l1 :: rest
         ∧ classify line = Modular (l0 +:+ ":" +:+ l1) package_name)
  ∧ (∀ key,
       modules_raw !! key =
         match stream_packages key (Py.splitlines output) with
         | [] => None
         | names => Some names
         end).
Proof.
  rewrite parse_rpm_modularity_output_spec.
  destruct (first_malformed _) eqn:Hfirst; [discriminate|]. intros [= <- <-].
  split_and!; [done|apply NoDup_sorted_set|apply Sorted_sorted_set|..].
  - intros line p label Hin Hblank Hcol Hlabel.
    pose proof (proj1 (first_malformed_None _) Hfirst line) as Hok.
    specialize (Hok (invalid_modularity_label p label) Hin).
    unfold classify in *. rewrite Hblank, Hcol in *.
    rewrite bool_decide_eq_false_2 in * by done.
    unfold stream_key in *.
    destruct (Py.split ":" label) as [|l0 [|l1 rest]]; [done..|].
    exists l0, l1, rest. split; [done|].
    by destruct (Py.is_empty l0 || Py.is_empty l1).
  - intros key. by rewrite record_streams_lookup, lookup_empty.
Qed.

(** C6. The parser fails exactly when a line that is not blank is
    malformed, with the error of the first such line: a line without two
    columns gives the error of [unexpected_line], whose text has the stripped
    line in it; a label other than [(none)] with fewer than two components,
    or with an empty first or second one, gives the error of
    [invalid_modularity_label], whose text has the package name and the label
    in it. A blank line is never malformed. *)
Theorem parser_failure output :
  ((∃ e, parse_rpm_modularity_output output = Raise e) ↔
   ∃ line e, line ∈ Py.splitlines output ∧ classify line = Malformed e)
  ∧ (∀ e, parse_rpm_modularity_output output = Raise e ↔
        ∃ before line after,
          Py.splitlines output = before ++ line :: after
          ∧ classify line = Malformed e
          ∧ Forall (λ l, ∀ e', classify l ≠ Malformed e') before)
  ∧ (∀ line e, classify line = Malformed e ↔
        blank line = false
        ∧ (columns line = None ∧ e = unexpected_line (Py.strip line)
           ∨ ∃ package_name label,
               columns line = Some (package_name, label) ∧ label ≠ "(none)"
               ∧ ((∃ l0, Py.split ":" label = [l0])
                  ∨ ∃ l0 l1 rest, Py.split ":" label = l0 :: l1 :: rest
                                  ∧ (l0 = EmptyString ∨ l1 = EmptyString))
               ∧ e = invalid_modularity_label package_name label))
  ∧ (∀ line, includes line (message (unexpected_line line)))
  ∧ (∀ package_name label,
       includes package_name (message (invalid_modularity_label package_name label))
       ∧ includes label (message (invalid_modularity_label package_name label))).
Proof.
  split_and!.
  - rewrite parse_rpm_modularity_output_spec.
    destruct (first_malformed _) as [e|] eqn:Hfirst.
    + split; [intros _|by exists e].
      apply first_malformed_Some in Hfirst as (before & line & after & Hl & Hc & _).
      exists line, e. split; [|done]. rewrite Hl. apply elem_of_app. right. left.
    + split; [by intros [e [=]]|].
      intros (line & e & Hin & Hc).
      by destruct (proj1 (first_malformed_None _) Hfirst line e Hin).
  - intros e. rewrite parse_rpm_modularity_output_spec, <-first_malformed_Some.
    destruct (first_malformed _); split; congruence.
  - intros line e. rewrite classify_Malformed. by setoid_rewrite stream_key_None.
  - intros line. by eexists _, _.
  - intros p label. split.
    + by eexists _, _.
    + exists ("Invalid MODULARITYLABEL format for package '" +:+ p +:+ "': '"), "'".
      unfold invalid_modularity_label, message. by rewrite !string_app_assoc.
Qed.

(** ** [detect_target_major] *)

Section detect.
Context {interp : Interpreter}.

Lemma isdigit_char_code c :
  Py.isdigit_char c = true →
  (48 ≤ Py.code c ≤ 57 ∨ Py.code c = 178 ∨ Py.code c = 179 ∨ Py.code c = 185)%N.
Proof.
  unfold Py.isdigit_char.
  rewrite !orb_true_iff, is_decimal_code, !N.eqb_eq. tauto.
Qed.

Lemma isdigit_char_body c :
  Py.isdigit_char c = true → Py.int_body_char c = true → Py.is_decimal c = true.
Proof.
  intros Hd%isdigit_char_code. unfold Py.int_body_char, Py.is_underscore.
  intros [Hc|Hu%bool_decide_eq_true_1]%orb_true_iff; [done|].
  subst c. unfold Py.code in Hd. simpl in Hd. lia.
Qed.

Lemma isdigit_char_not_int_space c :
  Py.isdigit_char c = true → Py.int_space c = false.
Proof.
  intros Hd%isdigit_char_code. unfold Py.int_space.
  repeat match goal with
  | |- context [(?a <=? ?b)%N] => destruct (N.leb_spec a b)
  | |- context [(?a =? ?b)%N] => destruct (N.eqb_spec a b)
  end; simpl; try reflexivity; lia.
Qed.

Lemma split_sign_isdigit c s :
  Py.isdigit_char c = true → Py.split_sign (String c s) = (false, String c s).
Proof.
  intros Hd%isdigit_char_code. unfold Py.split_sign.
  rewrite !bool_decide_eq_false_2;
    [done|intros ->; unfold Py.code in Hd; simpl in Hd; lia..].
Qed.

Lemma forallb_str_lstrip_by P p s :
  Py.forallb_str P s = true → Py.forallb_str P (Py.lstrip_by p s) = true.
Proof.
  induction s as [|c s IH]; simpl; [done|].
  intros [Hc Hs]%andb_true_iff. destruct (p c); [auto|]. simpl. by rewrite Hc, Hs.
Qed.

Lemma lstrip_by_empty p s :
  Py.lstrip_by p s = EmptyString → Py.forallb_str p s = true.
Proof.
  induction s as [|c s IH]; simpl; [done|].
  destruct (p c); [auto|discriminate].
Qed.

Lemma forallb_str_disjoint P Q s :
  (∀ c, P c = true → Q c = false) →
  Py.forallb_str P s = true → Py.forallb_str Q s = true → s = EmptyString.
Proof.
  intros HPQ. destruct s as [|c s]; [done|]. simpl.
  intros [Hc _]%andb_true_iff [Hq _]%andb_true_iff. by rewrite (HPQ c Hc) in Hq.
Qed.

Lemma forallb_str_and P Q R s :
  (∀ c, P c = true → Q c = true → R c = true) →
  Py.forallb_str P s = true → Py.forallb_str Q s = true → Py.forallb_str R s = true.
Proof.
  intros H. induction s as [|c s IH]; simpl; [done|].
  intros [Hc Hs]%andb_true_iff [Hc' Hs']%andb_true_iff. by rewrite (H c Hc Hc'), IH.
Qed.

(** A text that [isdigit] accepts and [int] reads has decimal digits only. *)
Lemma int_isdigit_numeric L s n :
  Py.isdigit s = true → Py.int L s = Ok n → is_numeric s = true.
Proof.
  unfold Py.isdigit, is_numeric. intros [Hne Hs]%andb_true_iff. rewrite Hne. simpl.
  unfold Py.int. rewrite lstrip_by_none
    by (eapply existsb_str_false; [apply isdigit_char_not_int_space|done]).
  destruct s as [|c s]; [done|].
  rewrite split_sign_isdigit by (simpl in Hs; by apply andb_true_iff in Hs as [? _]).
  destruct (Py.int_body_ok _ _); [|discriminate].
  destruct (_ && _); [discriminate|].
  destruct (Py.forallb_str Py.int_space _) eqn:Hrest; [|discriminate]. intros _.
  assert (Hempty : Py.lstrip_by Py.int_body_char (String c s) = EmptyString).
  { eapply (forallb_str_disjoint Py.isdigit_char Py.int_space);
      [apply isdigit_char_not_int_space| |done].
    by apply forallb_str_lstrip_by. }
  apply lstrip_by_empty in Hempty.
  eapply forallb_str_and; [apply isdigit_char_body|done..].
Qed.

Lemma split1_cons sep s : ∃ first rest, Py.split1 sep s = first :: rest.
Proof.
  destruct s as [|c s]; simpl; [by eexists _, _|].
  case_bool_decide; [by eexists _, _|]. destruct (Py.split1 sep s); by eexists _, _.
Qed.

End detect.

(** ** [detect_target_major], on any text *)

Section unicode_int.
Context {ucd : Unicode.Database}.

Lemma code_ascii_of_N n : (n < 256)%N → Py.code (ascii_of_N n) = n.
Proof. apply N_ascii_embedding. Qed.

Lemma ascii_digit d :
  (d < 10)%N →
  Py.is_decimal (ascii_of_N (48 + d)) = true
  ∧ Py.digit_value (ascii_of_N (48 + d)) = Z.of_N d.
Proof.
  intros Hd. unfold Py.digit_value. rewrite is_decimal_code.
  rewrite code_ascii_of_N by lia. lia.
Qed.

(** A digit below 128 is an ASCII digit. *)
Lemma isdigit_char_ascii c :
  (c < 128)%N → Unicode.isdigit_char c = true →
  Unicode.decimal c = Some (c - 48)%N ∧ (48 ≤ c)%N.
Proof.
  intros Hc Hd. rewrite <-(code_ascii_of_N c) in Hd by lia.
  rewrite Unicode.isdigit_char_latin1 in Hd.
  pose proof (Unicode.decimal_latin1 (ascii_of_N c)) as Hdec.
  rewrite code_ascii_of_N in Hdec by lia.
  unfold Py.isdigit_char in Hd. rewrite code_ascii_of_N in Hd by lia.
  destruct (Py.is_decimal (ascii_of_N c)) eqn:His.
  - apply is_decimal_code in His. rewrite code_ascii_of_N in His by lia. split; [done|lia].
  - simpl in Hd. apply orb_true_iff in Hd as [Hd|Hd];
      [apply orb_true_iff in Hd as [Hd|Hd]|]; apply N.eqb_eq in Hd; lia.
Qed.

Lemma decimal_not_isspace c d : Unicode.decimal c = Some d → Unicode.isspace c = false.
Proof.
  intros Hd%Unicode.decimal_isdigit. destruct (Unicode.isspace c) eqn:Hs; [|done].
  apply Unicode.isspace_not_digit in Hs. congruence.
Qed.

Lemma leading_digits_decimal s : Py.forallb_str Py.is_decimal (leading_digits s) = true.
Proof.
  induction s as [|c s IH]; simpl; [done|].
  destruct (Unicode.decimal c) as [d|] eqn:Hd; [|done]. simpl.
  apply Unicode.decimal_below_ten in Hd. by rewrite (proj1 (ascii_digit d Hd)).
Qed.

Lemma leading_digits_length s :
  N.of_nat (String.length (leading_digits s)) = leading_decimals s.
Proof.
  induction s as [|c s IH]; simpl; [done|].
  destruct (Unicode.decimal c); simpl; [|done]. lia.
Qed.

Lemma leading_decimals_all s :
  all_decimal s = true → leading_decimals s = N.of_nat (length s).
Proof.
  induction s as [|c s IH]; simpl; [done|].
  intros [[d Hd]%bool_decide_eq_true Hs]%andb_true_iff. rewrite Hd, IH by done. lia.
Qed.

Lemma leading_digits_value s acc :
  all_decimal s = true →
  decimal_value acc s = Some (Py.int_body_value acc (leading_digits s)).
Proof.
  revert acc. induction s as [|c s IH]; intros acc; simpl; [done|].
  intros [[d Hd]%bool_decide_eq_true Hs]%andb_true_iff. rewrite Hd. simpl.
  destruct (ascii_digit d (Unicode.decimal_below_ten _ _ Hd)) as [-> ->]. by apply IH.
Qed.

Lemma decimal_value_all s acc : is_Some (decimal_value acc s) ↔ all_decimal s = true.
Proof.
  revert acc. induction s as [|c s IH]; intros acc; simpl; [by split; [|eexists]|].
  destruct (Unicode.decimal c) as [d|].
  - rewrite IH, bool_decide_eq_true_2 by by eexists. done.
  - rewrite bool_decide_eq_false_2 by by intros [? [=]]. simpl.
    split; [by intros [? [=]]|done].
Qed.

(** What [int] reads in place of a text of digits: the ASCII digits of its
    decimal digits, up to the first digit that is not decimal, where a
    question mark ends it. *)
Lemma to_ascii_digits s :
  forallb Unicode.isdigit_char s = true →
  Unicode.to_ascii s
  = leading_digits s +:+ (if all_decimal s then EmptyString else "?").
Proof.
  intros Hs. unfold Unicode.to_ascii.
  destruct (forallb (λ c, c <? 128)%N s) eqn:Hascii.
  - induction s as [|c s IH]; [done|].
    simpl in Hs, Hascii.
    apply andb_true_iff in Hs as [Hc Hs]. apply andb_true_iff in Hascii as [Hlt Hascii].
    apply N.ltb_lt in Hlt. destruct (isdigit_char_ascii c Hlt Hc) as [Hd Hge].
    rewrite fmap_cons. cbn [string_of_list_ascii leading_digits all_decimal forallb].
    rewrite Hd, bool_decide_eq_true_2 by by eexists.
    rewrite IH by done. rewrite string_app_cons, andb_true_l.
    by replace (48 + (c - 48))%N with c by lia.
  - clear Hascii. induction s as [|c s IH]; simpl; [done|].
    simpl in Hs. apply andb_true_iff in Hs as [Hc Hs].
    destruct (N.ltb_spec c 127) as [Hlt|Hge].
    + destruct (isdigit_char_ascii c ltac:(lia) Hc) as [Hd Hge].
      rewrite Hd, bool_decide_eq_true_2 by by eexists. simpl.
      rewrite IH by done. by replace (48 + (c - 48))%N with c by lia.
    + destruct (Unicode.isspace c) eqn:Hspace.
      { apply Unicode.isspace_not_digit in Hspace. congruence. }
      destruct (Unicode.decimal c) as [d|] eqn:Hd.
      * rewrite bool_decide_eq_true_2 by by eexists. simpl. by rewrite IH.
      * rewrite bool_decide_eq_false_2 by by intros [? [=]]. done.
Qed.

Lemma take_while_then p s c t :
  Py.forallb_str p s = true → p c = false →
  Py.take_while p (s +:+ String c t) = s ∧ Py.lstrip_by p (s +:+ String c t) = String c t.
Proof.
  intros Hs Hc. induction s as [|a s IH]; simpl.
  - by rewrite Hc.
  - simpl in Hs. apply andb_true_iff in Hs as [Ha Hs]. rewrite Ha.
    destruct (IH Hs) as [-> ->]. done.
Qed.

(** [int] on a text of digits. *)
Lemma int_digits L s :
  Unicode.isdigit s = true →
  Unicode.int L s
  = if all_decimal s then
      if ((0 <? L) && (L <? N.of_nat (length s)))%N
      then inl (Unicode.int_limit_exceeded L (N.of_nat (length s)))
      else inr (Py.int_body_value 0 (leading_digits s))
    else
      if ((0 <? L) && (L <? leading_decimals s))%N
      then inl (Unicode.int_limit_exceeded L (leading_decimals s))
      else inl (Unicode.int_invalid_literal s).
Proof.
  unfold Unicode.isdigit. intros [Hne Hs]%andb_true_iff.
  unfold Unicode.int. rewrite (to_ascii_digits s Hs).
  pose proof (leading_digits_decimal s) as Hdec.
  pose proof (leading_digits_length s) as Hlen.
  destruct (all_decimal s) eqn:Hall.
  - rewrite string_app_nil_r. rewrite <-(leading_decimals_all s Hall), <-Hlen.
    destruct (leading_digits s) as [|a ds] eqn:Hds.
    { destruct s as [|c s]; [done|]. exfalso. simpl in Hall, Hds.
      apply andb_true_iff in Hall as [[d Hd]%bool_decide_eq_true _].
      by rewrite Hd in Hds. }
    assert (Ha : Py.is_decimal a = true)
      by (simpl in Hdec; by apply andb_true_iff in Hdec as [? _]).
    rewrite lstrip_by_none
      by (eapply existsb_str_false; [apply is_decimal_not_int_space|done]).
    rewrite split_sign_decimal by done.
    assert (Hb : Py.forallb_str Py.int_body_char (String a ds) = true)
      by (eapply forallb_str_impl; [apply is_decimal_body_char|done]).
    rewrite take_while_all, lstrip_by_all by done.
    rewrite int_body_ok_decimal, count_decimal_all by done. simpl Py.is_empty.
    simpl negb. simpl orb. cbn iota. by destruct (_ && _).
  - rewrite <-Hlen. destruct (leading_digits s) as [|a ds] eqn:Hds.
    + simpl. by destruct L.
    + assert (Ha : Py.is_decimal a = true)
        by (simpl in Hdec; by apply andb_true_iff in Hdec as [? _]).
      rewrite string_app_cons. simpl Py.lstrip_by.
      rewrite (is_decimal_not_int_space a Ha). rewrite split_sign_decimal by done.
      assert (Hb : Py.forallb_str Py.int_body_char (String a ds) = true)
        by (eapply forallb_str_impl; [apply is_decimal_body_char|done]).
      rewrite <-string_app_cons.
      destruct (take_while_then Py.int_body_char (String a ds) "?" EmptyString Hb eq_refl)
        as [-> ->].
      rewrite int_body_ok_decimal, count_decimal_all by done. simpl Py.is_empty.
      simpl negb. simpl orb. cbn iota. by destruct (_ && _).
Qed.

End unicode_int.

Section unicode_detect.
Context {interp : Interpreter} {ucd : Unicode.Database}.

Lemma unicode_startswith_app p s : Unicode.startswith p (p ++ s) = true.
Proof. induction p as [|c p IH]; simpl; [done|]. by rewrite bool_decide_eq_true_2. Qed.

Lemma unicode_find_version_id_none lines :
  Forall (λ line, assigns_version_id line = false) lines →
  Unicode.find_version_id lines = inr None.
Proof.
  induction 1 as [|line lines Hline _ IH]; [done|]. cbn [Unicode.find_version_id].
  unfold assigns_version_id in Hline. by rewrite Hline.
Qed.

Lemma unicode_find_version_id_first before line after value :
  Forall (λ line, assigns_version_id line = false) before →
  Unicode.strip line = Unicode.of_string "VERSION_ID=" ++ value →
  Unicode.find_version_id (before ++ line :: after) = inr (Some (unquoted value)).
Proof.
  intros Hbefore Hline.
  induction Hbefore as [|l before Hl _ IH]; cbn [app Unicode.find_version_id].
  - rewrite Hline, unicode_startswith_app. reflexivity.
  - unfold assigns_version_id in Hl. by rewrite Hl.
Qed.

Lemma unicode_split1_cons sep s : ∃ first rest, Unicode.split1 sep s = first :: rest.
Proof.
  destruct s as [|c s]; simpl; [by eexists _, _|].
  case_bool_decide; [by eexists _, _|]. destruct (Unicode.split1 sep s); by eexists _, _.
Qed.

Lemma all_decimal_isdigit s :
  all_decimal s = true → forallb Unicode.isdigit_char s = true.
Proof.
  induction s as [|c s IH]; simpl; [done|].
  intros [[d Hd]%bool_decide_eq_true Hs]%andb_true_iff.
  by rewrite (Unicode.decimal_isdigit _ _ Hd), IH.
Qed.

Lemma numeral_Some s n :
  numeral s = Some n →
  Unicode.isdigit s = true ∧ all_decimal s = true
  ∧ n = Py.int_body_value 0 (leading_digits s).
Proof.
  unfold numeral, Unicode.isdigit. destruct s as [|c s]; [done|]. simpl Unicode.is_empty.
  cbn iota. intros Hn.
  assert (Hall : all_decimal (c :: s) = true) by (apply (decimal_value_all _ 0); by eexists).
  rewrite (leading_digits_value _ 0 Hall) in Hn. injection Hn as <-.
  split_and!; [|done..]. by apply all_decimal_isdigit.
Qed.

Lemma numeral_None s :
  numeral s = None → Unicode.isdigit s = true → all_decimal s = false.
Proof.
  unfold numeral, Unicode.isdigit. destruct s as [|c s]; [done|]. simpl Unicode.is_empty.
  cbn iota. intros Hn _. destruct (all_decimal (c :: s)) eqn:Hall; [|done].
  apply (decimal_value_all _ 0) in Hall as [? Hall]. congruence.
Qed.

(** What the detector does with the value it has found. *)
Lemma unicode_detect_with_version_id text version_id :
  Unicode.find_version_id (Unicode.readlines text) = inr (Some version_id) →
  (version_id = [] →
   Unicode.detect_target_major (Some text) = inl Unicode.version_id_not_found)
  ∧ (version_id ≠ [] → Unicode.isdigit (major_text version_id) = false →
     Unicode.detect_target_major (Some text) = inl (Unicode.major_not_parsed version_id))
  ∧ (Unicode.isdigit (major_text version_id) = true →
     Unicode.detect_target_major (Some text)
     = match Unicode.int int_max_str_digits (major_text version_id) with
       | inl e => inl e
       | inr n => inr (Unicode.of_string ("el" +:+ pretty n))
       end).
Proof.
  intros Hfind. unfold Unicode.detect_target_major, major_text. rewrite Hfind.
  destruct version_id as [|c s]; [by split_and!|].
  destruct (unicode_split1_cons 46 (c :: s)) as (major & rest & ->).
  split_and!; [done|by intros _ ->|by intros ->].
Qed.

Lemma unicode_detect_outcomes text version_id :
  Unicode.find_version_id (Unicode.readlines text) = inr (Some version_id) →
  let major := major_text version_id in
  let digits := N.of_nat (length major) in
  (∀ n, numeral major = Some n →
        (int_max_str_digits = 0 ∨ digits ≤ int_max_str_digits)%N →
        Unicode.detect_target_major (Some text)
        = inr (Unicode.of_string ("el" +:+ pretty n)))
  ∧ (∀ n, numeral major = Some n →
          (0 < int_max_str_digits < digits)%N →
          Unicode.detect_target_major (Some text)
          = inl (Unicode.int_limit_exceeded int_max_str_digits digits))
  ∧ (numeral major = None →
     ∃ msg, Unicode.detect_target_major (Some text) = inl (Unicode.ValueError msg))
  ∧ (version_id = [] →
     Unicode.detect_target_major (Some text) = inl Unicode.version_id_not_found)
  ∧ (version_id ≠ [] → Unicode.isdigit major = false →
     Unicode.detect_target_major (Some text)
     = inl (Unicode.major_not_parsed version_id))
  ∧ (Unicode.isdigit major = true → numeral major = None →
     Unicode.detect_target_major (Some text)
     = inl (if ((0 <? int_max_str_digits)
                && (int_max_str_digits <? leading_decimals major))%N
            then Unicode.int_limit_exceeded int_max_str_digits (leading_decimals major)
            else Unicode.int_invalid_literal major)).
Proof.
  intros Hfind major digits.
  destruct (unicode_detect_with_version_id _ _ Hfind) as (Hempty & Hnodigit & Hdigit).
  fold major in Hnodigit, Hdigit.
  assert (Hnone : Unicode.isdigit major = true → numeral major = None →
            Unicode.detect_target_major (Some text)
            = inl (if ((0 <? int_max_str_digits)
                       && (int_max_str_digits <? leading_decimals major))%N
                   then Unicode.int_limit_exceeded int_max_str_digits
                          (leading_decimals major)
                   else Unicode.int_invalid_literal major)).
  { intros His Hn. rewrite (Hdigit His), (int_digits _ _ His).
    rewrite (numeral_None _ Hn His). by destruct (_ && _). }
  split_and!; try done.
  - intros n (His & Hall & ->)%numeral_Some Hlimit.
    rewrite (Hdigit His), (int_digits _ _ His), Hall. fold digits.
    destruct (N.ltb_spec 0 int_max_str_digits), (N.ltb_spec int_max_str_digits digits);
      simpl; try done; lia.
  - intros n (His & Hall & ->)%numeral_Some Hlimit.
    rewrite (Hdigit His), (int_digits _ _ His), Hall. fold digits.
    destruct (N.ltb_spec 0 int_max_str_digits), (N.ltb_spec int_max_str_digits digits);
      simpl; try done; lia.
  - intros Hn. destruct (Unicode.isdigit major) eqn:His.
    + rewrite (Hnone eq_refl Hn). destruct (_ && _); by eexists.
    + destruct (decide (version_id = [])) as [Hv|Hv].
      * rewrite (Hempty Hv). by eexists.
      * rewrite (Hnodigit Hv eq_refl). by eexists.
Qed.

(** Latin-1 decimal digits read as they do in [Py]. *)
Lemma decimal_value_of_string s acc :
  Py.forallb_str Py.is_decimal s = true →
  decimal_value acc (Unicode.of_string s) = Some (Py.int_body_value acc s).
Proof.
  revert acc. induction s as [|c s IH]; intros acc; [done|].
  simpl Py.forallb_str. intros [Hc Hs]%andb_true_iff.
  unfold Unicode.of_string. simpl. rewrite Unicode.decimal_latin1, Hc.
  fold (Unicode.of_string s). rewrite IH by done. f_equal. f_equal.
  unfold Py.digit_value. apply is_decimal_code in Hc. lia.
Qed.

Lemma numeral_of_string s :
  s ≠ EmptyString → Py.forallb_str Py.is_decimal s = true →
  numeral (Unicode.of_string s) = Some (digits_value s).
Proof.
  intros Hne Hs. unfold numeral. destruct s as [|c s]; [done|].
  by apply decimal_value_of_string.
Qed.

Lemma isdigit_of_string s : Unicode.isdigit (Unicode.of_string s) = Py.isdigit s.
Proof.
  unfold Unicode.isdigit, Py.isdigit. f_equal; [by destruct s|].
  induction s as [|c s IH]; [done|]. unfold Unicode.of_string in *.
  cbn [list_ascii_of_string Py.forallb_str]. rewrite fmap_cons. cbn [forallb].
  by rewrite Unicode.isdigit_char_latin1, IH.
Qed.

Lemma unicode_small_literal_within_limit (n : N) :
  (n ≤ 640)%N → (int_max_str_digits = 0 ∨ n ≤ int_max_str_digits)%N.
Proof. intros Hn. destruct int_max_str_digits_range as [->|?]; [by left|right; lia]. Qed.


End unicode_detect.

(** The digits of another script: with the character database of CPython
    3.11 the Arabic-Indic digit nine reads as 9. *)
Lemma detect_target_major_arabic_indic :
  Unicode.detect_target_major (interp := cpython311) (ucd := unicode_14_0)
    (Some (Unicode.of_string "VERSION_ID=" ++ [1641; 46; 52]%N))
  = inr (Unicode.of_string "el9").
Proof. vm_compute. reflexivity. Qed.

(** ** On Latin-1 text the two models of the detector agree *)

Lemma code_inj c c' : Py.code c = Py.code c' → c = c'.
Proof.
  unfold Py.code. intros H. rewrite <-(ascii_N_embedding c), <-(ascii_N_embedding c').
  by rewrite H.
Qed.

Lemma code_below_256 c : (Py.code c < 256)%N.
Proof. apply N_ascii_bounded. Qed.

Lemma of_string_cons c s : Unicode.of_string (String c s) = Py.code c :: Unicode.of_string s.
Proof. reflexivity. Qed.

Lemma of_string_app s1 s2 :
  Unicode.of_string (s1 +:+ s2) = Unicode.of_string s1 ++ Unicode.of_string s2.
Proof.
  induction s1 as [|c s1 IH]; [done|].
  rewrite string_app_cons, !of_string_cons, IH. done.
Qed.

Lemma of_string_nil s : Unicode.of_string s = [] ↔ s = EmptyString.
Proof. by destruct s. Qed.

Lemma is_empty_of_string s : Unicode.is_empty (Unicode.of_string s) = Py.is_empty s.
Proof. by destruct s. Qed.

Lemma of_string_rev_app s1 s2 :
  Unicode.of_string (String.rev_app s1 s2)
  = rev (Unicode.of_string s1) ++ Unicode.of_string s2.
Proof.
  revert s2. induction s1 as [|c s1 IH]; intros s2; [done|].
  simpl String.rev_app. rewrite IH, !of_string_cons. simpl rev.
  by rewrite <-app_assoc.
Qed.

Lemma of_string_rev s : Unicode.of_string (String.rev s) = rev (Unicode.of_string s).
Proof. unfold String.rev. by rewrite of_string_rev_app, app_nil_r. Qed.

Lemma isspace_latin1 c : Unicode.isspace (Py.code c) = Py.isspace c.
Proof. revert c. each_ascii. Qed.

Section latin1_builtins.
Context (P : N → bool) (p : ascii → bool) (HP : ∀ c, P (Py.code c) = p c).

Lemma lstrip_by_of_string s :
  Unicode.lstrip_by P (Unicode.of_string s) = Unicode.of_string (Py.lstrip_by p s).
Proof.
  induction s as [|c s IH]; [done|]. rewrite of_string_cons.
  cbn [Unicode.lstrip_by Py.lstrip_by]. rewrite HP. by destruct (p c).
Qed.

Lemma rstrip_by_of_string s :
  Unicode.rstrip_by P (Unicode.of_string s) = Unicode.of_string (Py.rstrip_by p s).
Proof.
  induction s as [|c s IH]; [done|]. rewrite of_string_cons.
  cbn [Unicode.rstrip_by Py.rstrip_by]. rewrite HP, IH, is_empty_of_string.
  by destruct (p c && _).
Qed.

Lemma strip_by_of_string s :
  Unicode.strip_by P (Unicode.of_string s) = Unicode.of_string (Py.strip_by p s).
Proof.
  unfold Unicode.strip_by, Py.strip_by. by rewrite lstrip_by_of_string, rstrip_by_of_string.
Qed.

End latin1_builtins.

Lemma strip_of_string s :
  Unicode.strip (Unicode.of_string s) = Unicode.of_string (Py.strip s).
Proof. apply strip_by_of_string, isspace_latin1. Qed.

Lemma strip_char_of_string ch s :
  Unicode.strip_char (Py.code ch) (Unicode.of_string s)
  = Unicode.of_string (Py.strip_char ch s).
Proof.
  apply strip_by_of_string. intros c. apply bool_decide_ext. split; [apply code_inj|].
  by intros ->.
Qed.

Lemma split1_of_string sep s :
  Unicode.split1 (Py.code sep) (Unicode.of_string s)
  = Unicode.of_string <$> Py.split1 sep s.
Proof.
  induction s as [|c s IH]; [done|]. rewrite of_string_cons.
  cbn [Unicode.split1 Py.split1]. rewrite IH.
  rewrite (bool_decide_ext (Py.code c = Py.code sep) (c = sep))
    by (split; [apply code_inj|by intros ->]).
  case_bool_decide; [done|]. by destruct (Py.split1 sep s).
Qed.

Lemma startswith_of_string p s :
  Unicode.startswith (Unicode.of_string p) (Unicode.of_string s) = Py.startswith p s.
Proof.
  unfold Py.startswith. revert s. induction p as [|a p IH]; intros s; [by destruct s|].
  destruct s as [|b s]; [done|]. rewrite !of_string_cons.
  cbn [Unicode.startswith String.prefix]. rewrite IH.
  destruct (ascii_dec a b) as [->|Hab].
  - by rewrite bool_decide_eq_true_2.
  - rewrite bool_decide_eq_false_2; [done|]. by intros ?%code_inj.
Qed.

Lemma readlines_go_of_string cur s :
  Unicode.readlines_go (Unicode.of_string cur) (Unicode.of_string s)
  = Unicode.of_string <$> Py.readlines_go cur s.
Proof.
  remember (String.length s) as n eqn:Hn. revert cur s Hn.
  induction n as [n IH] using lt_wf_ind. intros cur s ->.
  destruct s as [|c s].
  - cbn [Unicode.of_string Unicode.readlines_go Py.readlines_go list_ascii_of_string fmap
         list_fmap].
    fold (Unicode.of_string cur). rewrite is_empty_of_string.
    destruct (Py.is_empty cur); [done|]. by rewrite fmap_cons, of_string_rev.
  - rewrite of_string_cons. cbn [Unicode.readlines_go Py.readlines_go].
    change Unicode.LF with (Py.code Py.LF). change Unicode.CR with (Py.code Py.CR).
    rewrite (bool_decide_ext (Py.code c = Py.code Py.LF) (c = Py.LF))
      by (split; [apply code_inj|by intros ->]).
    rewrite (bool_decide_ext (Py.code c = Py.code Py.CR) (c = Py.CR))
      by (split; [apply code_inj|by intros ->]).
    rewrite <-!of_string_cons, <-!of_string_rev.
    assert (Hlt : (String.length s < String.length (String c s))%nat)
      by (cbn [String.length]; lia).
    case_bool_decide.
    { rewrite fmap_cons. f_equal. exact (IH _ Hlt EmptyString s eq_refl). }
    case_bool_decide.
    { rewrite fmap_cons. f_equal. destruct s as [|c' s]; [done|].
      rewrite of_string_cons.
      rewrite (bool_decide_ext (Py.code c' = Py.code Py.LF) (c' = Py.LF))
        by (split; [apply code_inj|by intros ->]).
      rewrite <-of_string_cons.
      case_bool_decide.
      - refine (IH _ _ EmptyString s eq_refl). cbn [String.length]. lia.
      - exact (IH _ Hlt EmptyString (String c' s) eq_refl). }
    exact (IH _ Hlt (String c cur) s eq_refl).
Qed.

Lemma readlines_of_string s :
  Unicode.readlines (Unicode.of_string s) = Unicode.of_string <$> Py.readlines s.
Proof. apply (readlines_go_of_string EmptyString). Qed.

Lemma contains_of_string ch s :
  bool_decide (Py.code ch ∈ Unicode.of_string s) = Py.contains ch s.
Proof.
  unfold Py.contains. induction s as [|c s IH]; [done|].
  rewrite of_string_cons. cbn [Py.existsb_str]. rewrite <-IH.
  destruct (decide (c = ch)) as [->|Hc].
  - rewrite (bool_decide_eq_true_2 (ch = ch)) by done.
    by rewrite bool_decide_eq_true_2 by left.
  - rewrite (bool_decide_eq_false_2 (c = ch)) by done. simpl.
    apply bool_decide_ext. rewrite elem_of_cons. split; [|by right].
    intros [?%code_inj|?]; [done|done].
Qed.

Lemma take_of_string n s :
  take n (Unicode.of_string s) = Unicode.of_string (Py.take n s).
Proof.
  revert s. induction n as [|n IH]; intros [|c s]; try done.
  rewrite of_string_cons. cbn [take Py.take]. by rewrite IH, of_string_cons.
Qed.

Section latin1_detect.
Context {interp : Interpreter} {ucd : Unicode.Database}.

Lemma escape_char_of_string q c :
  Unicode.escape_char (Py.code q) (Py.code c) = Unicode.of_string (Py.escape_char q c).
Proof.
  unfold Unicode.escape_char, Py.escape_char. rewrite Unicode.isprintable_latin1.
  rewrite (bool_decide_ext (Py.code c = Py.code q) (c = q))
    by (split; [apply code_inj|by intros ->]).
  generalize (bool_decide (c = q)). intros b. revert c. destruct b; each_ascii.
Qed.

Lemma escape_of_string q s :
  Unicode.of_string s ≫= Unicode.escape_char (Py.code q)
  = Unicode.of_string (Py.escape q s).
Proof.
  induction s as [|c s IH]; [done|]. rewrite of_string_cons, bind_cons.
  cbn [Py.escape]. by rewrite of_string_app, escape_char_of_string, IH.
Qed.

Lemma repr_of_string s :
  Unicode.repr (Unicode.of_string s) = Unicode.of_string (Py.repr s).
Proof.
  unfold Unicode.repr, Py.repr.
  change Unicode.SQUOTE with (Py.code Py.SQUOTE).
  change Unicode.DQUOTE with (Py.code Py.DQUOTE).
  rewrite !contains_of_string.
  destruct (Py.contains Py.SQUOTE s && negb (Py.contains Py.DQUOTE s));
    by rewrite of_string_cons, of_string_app, escape_of_string.
Qed.

Lemma take_while_lstrip_by p s : s = Py.take_while p s +:+ Py.lstrip_by p s.
Proof.
  induction s as [|c s IH]; [done|]. simpl. destruct (p c); [|done].
  by rewrite string_app_cons, <-IH.
Qed.

Lemma lstrip_by_cases p s :
  Py.lstrip_by p s = EmptyString
  ∨ ∃ c t, Py.lstrip_by p s = String c t ∧ p c = false.
Proof.
  induction s as [|c s IH]; [by left|]. simpl. destruct (p c) eqn:Hc; [done|].
  right. by exists c, s.
Qed.

Lemma take_while_forallb p s : Py.forallb_str p (Py.take_while p s) = true.
Proof.
  induction s as [|c s IH]; [done|]. simpl. destruct (p c) eqn:Hc; [|done].
  simpl. by rewrite Hc.
Qed.

Lemma forallb_str_app p s1 s2 :
  Py.forallb_str p (s1 +:+ s2) = Py.forallb_str p s1 && Py.forallb_str p s2.
Proof.
  induction s1 as [|c s1 IH]; [done|]. rewrite string_app_cons. simpl.
  by rewrite IH, andb_assoc.
Qed.

(** [int] of [Py] on a text of digits. *)
Lemma py_int_isdigit L s :
  Py.isdigit s = true →
  Py.int L s
  = if Py.forallb_str Py.is_decimal s then
      if ((0 <? L) && (L <? N.of_nat (String.length s)))%N
      then Raise (Py.int_limit_exceeded L (N.of_nat (String.length s)))
      else Ok (digits_value s)
    else
      if ((0 <? L)
          && (L <? N.of_nat (String.length (Py.take_while Py.is_decimal s))))%N
      then Raise (Py.int_limit_exceeded L
                    (N.of_nat (String.length (Py.take_while Py.is_decimal s))))
      else Raise (Py.int_invalid_literal s).
Proof.
  unfold Py.isdigit. intros [Hne Hs]%andb_true_iff.
  destruct (Py.forallb_str Py.is_decimal s) eqn:Hall.
  - unfold Py.int. destruct s as [|a ds]; [done|].
    assert (Ha : Py.is_decimal a = true)
      by (simpl in Hall; by apply andb_true_iff in Hall as [? _]).
    rewrite lstrip_by_none
      by (eapply existsb_str_false; [apply is_decimal_not_int_space|done]).
    rewrite split_sign_decimal by done.
    assert (Hb : Py.forallb_str Py.int_body_char (String a ds) = true)
      by (eapply forallb_str_impl; [apply is_decimal_body_char|done]).
    rewrite take_while_all, lstrip_by_all by done.
    rewrite int_body_ok_decimal, count_decimal_all by done. simpl Py.is_empty.
    simpl negb. simpl orb. cbn iota. by destruct (_ && _).
  - pose proof (take_while_lstrip_by Py.is_decimal s) as Hsplit.
    pose proof (take_while_forallb Py.is_decimal s) as Hdec.
    destruct (lstrip_by_cases Py.is_decimal s) as [Hrest|(c & t & Hrest & Hc)].
    { rewrite Hrest, string_app_nil_r in Hsplit. rewrite <-Hsplit in Hdec. congruence. }
    rewrite Hrest in Hsplit.
    assert (Hcd : Py.isdigit_char c = true).
    { rewrite Hsplit, forallb_str_app in Hs. apply andb_true_iff in Hs as [_ Hs].
      simpl in Hs. by apply andb_true_iff in Hs as [? _]. }
    assert (Hcb : Py.int_body_char c = false).
    { destruct (Py.int_body_char c) eqn:Hb; [|done].
      pose proof (isdigit_char_body c Hcd Hb). congruence. }
    set (ds := Py.take_while Py.is_decimal s) in *.
    unfold Py.int. rewrite Hsplit at 1. destruct ds as [|a ds].
    + rewrite string_app_nil_l. simpl Py.lstrip_by.
      rewrite (isdigit_char_not_int_space c Hcd), (split_sign_isdigit c t Hcd).
      simpl Py.take_while. rewrite Hcb. simpl. by destruct L.
    + assert (Ha : Py.is_decimal a = true)
        by (simpl in Hdec; by apply andb_true_iff in Hdec as [? _]).
      rewrite string_app_cons. simpl Py.lstrip_by.
      rewrite (is_decimal_not_int_space a Ha). rewrite split_sign_decimal by done.
      assert (Hb : Py.forallb_str Py.int_body_char (String a ds) = true)
        by (eapply forallb_str_impl; [apply is_decimal_body_char|done]).
      rewrite <-string_app_cons.
      destruct (take_while_then Py.int_body_char (String a ds) c t Hb Hcb) as [-> ->].
      rewrite int_body_ok_decimal, count_decimal_all by done. simpl Py.is_empty.
      simpl negb. simpl orb. cbn iota. simpl Py.forallb_str.
      rewrite (isdigit_char_not_int_space c Hcd). simpl. by destruct (_ && _).
Qed.

Lemma all_decimal_of_string s :
  all_decimal (Unicode.of_string s) = Py.forallb_str Py.is_decimal s.
Proof.
  induction s as [|c s IH]; [done|]. rewrite of_string_cons.
  cbn [all_decimal forallb Py.forallb_str]. fold (all_decimal (Unicode.of_string s)).
  rewrite IH, Unicode.decimal_latin1. destruct (Py.is_decimal c).
  - by rewrite bool_decide_eq_true_2 by by eexists.
  - by rewrite bool_decide_eq_false_2 by by intros [? [=]].
Qed.

Lemma leading_digits_of_string s :
  leading_digits (Unicode.of_string s) = Py.take_while Py.is_decimal s.
Proof.
  induction s as [|c s IH]; [done|]. rewrite of_string_cons.
  cbn [leading_digits Py.take_while]. rewrite Unicode.decimal_latin1.
  destruct (Py.is_decimal c) eqn:Hc; [|done]. rewrite IH. f_equal.
  apply is_decimal_code in Hc. replace (48 + (Py.code c - 48))%N with (Py.code c) by lia.
  apply ascii_N_embedding.
Qed.

Lemma length_of_string s : length (Unicode.of_string s) = String.length s.
Proof. induction s as [|c s IH]; [done|]. rewrite of_string_cons. simpl. by rewrite IH. Qed.

Lemma int_of_string L s :
  Py.isdigit s = true →
  Some (Unicode.int L (Unicode.of_string s)) = latin1 id (Py.int L s).
Proof.
  intros Hs. rewrite (py_int_isdigit L s Hs).
  rewrite int_digits by by rewrite isdigit_of_string.
  rewrite all_decimal_of_string, <-leading_digits_length, leading_digits_of_string,
    length_of_string.
  destruct (Py.forallb_str Py.is_decimal s) eqn:Hall.
  - rewrite take_while_all by done. by destruct (_ && _).
  - destruct (_ && _); [done|]. simpl. unfold Unicode.int_invalid_literal.
    by rewrite repr_of_string, take_of_string, <-of_string_app.
Qed.

Lemma find_version_id_of_string lines :
  Some (Unicode.find_version_id (Unicode.of_string <$> lines))
  = latin1 (fmap Unicode.of_string) (find_version_id lines).
Proof.
  induction lines as [|line lines IH]; [done|]. rewrite fmap_cons.
  cbn [Unicode.find_version_id find_version_id].
  rewrite strip_of_string, startswith_of_string.
  destruct (Py.startswith _ _); [|done].
  change 61%N with (Py.code "="). rewrite split1_of_string.
  destruct (Py.split1 "=" (Py.strip line)) as [|first [|value rest]]; [done..|].
  rewrite !fmap_cons. simpl. rewrite strip_of_string.
  change Unicode.DQUOTE with (Py.code Py.DQUOTE).
  change Unicode.SQUOTE with (Py.code Py.SQUOTE).
  by rewrite !strip_char_of_string.
Qed.

(** On a file of Latin-1 characters the detector on Unicode text returns
    what the detector on the text of [Py] returns, and raises what it
    raises. *)
Lemma detect_target_major_of_string os_release :
  Some (Unicode.detect_target_major (Unicode.of_string <$> os_release))
  = latin1 Unicode.of_string (detect_target_major os_release).
Proof.
  unfold Unicode.detect_target_major, detect_target_major.
  assert (Hfind :
    Some (match Unicode.of_string <$> os_release with
          | Some text => Unicode.find_version_id (Unicode.readlines text)
          | None => inr None
          end)
    = latin1 (fmap Unicode.of_string)
        (match os_release with
         | Some text => find_version_id (Py.readlines text)
         | None => Ok None
         end)).
  { destruct os_release as [text|]; [|done]. simpl.
    by rewrite readlines_of_string, find_version_id_of_string. }
  destruct (match os_release with Some _ => _ | None => _ end) as [version_id|e];
    simpl in Hfind; simpl.
  2:{ destruct e; try discriminate; by injection Hfind as ->. }
  injection Hfind as ->. destruct version_id as [[|c s]|]; [done| |done].
  cbn [fmap option_fmap option_map]. rewrite of_string_cons, <-of_string_cons.
  change 46%N with (Py.code "."). rewrite split1_of_string.
  destruct (split1_cons "." (String c s)) as (major & rest & ->). rewrite fmap_cons.
  rewrite isdigit_of_string. destruct (Py.isdigit major) eqn:Hdigit; simpl.
  - pose proof (int_of_string int_max_str_digits major Hdigit) as Hint.
    unfold int. destruct (Py.int _ major) as [n|e]; simpl in *.
    + by injection Hint as ->.
    + destruct e; try discriminate; by injection Hint as ->.
  - unfold Unicode.major_not_parsed, major_not_parsed.
    by rewrite repr_of_string, <-!of_string_app.
Qed.

End latin1_detect.

(** * Further properties of the core *)

(** ** [parse_date] on text *)

Lemma rstrip_by_idemp p s : Py.rstrip_by p (Py.rstrip_by p s) = Py.rstrip_by p s.
Proof.
  induction s as [|c s IH]; simpl; [done|].
  destruct (p c && Py.is_empty (Py.rstrip_by p s)) eqn:Hc; [done|].
  simpl. by rewrite IH, Hc.
Qed.

(** What [lstrip] leaves does not start with a character it strips. *)
Lemma lstrip_by_head p s :
  match Py.lstrip_by p s with
  | EmptyString => True
  | String c _ => p c = false
  end.
Proof.
  induction s as [|c s IH]; simpl; [done|]. by destruct (p c) eqn:Hc.
Qed.

Lemma strip_by_idemp p s : Py.strip_by p (Py.strip_by p s) = Py.strip_by p s.
Proof.
  unfold Py.strip_by. pose proof (lstrip_by_head p s) as Hhead.
  destruct (Py.lstrip_by p s) as [|c t]; [done|].
  assert (Hl : Py.lstrip_by p (Py.rstrip_by p (String c t)) = Py.rstrip_by p (String c t)).
  { simpl. rewrite Hhead. simpl. by rewrite Hhead. }
  by rewrite Hl, rstrip_by_idemp.
Qed.

Lemma fromisoformat_strict_valid s d : fromisoformat_strict s = Some d → valid_date d.
Proof.
  unfold fromisoformat_strict.
  repeat (destruct s as [|? s]; [discriminate|]). destruct s; [|discriminate].
  destruct (_ && _); [|discriminate].
  destruct (date_new _ _ _) as [d'|] eqn:Hd; [|discriminate].
  intros [= <-]. by apply date_new_Ok in Hd as [_ ?].
Qed.

Lemma make_date_valid ymd d : make_date ymd = Some d → valid_date d.
Proof.
  destruct ymd as [[y m] dd]. unfold make_date.
  destruct (date_new _ _ _) as [d'|] eqn:Hd; [|discriminate].
  intros [= <-]. by apply date_new_Ok in Hd as [_ ?].
Qed.

Lemma fromisoformat_extended_valid s d : fromisoformat_extended s = Some d → valid_date d.
Proof.
  unfold fromisoformat_extended.
  destruct (negb _); [discriminate|].
  destruct (parse_digits 4 0 s) as [[y p]|]; [|discriminate]. cbn [mbind option_bind].
  destruct (skip_char "W" _) as [p'|].
  - destruct (parse_digits 2 0 p') as [[w p'']|]; [|discriminate].
    cbn [mbind option_bind].
    destruct (if (_ <? _)%nat then _ else _) as [[dd p3]|]; [|discriminate].
    cbn [mbind option_bind].
    destruct (iso_to_ymd _ _ _) as [ymd|]; [|discriminate]. apply make_date_valid.
  - destruct (parse_digits 2 0 _) as [[m p'']|]; [|discriminate].
    cbn [mbind option_bind].
    destruct (if bool_decide _ then _ else _) as [p3|]; [|discriminate].
    cbn [mbind option_bind].
    destruct (parse_digits 2 0 p3) as [[dd p4]|]; [|discriminate]. apply make_date_valid.
Qed.

Section parse_date_text.
Context {interp : Interpreter}.

(** White space around the text is not looked at; only the message of the
    error has the text as it was given. *)
Lemma parse_date_strip s :
  parse_date (DStr s)
  = match parse_date (DStr (Py.strip s)) with
    | Raise (ValueError _) => Raise (invalid_date_format s)
    | r => r
    end.
Proof.
  unfold parse_date, Py.strip. rewrite strip_by_idemp.
  destruct (fromisoformat _); [done|].
  destruct (Py.split _ _) as [|p0 [|p1 [|p2 [|]]]]; try done.
  by destruct (_ ≫= _) as [|[]].
Qed.

Lemma parse_date_Ok_valid s d :
  (∀ t d', fromisoformat t = Some d' → valid_date d') →
  parse_date (DStr s) = Ok d → valid_date d.
Proof.
  intros Hvalid. unfold parse_date.
  destruct (fromisoformat _) as [d'|] eqn:Hf; [intros [= <-]; eauto|].
  destruct (Py.split _ _) as [|p0 [|p1 [|p2 [|]]]]; try discriminate.
  destruct (int p0) as [y|[]]; cbn [mbind result_bind]; try discriminate.
  destruct (int p1) as [m|[]]; cbn [mbind result_bind]; try discriminate.
  destruct (int p2) as [dd|[]]; cbn [mbind result_bind]; try discriminate.
  destruct (date_new y m dd) as [d'|[]] eqn:Hd; try discriminate.
  intros [= <-]. by apply date_new_Ok in Hd as [_ ?].
Qed.

End parse_date_text.

(** X7. [parse_date] does not look at white space around the text: the text
    and the stripped text give the same date, and raise [OverflowError]
    together. On CPython 3.10 and 3.11 a date that it returns for a text is
    a date of the calendar: the year is between 1 and 9999, the month
    between 1 and 12, and the day is a day of that month. *)
Theorem parse_date_text :
  (∀ (interp : Interpreter) s d,
     parse_date (DStr s) = Ok d ↔ parse_date (DStr (Py.strip s)) = Ok d)
  ∧ (∀ (interp : Interpreter) s,
       parse_date (DStr s) = Raise OverflowError
       ↔ parse_date (DStr (Py.strip s)) = Raise OverflowError)
  ∧ (∀ s d, parse_date (interp := cpython310) (DStr s) = Ok d → valid_date d)
  ∧ (∀ s d, parse_date (interp := cpython311) (DStr s) = Ok d → valid_date d).
Proof.
  split_and!.
  - intros interp s d. rewrite (parse_date_strip s).
    by destruct (parse_date (DStr (Py.strip s))) as [|[]].
  - intros interp s. rewrite (parse_date_strip s).
    by destruct (parse_date (DStr (Py.strip s))) as [|[]].
  - intros s d. apply parse_date_Ok_valid. apply fromisoformat_strict_valid.
  - intros s d. apply parse_date_Ok_valid. apply fromisoformat_extended_valid.
Qed.

(** ** The evaluation, from the table to the result *)

Lemma date_ltb_le_trans d c1 c2 :
  date_ltb d c1 = true → date_ltb c2 c1 = false → date_ltb d c2 = true.
Proof.
  unfold date_ltb.
  rewrite !orb_true_iff, !andb_true_iff, !orb_true_iff, !andb_true_iff,
    !orb_false_iff, !andb_false_iff, !orb_false_iff, !andb_false_iff,
    !Z.ltb_lt, !Z.eqb_eq, !Z.ltb_ge, !Z.eqb_neq.
  lia.
Qed.

Lemma same_selection_trans {B} (r1 r2 r3 : result (list B)) :
  same_selection r1 r2 → same_selection r2 r3 → same_selection r1 r3.
Proof.
  destruct r1, r2, r3; simpl; try done; [apply transitivity|congruence].
Qed.

(** The order of the items matters to a generator expression only through
    the exception that ends it. *)
Lemma comprehension_Permutation {A B} (cond : A → result bool) (elem : A → B) l1 l2 :
  (∀ x e, cond x = Raise e → e = OverflowError) →
  l1 ≡ₚ l2 →
  same_selection (comprehension cond elem l1) (comprehension cond elem l2).
Proof.
  intros Hraise. induction 1 as [|x l1 l2 _ IH|x y l|l1 l2 l3 _ IH1 _ IH2].
  - simpl. constructor.
  - simpl. destruct (cond x) as [keep|e]; simpl; [|done].
    destruct (comprehension cond elem l1), (comprehension cond elem l2); simpl in *;
      try done.
    destruct keep; [by apply perm_skip|done].
  - simpl. destruct (cond x) as [kx|ex] eqn:Hx, (cond y) as [ky|ey] eqn:Hy; simpl.
    + destruct (comprehension cond elem l); simpl; [|done].
      destruct kx, ky; try done. apply perm_swap.
    + by destruct (comprehension cond elem l).
    + by destruct (comprehension cond elem l).
    + apply Hraise in Hx, Hy. congruence.
  - by eapply same_selection_trans.
Qed.

(** A condition that selects more gives a longer list. *)
Lemma comprehension_mono {A B} (cond1 cond2 : A → result bool) (elem : A → B) items l1 :
  (∀ x b, cond1 x = Ok b → ∃ b', cond2 x = Ok b' ∧ (b = true → b' = true)) →
  comprehension cond1 elem items = Ok l1 →
  ∃ l2, comprehension cond2 elem items = Ok l2 ∧ ∀ y, y ∈ l1 → y ∈ l2.
Proof.
  intros Hc. revert l1. induction items as [|x items IH]; intros l1.
  - intros [= <-]. by exists [].
  - intros (keep & l' & Hx & Hl' & ->)%comprehension_Ok_cons.
    destruct (IH _ Hl') as (l2 & Hl2 & Hsub).
    destruct (Hc _ _ Hx) as (keep' & Hx' & Hk).
    simpl. rewrite Hx', Hl2. simpl. eexists. split; [done|].
    intros y. destruct keep.
    + rewrite (Hk eq_refl). intros [->|?]%elem_of_cons; [left|right; auto].
    + intros Hy. destruct keep'; [right|]; auto.
Qed.

Lemma comprehension_Ok {A B} (cond : A → result bool) (elem : A → B) items :
  (∀ x, x ∈ items → ∃ b, cond x = Ok b) →
  ∃ l, comprehension cond elem items = Ok l.
Proof.
  induction items as [|x items IH]; intros Hall; [by eexists|]. simpl.
  destruct (Hall x) as [b ->]; [left|]. simpl.
  destruct IH as [l ->]; [intros y Hy; apply Hall; by right|]. simpl. by eexists.
Qed.

Section evaluation.
Context {interp : Interpreter}.

Lemma is_retired_iff end_date_raw cutoff :
  _is_retired end_date_raw cutoff = Ok true ↔ retired cutoff end_date_raw.
Proof.
  unfold _is_retired, retired. split.
  - destruct end_date_raw as [[[|c s]|d]|]; try discriminate.
    + destruct (parse_date _) as [d|[]] eqn:Hp; try discriminate.
      intros [= Hlt]. by eexists _, _.
    + simpl. intros [= Hlt]. by eexists _, _.
  - intros (value & d & -> & Hne & Hp & Hlt).
    destruct value as [[|c s]|d']; [done|..]; by rewrite Hp, Hlt.
Qed.

Lemma reference_package_names_retired cutoff major names x :
  reference_package_names cutoff (default [] (package major)) = Ok names →
  x ∈ names ↔ retired_package cutoff major x.
Proof.
  intros Hnames. rewrite (elem_of_reference_package_names _ _ _ _ Hnames).
  unfold retired_package. setoid_rewrite is_retired_iff. split.
  - intros (item & ? & ? & ? & ?). split; [done|]. by exists item.
  - intros (? & item & ? & ? & ?). by exists item.
Qed.

Lemma reference_module_names_retired cutoff major keys key :
  reference_module_names cutoff (default [] (dnf_module major)) = Ok keys →
  key ∈ keys ↔ retired_stream cutoff major key.
Proof.
  intros Hkeys. rewrite (elem_of_reference_module_names _ _ _ _ Hkeys).
  unfold retired_stream. setoid_rewrite is_retired_iff. split.
  - intros (item & name & stream & ? & ? & ? & ? & ? & ? & ?).
    by exists item, name, stream.
  - intros (item & name & stream & ? & ? & ? & ? & ? & ? & ?).
    by exists item, name, stream.
Qed.

(** X8. A successful evaluation reports exactly the retired entries that are
    installed: a package is matched when it is installed and an entry of the
    target gives its name an end date strictly before the cutoff; a stream
    is matched when it is a key of the installed streams and an entry gives
    its name and stream such an end date; the packages of the matched
    streams are those that the installed streams list under these keys. *)
Theorem evaluation_matches (grouped_data : gmap string major_data) target selected_date
    (installed_dnf_modules_raw : gmap string (list string)) installed_packages
    r removal :
  evaluate_appstream_check grouped_data target selected_date
    installed_dnf_modules_raw installed_packages = Ok (r, removal) →
  ∃ cutoff major,
    parse_date selected_date = Ok cutoff
    ∧ grouped_data !! target = Some major
    ∧ (∀ x, x ∈ matched_packages r ↔
         x ∈ installed_packages ∧ retired_package cutoff major x)
    ∧ (∀ key, key ∈ matched_dnf_modules r ↔
         key ∈ dom installed_dnf_modules_raw ∧ retired_stream cutoff major key)
    ∧ (∀ x, x ∈ matched_dnf_modules_packages r ↔
         ∃ key names, key ∈ matched_dnf_modules r
                      ∧ installed_dnf_modules_raw !! key = Some names ∧ x ∈ names).
Proof.
  intros (cutoff & major & rp & rm & Hc & Hm & Hrp & Hrm & _ & Hp & Hk & Hmp & _)
    %evaluate_Ok_inv.
  exists cutoff, major. split_and!; try done.
  - intros x. rewrite Hp, elem_of_sorted_set, elem_of_intersection, !elem_of_list_to_set.
    by rewrite (reference_package_names_retired _ _ _ _ Hrp).
  - intros key.
    rewrite Hk, elem_of_sorted_set, elem_of_intersection, !elem_of_list_to_set.
    by rewrite (reference_module_names_retired _ _ _ _ Hrm).
  - intros x. rewrite Hmp, elem_of_sorted_set, elem_of_list_to_set, list_elem_of_bind.
    split.
    + intros (key & Hx & Hkin).
      destruct (installed_dnf_modules_raw !! key) as [names|] eqn:Hnames; simpl in Hx.
      * by exists key, names.
      * by apply elem_of_nil in Hx.
    + intros (key & names & Hkin & Hnames & Hx). exists key. by rewrite Hnames.
Qed.

(** What makes the evaluation fail. *)
Lemma evaluate_Raise_inv (grouped_data : gmap string major_data) target selected_date
    installed_dnf_modules_raw installed_packages e :
  evaluate_appstream_check grouped_data target selected_date
    installed_dnf_modules_raw installed_packages = Raise e →
  parse_date selected_date = Raise e
  ∨ (∃ cutoff, parse_date selected_date = Ok cutoff)
    ∧ (grouped_data !! target = None ∧ e = KeyError target
       ∨ ∃ major s,
           grouped_data !! target = Some major
           ∧ e = OverflowError
           ∧ parse_date (DStr s) = Raise OverflowError
           ∧ end_date_text major s).
Proof.
  unfold evaluate_appstream_check.
  destruct (parse_date selected_date) as [cutoff|e0]; simpl; [|intros [= <-]; by left].
  intros He. right. split; [by eexists|].
  destruct (grouped_data !! target) as [major|]; [|injection He as <-; by left].
  right. exists major.
  unfold reference_package_names, reference_module_names in He.
  destruct (comprehension (package_selected cutoff) _ _) as [names|e1] eqn:Hp; simpl in He.
  - destruct (comprehension (module_selected cutoff) _ _) as [keys|e2] eqn:Hm;
      simpl in He; [discriminate|]. injection He as <-.
    apply comprehension_Raise_inv in Hm as (item & Hin & Hitem).
    unfold module_selected in Hitem.
    destruct (_is_retired _ _) as [?|e3] eqn:Hr; [discriminate|].
    injection Hitem as <-. apply is_retired_raises in Hr as (-> & s & Hs & Hov).
    exists s. split_and!; try done. right. by exists item.
  - injection He as <-.
    apply comprehension_Raise_inv in Hp as (item & Hin & Hitem).
    unfold package_selected in Hitem.
    destruct (_is_retired _ _) as [?|e3] eqn:Hr; [discriminate|].
    injection Hitem as <-. apply is_retired_raises in Hr as (-> & s & Hs & Hov).
    exists s. split_and!; try done. left. by exists item.
Qed.

Lemma is_retired_Ok end_date_raw cutoff :
  (∀ s, end_date_raw = Some (DStr s) → parse_date (DStr s) ≠ Raise OverflowError) →
  ∃ b, _is_retired end_date_raw cutoff = Ok b.
Proof.
  intros Hno. destruct (_is_retired end_date_raw cutoff) as [b|e] eqn:Hr; [by eexists|].
  apply is_retired_raises in Hr as (_ & s & -> & Hov). by destruct (Hno s).
Qed.

Lemma is_retired_Ok_fits s cutoff b :
  _is_retired (Some (DStr s)) cutoff = Ok b → parse_date (DStr s) ≠ Raise OverflowError.
Proof.
  unfold _is_retired. destruct s as [|c s].
  - intros _. unfold parse_date. simpl. by destruct (fromisoformat _).
  - by destruct (parse_date _) as [|[]].
Qed.

(** X9. The evaluation succeeds exactly when the cutoff parses, the table
    has the target key, and no end date of the entries under that key makes
    the [date] constructor overflow. *)
Theorem evaluation_succeeds (grouped_data : gmap string major_data) target selected_date
    (installed_dnf_modules_raw : gmap string (list string)) installed_packages :
  (∃ r removal,
     evaluate_appstream_check grouped_data target selected_date
       installed_dnf_modules_raw installed_packages = Ok (r, removal)) ↔
  ∃ cutoff major,
    parse_date selected_date = Ok cutoff
    ∧ grouped_data !! target = Some major
    ∧ ∀ s, end_date_text major s → parse_date (DStr s) ≠ Raise OverflowError.
Proof.
  split.
  - intros (r & removal & (cutoff & major & rp & rm & Hc & Hm & Hrp & Hrm & _)
                           %evaluate_Ok_inv).
    exists cutoff, major. split_and!; try done.
    unfold reference_package_names, reference_module_names in *.
    destruct (comprehension (package_selected cutoff) _ _) as [names|] eqn:Hp;
      [|discriminate].
    destruct (comprehension (module_selected cutoff) _ _) as [keys|] eqn:Hk;
      [|discriminate].
    intros s [(item & Hin & Hs)|(item & Hin & Hs)].
    + destruct (comprehension_all_Ok _ _ _ _ item Hp Hin) as [keep Hkeep].
      unfold package_selected in Hkeep. rewrite Hs in Hkeep.
      destruct (_is_retired _ _) as [b|] eqn:Hr; [|discriminate].
      by eapply is_retired_Ok_fits.
    + destruct (comprehension_all_Ok _ _ _ _ item Hk Hin) as [keep Hkeep].
      unfold module_selected in Hkeep. rewrite Hs in Hkeep.
      destruct (_is_retired _ _) as [b|] eqn:Hr; [|discriminate].
      by eapply is_retired_Ok_fits.
  - intros (cutoff & major & Hc & Hm & Hfit).
    unfold evaluate_appstream_check. rewrite Hc. simpl. rewrite Hm.
    unfold reference_package_names, reference_module_names.
    destruct (comprehension_Ok (package_selected cutoff)
                (λ item, Py.str_of (pkg_name item)) (default [] (package major)))
      as [names ->].
    { intros item Hin. unfold package_selected.
      destruct (is_retired_Ok (pkg_end_date item) cutoff) as [b ->]; [|by eexists].
      intros s Hs. apply Hfit. left. by exists item. }
    simpl.
    destruct (comprehension_Ok (module_selected cutoff) module_key
                (default [] (dnf_module major))) as [keys ->].
    { intros item Hin. unfold module_selected.
      destruct (is_retired_Ok (mod_end_date item) cutoff) as [b ->]; [|by eexists].
      intros s Hs. apply Hfit. right. by exists item. }
    simpl. by eexists _, _.
Qed.

Lemma is_retired_later end_date c1 c2 b :
  date_ltb c2 c1 = false →
  _is_retired end_date c1 = Ok b →
  ∃ b', _is_retired end_date c2 = Ok b' ∧ (b = true → b' = true).
Proof.
  intros Hle. unfold _is_retired.
  destruct end_date as [[[|c s]|d]|]; try (intros [= <-]; by exists false).
  - destruct (parse_date _) as [d|[]]; try discriminate.
    + intros [= <-]. eexists. split; [done|]. intros Hlt. by eapply date_ltb_le_trans.
    + intros [= <-]. by exists false.
  - simpl. intros [= <-]. eexists. split; [done|]. intros Hlt. by eapply date_ltb_le_trans.
Qed.

Lemma reference_package_names_later c1 c2 packages_data names1 :
  date_ltb c2 c1 = false →
  reference_package_names c1 packages_data = Ok names1 →
  ∃ names2, reference_package_names c2 packages_data = Ok names2
            ∧ ∀ x, x ∈ names1 → x ∈ names2.
Proof.
  intros Hle. unfold reference_package_names.
  destruct (comprehension (package_selected c1) _ _) as [l1|] eqn:Hl1; [|discriminate].
  intros [= <-].
  assert (Hsel : ∀ item b, package_selected c1 item = Ok b →
            ∃ b', package_selected c2 item = Ok b' ∧ (b = true → b' = true)).
  { intros item b. unfold package_selected.
    destruct (_is_retired _ c1) as [b1|] eqn:Hr; [|discriminate]. simpl. intros [= <-].
    destruct (is_retired_later _ _ _ _ Hle Hr) as (b2 & -> & Hb). simpl.
    eexists. split; [done|]. intros [-> ->]%andb_true_iff. by rewrite Hb. }
  destruct (comprehension_mono _ _ _ _ _ Hsel Hl1) as (l2 & -> & Hsub).
  simpl. eexists. split; [done|]. intros x.
  rewrite !elem_of_sorted_set, !elem_of_list_to_set. auto.
Qed.

Lemma reference_module_names_later c1 c2 modules_data keys1 :
  date_ltb c2 c1 = false →
  reference_module_names c1 modules_data = Ok keys1 →
  ∃ keys2, reference_module_names c2 modules_data = Ok keys2
           ∧ ∀ k, k ∈ keys1 → k ∈ keys2.
Proof.
  intros Hle. unfold reference_module_names.
  destruct (comprehension (module_selected c1) _ _) as [l1|] eqn:Hl1; [|discriminate].
  intros [= <-].
  assert (Hsel : ∀ item b, module_selected c1 item = Ok b →
            ∃ b', module_selected c2 item = Ok b' ∧ (b = true → b' = true)).
  { intros item b. unfold module_selected.
    destruct (_is_retired _ c1) as [b1|] eqn:Hr; [|discriminate]. simpl. intros [= <-].
    destruct (is_retired_later _ _ _ _ Hle Hr) as (b2 & -> & Hb). simpl.
    eexists. split; [done|]. intros [[-> ->]%andb_true_iff ->]%andb_true_iff.
    by rewrite Hb. }
  destruct (comprehension_mono _ _ _ _ _ Hsel Hl1) as (l2 & -> & Hsub).
  simpl. eexists. split; [done|]. intros x.
  rewrite !elem_of_sorted_set, !elem_of_list_to_set. auto.
Qed.

(** X10. A later cutoff loses no match. When the evaluation succeeds at a
    cutoff, it succeeds at every cutoff that is not before it, and each of
    the lists of the first result is within the list of the second; if the
    first has a match, so has the second. *)
Theorem later_cutoff_keeps_matches (grouped_data : gmap string major_data) target
    earlier later c1 c2 (installed_dnf_modules_raw : gmap string (list string))
    installed_packages r1 removal1 :
  parse_date earlier = Ok c1 → parse_date later = Ok c2 →
  date_ltb c2 c1 = false →
  evaluate_appstream_check grouped_data target earlier
    installed_dnf_modules_raw installed_packages = Ok (r1, removal1) →
  ∃ r2 removal2,
    evaluate_appstream_check grouped_data target later
      installed_dnf_modules_raw installed_packages = Ok (r2, removal2)
    ∧ (∀ x, x ∈ matched_packages r1 → x ∈ matched_packages r2)
    ∧ (∀ k, k ∈ matched_dnf_modules r1 → k ∈ matched_dnf_modules r2)
    ∧ (∀ x, x ∈ matched_dnf_modules_packages r1 → x ∈ matched_dnf_modules_packages r2)
    ∧ (∀ x, x ∈ removal1 → x ∈ removal2)
    ∧ (any_match r1 = true → any_match r2 = true).
Proof.
  intros Hc1 Hc2 Hle
    (c & major & rp & rm & Hc & Hm & Hrp & Hrm & _ & Hp & Hk & Hmp & Ha & Hrem)
    %evaluate_Ok_inv.
  rewrite Hc1 in Hc. injection Hc as <-.
  destruct (reference_package_names_later _ _ _ _ Hle Hrp) as (rp2 & Hrp2 & Hsp).
  destruct (reference_module_names_later _ _ _ _ Hle Hrm) as (rm2 & Hrm2 & Hsm).
  unfold evaluate_appstream_check. rewrite Hc2. simpl. rewrite Hm, Hrp2. simpl.
  rewrite Hrm2. simpl. eexists _, _. split; [done|]. simpl.
  assert (H1 : ∀ x, x ∈ matched_packages r1 →
            x ∈ Py.sorted_set (list_to_set installed_packages ∩ list_to_set rp2)).
  { intros x. rewrite Hp, !elem_of_sorted_set, !elem_of_intersection,
      !elem_of_list_to_set. intros [? ?]; auto. }
  assert (H2 : ∀ k, k ∈ matched_dnf_modules r1 →
            k ∈ Py.sorted_set (dom installed_dnf_modules_raw ∩ list_to_set rm2)).
  { intros k. rewrite Hk, !elem_of_sorted_set, !elem_of_intersection,
      !elem_of_list_to_set. intros [? ?]; auto. }
  assert (H3 : ∀ x, x ∈ matched_dnf_modules_packages r1 →
            x ∈ Py.sorted_set (list_to_set
                  (module_name ← Py.sorted_set
                     (dom installed_dnf_modules_raw ∩ list_to_set rm2);
                   default [] (installed_dnf_modules_raw !! module_name)))).
  { intros x. rewrite Hmp, !elem_of_sorted_set, !elem_of_list_to_set,
      !list_elem_of_bind. intros (k & ? & ?). exists k. auto. }
  split_and!; try done.
  - intros x. rewrite Hrem, !elem_of_sorted_set, !elem_of_list_to_set, !elem_of_app.
    intros [?|?]; auto.
  - rewrite Ha. intros [Hne|Hne]%orb_true_iff; apply orb_true_iff; [left|right];
      apply negb_true_iff, bool_decide_eq_false in Hne;
      apply negb_true_iff, bool_decide_eq_false; intros Hnil.
    + destruct (matched_packages r1) as [|x l]; [done|].
      specialize (H1 x ltac:(left)). rewrite Hnil in H1. by apply elem_of_nil in H1.
    + destruct (matched_dnf_modules r1) as [|x l]; [done|].
      specialize (H2 x ltac:(left)). rewrite Hnil in H2. by apply elem_of_nil in H2.
Qed.

Lemma package_selected_raises cutoff item e :
  package_selected cutoff item = Raise e → e = OverflowError.
Proof.
  unfold package_selected. destruct (_is_retired _ _) as [?|e'] eqn:Hr; [discriminate|].
  intros [= <-]. by apply is_retired_raises in Hr as [-> _].
Qed.

Lemma module_selected_raises cutoff item e :
  module_selected cutoff item = Raise e → e = OverflowError.
Proof.
  unfold module_selected. destruct (_is_retired _ _) as [?|e'] eqn:Hr; [discriminate|].
  intros [= <-]. by apply is_retired_raises in Hr as [-> _].
Qed.

Lemma reference_package_names_Permutation cutoff l1 l2 :
  l1 ≡ₚ l2 → reference_package_names cutoff l1 = reference_package_names cutoff l2.
Proof.
  intros Hp. unfold reference_package_names.
  pose proof (comprehension_Permutation (package_selected cutoff)
                (λ item, Py.str_of (pkg_name item)) l1 l2
                (package_selected_raises cutoff) Hp) as Hs.
  destruct (comprehension _ _ l1), (comprehension _ _ l2); simpl in *; try done.
  - by rewrite Hs.
  - by rewrite Hs.
Qed.

Lemma reference_module_names_Permutation cutoff l1 l2 :
  l1 ≡ₚ l2 → reference_module_names cutoff l1 = reference_module_names cutoff l2.
Proof.
  intros Hp. unfold reference_module_names.
  pose proof (comprehension_Permutation (module_selected cutoff) module_key l1 l2
                (module_selected_raises cutoff) Hp) as Hs.
  destruct (comprehension _ _ l1), (comprehension _ _ l2); simpl in *; try done.
  - by rewrite Hs.
  - by rewrite Hs.
Qed.

Lemma same_outcome_refl {A} (r : result A) : same_outcome r r.
Proof. by destruct r as [|[]]. Qed.

(** X11. The evaluation looks at the entries under the target key only, and
    neither at their order nor at the order or the repetitions of the
    installed packages: two tables whose entries under the target are the
    same up to their order, and two lists of the same installed packages,
    give the same result, or both fail and with the same exception; of an
    [OverflowError], whose text is that of the first end date that
    overflows, only that both raise one. *)
Theorem evaluation_order_independent (grouped_data grouped_data' : gmap string major_data)
    target major major' selected_date
    (installed_dnf_modules_raw : gmap string (list string))
    installed_packages installed_packages' :
  grouped_data !! target = Some major →
  grouped_data' !! target = Some major' →
  default [] (package major) ≡ₚ default [] (package major') →
  default [] (dnf_module major) ≡ₚ default [] (dnf_module major') →
  (∀ x, x ∈ installed_packages ↔ x ∈ installed_packages') →
  same_outcome
    (evaluate_appstream_check grouped_data target selected_date
       installed_dnf_modules_raw installed_packages)
    (evaluate_appstream_check grouped_data' target selected_date
       installed_dnf_modules_raw installed_packages').
Proof.
  intros Hm Hm' Hp Hd Hi. unfold evaluate_appstream_check.
  destruct (parse_date selected_date) as [cutoff|]; [|apply same_outcome_refl]. simpl.
  rewrite Hm, Hm'.
  rewrite (reference_package_names_Permutation cutoff _ _ Hp).
  rewrite (reference_module_names_Permutation cutoff _ _ Hd).
  assert (Hset : list_to_set (C := gset string) installed_packages
                 = list_to_set installed_packages').
  { apply set_eq. intros x. by rewrite !elem_of_list_to_set. }
  rewrite Hset. apply same_outcome_refl.
Qed.

(** With a package to remove there is a match; and, when no installed
    stream has an empty list, with a match there is a package to remove. *)
Lemma removal_nonempty (installed_dnf_modules_raw : gmap string (list string))
    grouped_data target selected_date installed_packages r removal :
  evaluate_appstream_check grouped_data target selected_date
    installed_dnf_modules_raw installed_packages = Ok (r, removal) →
  (removal ≠ [] → any_match r = true)
  ∧ ((∀ key names, installed_dnf_modules_raw !! key = Some names → names ≠ []) →
     any_match r = true → removal ≠ []).
Proof.
  intros (cutoff & major & rp & rm & _ & _ & _ & _ & _ & _ & Hmods & Hmp & Ha & Hrem)
    %evaluate_Ok_inv.
  assert (Hin : ∀ x, x ∈ removal ↔
            x ∈ matched_packages r
            ∨ ∃ k, k ∈ matched_dnf_modules r
                   ∧ x ∈ default [] (installed_dnf_modules_raw !! k)).
  { intros x. rewrite Hrem, elem_of_sorted_set, elem_of_list_to_set, elem_of_app.
    rewrite Hmp at 1. rewrite elem_of_sorted_set, elem_of_list_to_set, list_elem_of_bind.
    split; (intros [?|(k & ? & ?)]; [by left|right; by exists k]). }
  rewrite Ha. split.
  - intros Hne. destruct removal as [|x removal]; [done|].
    destruct (proj1 (Hin x) ltac:(left)) as [Hx|(k & Hk & _)]; apply orb_true_iff;
      [left|right]; apply negb_true_iff, bool_decide_eq_false; intros Hnil.
    + rewrite Hnil in Hx. by apply elem_of_nil in Hx.
    + rewrite Hnil in Hk. by apply elem_of_nil in Hk.
  - intros Hnonempty [Hm|Hm]%orb_true_iff Hnil;
      apply negb_true_iff, bool_decide_eq_false in Hm.
    + destruct (matched_packages r) as [|x l] eqn:Hl; [done|].
      assert (Hx : x ∈ removal) by (apply Hin; left; left).
      rewrite Hnil in Hx. by apply elem_of_nil in Hx.
    + destruct (matched_dnf_modules r) as [|k l] eqn:Hl; [done|].
      assert (Hdom : k ∈ dom installed_dnf_modules_raw).
      { assert (Hkin : k ∈ k :: l) by left. rewrite Hmods in Hkin.
        by apply elem_of_sorted_set, elem_of_intersection in Hkin as [? _]. }
      apply elem_of_dom in Hdom as [names Hnames].
      destruct names as [|x names]; [by destruct (Hnonempty _ _ Hnames)|].
      assert (Hx : x ∈ removal).
      { apply Hin. right. exists k. split; [left|]. rewrite Hnames. left. }
      rewrite Hnil in Hx. by apply elem_of_nil in Hx.
Qed.

End evaluation.

(** ** [detect_target_major], whatever the file *)

Lemma prefix_inv p s : String.prefix p s = true → ∃ v, s = p +:+ v.
Proof.
  revert s. induction p as [|c p IH]; intros s; simpl.
  - intros _. by exists s.
  - destruct s as [|c' s]; [discriminate|]. simpl.
    destruct (ascii_dec c c') as [Heq|]; [subst c'|discriminate].
    intros [v ->]%IH. by exists v.
Qed.

(** A literal of decimal digits reads as their value, when [int] accepts
    it. *)
Lemma int_numeric_Ok L s n :
  s ≠ EmptyString → Py.forallb_str Py.is_decimal s = true →
  Py.int L s = Ok n → n = digits_value s.
Proof.
  intros Hne Hs. unfold Py.int.
  destruct s as [|c s]; [done|].
  assert (Hc : Py.is_decimal c = true)
    by (simpl in Hs; by apply andb_true_iff in Hs as [? ?]).
  rewrite lstrip_by_none.
  2:{ eapply existsb_str_false; [|exact Hs]. apply is_decimal_not_int_space. }
  rewrite split_sign_decimal by done.
  assert (Hb : Py.forallb_str Py.int_body_char (String c s) = true)
    by (eapply forallb_str_impl; [apply is_decimal_body_char|done]).
  rewrite take_while_all, lstrip_by_all by done.
  rewrite int_body_ok_decimal by done. simpl Py.is_empty. simpl Py.forallb_str.
  destruct (_ && _); [discriminate|]. by intros [= <-].
Qed.

Lemma digits_value_nonneg s : 0 ≤ digits_value s.
Proof.
  unfold digits_value. assert (H : ∀ acc, 0 ≤ acc → 0 ≤ Py.int_body_value acc s).
  { induction s as [|c s IH]; intros acc Hacc; simpl; [done|].
    destruct (Py.is_decimal c) eqn:Hc; [|auto]. apply IH.
    apply is_decimal_code in Hc. unfold Py.digit_value. lia. }
  by apply H.
Qed.

Section detect_outcomes.
Context {interp : Interpreter}.

(** The indexing of [line.split("=", 1)[1]] is always in range. *)
Lemma find_version_id_Ok lines : ∃ version_id, find_version_id lines = Ok version_id.
Proof.
  induction lines as [|line lines IH]; simpl; [by eexists|].
  destruct (Py.startswith _ _) eqn:Hstart; [|done].
  apply prefix_inv in Hstart as [value Hvalue]. rewrite Hvalue.
  eexists. reflexivity.
Qed.

Lemma detect_target_major_raises os_release e :
  detect_target_major os_release = Raise e → ∃ msg, e = ValueError msg.
Proof.
  unfold detect_target_major.
  assert (Hfind : ∃ version_id,
            match os_release with
            | Some text => find_version_id (Py.readlines text)
            | None => Ok None
            end = Ok version_id).
  { destruct os_release; [apply find_version_id_Ok|by eexists]. }
  destruct Hfind as [version_id ->]. simpl.
  destruct version_id as [[|c s]|]; [intros [= <-]; by eexists| |intros [= <-]; by eexists].
  destruct (split1_cons "." (String c s)) as (major & rest & ->).
  destruct (Py.isdigit major); simpl; [|intros [= <-]; by eexists].
  destruct (int major) as [n|e'] eqn:Hint; [discriminate|]. simpl. intros [= <-].
  by apply int_raises in Hint.
Qed.

Lemma detect_target_major_Ok os_release target :
  detect_target_major os_release = Ok target →
  ∃ n, 0 ≤ n ∧ target = "el" +:+ pretty n.
Proof.
  unfold detect_target_major.
  destruct (match os_release with Some _ => _ | None => _ end) as [version_id|];
    [|discriminate]. simpl.
  destruct version_id as [[|c s]|]; try discriminate.
  destruct (split1_cons "." (String c s)) as (major & rest & ->).
  destruct (Py.isdigit major) eqn:Hdigit; simpl; [|discriminate].
  destruct (int major) as [n|] eqn:Hint; [|discriminate]. simpl. intros [= <-].
  exists n. split; [|done].
  pose proof (int_isdigit_numeric _ _ _ Hdigit Hint) as Hnum.
  unfold is_numeric in Hnum. apply andb_true_iff in Hnum as [Hne Hdec].
  assert (Hn : n = digits_value major); [|subst n; apply digits_value_nonneg].
  apply (int_numeric_Ok int_max_str_digits); [by destruct major|done..].
Qed.


End detect_outcomes.

(** ** The inventory, from the query to the result *)

Lemma parse_rpm_modularity_output_raises output e :
  parse_rpm_modularity_output output = Raise e → ∃ msg, e = ValueError msg.
Proof.
  rewrite parse_rpm_modularity_output_spec.
  destruct (first_malformed _) as [e'|] eqn:Hfirst; [|discriminate]. intros [= <-].
  apply first_malformed_Some in Hfirst as (_ & line & _ & _ & Hline & _).
  apply classify_Malformed in Hline as (_ & [[_ ->]|(? & ? & _ & _ & _ & ->)]);
    by eexists.
Qed.

(** What a successful parse leaves in the dictionary and in the list. *)
Lemma parse_Ok_inv output (modules_raw : gmap string (list string)) installed_packages :
  parse_rpm_modularity_output output = Ok (modules_raw, installed_packages) →
  modules_raw = record_streams (Py.splitlines output) ∅
  ∧ installed_packages
    = Py.sorted_set (list_to_set (non_modular_names (Py.splitlines output))).
Proof.
  rewrite parse_rpm_modularity_output_spec.
  destruct (first_malformed _); [discriminate|]. by intros [= <- <-].
Qed.

Lemma record_streams_nonempty lines key names :
  record_streams lines ∅ !! key = Some names → names ≠ [].
Proof.
  rewrite record_streams_lookup, lookup_empty.
  destruct (stream_packages key _); [done|]. by intros [= <-].
Qed.

Lemma elem_of_non_modular_names lines x :
  x ∈ non_modular_names lines ↔ ∃ line, line ∈ lines ∧ classify line = NonModular x.
Proof.
  unfold non_modular_names. rewrite list_elem_of_omap. split.
  - intros (line & Hin & Hc). exists line. split; [done|].
    destruct (classify line); by simplify_eq.
  - intros (line & Hin & Hc). exists line. by rewrite Hc.
Qed.

Lemma elem_of_stream_packages key lines x :
  x ∈ stream_packages key lines ↔ ∃ line, line ∈ lines ∧ classify line = Modular key x.
Proof.
  unfold stream_packages. rewrite list_elem_of_omap. split.
  - intros (line & Hin & Hc). exists line. split; [done|].
    destruct (classify line); try done. case_bool_decide; by simplify_eq.
  - intros (line & Hin & Hc). exists line. rewrite Hc.
    by rewrite bool_decide_eq_true_2.
Qed.

Lemma elem_of_record_streams lines key x :
  x ∈ default [] (record_streams lines ∅ !! key) ↔
    ∃ line, line ∈ lines ∧ classify line = Modular key x.
Proof.
  rewrite record_streams_lookup, lookup_empty, <-elem_of_stream_packages.
  by destruct (stream_packages key lines).
Qed.

Lemma elem_of_dom_record_streams lines key :
  key ∈ dom (record_streams lines ∅) ↔
    ∃ line x, line ∈ lines ∧ classify line = Modular key x.
Proof.
  rewrite elem_of_dom. unfold is_Some. split.
  - intros [names Hnames]. pose proof (record_streams_nonempty _ _ _ Hnames) as Hne.
    destruct names as [|x names]; [done|].
    assert (Hx : x ∈ default [] (record_streams lines ∅ !! key))
      by (rewrite Hnames; left).
    apply elem_of_record_streams in Hx as (line & ? & ?). by exists line, x.
  - intros (line & x & Hin & Hc).
    assert (Hx : x ∈ default [] (record_streams lines ∅ !! key))
      by (apply elem_of_record_streams; by exists line).
    destruct (record_streams lines ∅ !! key) as [names|]; [by eexists|].
    by apply elem_of_nil in Hx.
Qed.

(** X13. The whole check, from the answer of the query to the result. When
    the query has run, its output has parsed and the evaluation of what it
    parsed to has succeeded: a package is matched exactly when a line of the
    output names it as non-modular and the table retires it; a stream is
    matched exactly when a line has its key and the table retires it; a
    package is to be removed exactly when it is matched or a line puts it in
    a matched stream; and [any_match] says whether there is a package to
    remove. The return code and the standard error of the query play no
    part. *)
Theorem inventory_report {interp : Interpreter} {E : Type}
    (run_command : list string → E + Z * string * string)
    (installed_dnf_modules_raw : gmap string (list string)) installed_packages
    (grouped_data : gmap string major_data) target selected_date r removal :
  collect_installed_from_rpm run_command
  = inr (Ok (installed_dnf_modules_raw, installed_packages)) →
  evaluate_appstream_check grouped_data target selected_date
    installed_dnf_modules_raw installed_packages = Ok (r, removal) →
  ∃ return_code output error cutoff major,
    run_command rpm_query = inr (return_code, output, error)
    ∧ parse_date selected_date = Ok cutoff
    ∧ grouped_data !! target = Some major
    ∧ (∀ x, x ∈ matched_packages r ↔
         (∃ line, line ∈ Py.splitlines output ∧ classify line = NonModular x)
         ∧ retired_package cutoff major x)
    ∧ (∀ key, key ∈ matched_dnf_modules r ↔
         (∃ line x, line ∈ Py.splitlines output ∧ classify line = Modular key x)
         ∧ retired_stream cutoff major key)
    ∧ (∀ x, x ∈ removal ↔
         x ∈ matched_packages r
         ∨ ∃ line key, line ∈ Py.splitlines output ∧ classify line = Modular key x
                       ∧ key ∈ matched_dnf_modules r)
    ∧ (any_match r = true ↔ removal ≠ []).
Proof.
  unfold collect_installed_from_rpm.
  destruct (run_command rpm_query) as [|[[return_code output] error]]; [discriminate|].
  intros [= Hparse] Heval. apply parse_Ok_inv in Hparse as [-> ->].
  pose proof (removal_nonempty _ _ _ _ _ _ _ Heval) as [Hany1 Hany2].
  apply evaluate_Ok_inv in Heval
    as (cutoff & major & rp & rm & Hc & Hm & Hrp & Hrm & _ & Hp & Hk & Hmp & _ & Hrem).
  exists return_code, output, error, cutoff, major. split_and!; try done.
  - intros x. rewrite Hp, elem_of_sorted_set, elem_of_intersection, !elem_of_list_to_set.
    by rewrite elem_of_sorted_set, elem_of_list_to_set, elem_of_non_modular_names,
      (reference_package_names_retired _ _ _ _ Hrp).
  - intros key.
    rewrite Hk, elem_of_sorted_set, elem_of_intersection, !elem_of_list_to_set.
    by rewrite elem_of_dom_record_streams, (reference_module_names_retired _ _ _ _ Hrm).
  - intros x. rewrite Hrem, elem_of_sorted_set, elem_of_list_to_set, elem_of_app.
    rewrite Hmp at 1. rewrite elem_of_sorted_set, elem_of_list_to_set, list_elem_of_bind.
    setoid_rewrite elem_of_record_streams. split.
    + intros [?|(key & (line & ? & ?) & ?)]; [by left|right; by exists line, key].
    + intros [?|(line & key & ? & ? & ?)]; [by left|right].
      exists key. split; [by exists line|done].
  - split; [|done]. apply Hany2. intros key names. apply record_streams_nonempty.
Qed.

(** * Properties of the front ends *)

(** ** The Ansible module *)

Section module_properties.
Context {interp : Interpreter}.
Import appstream_check.

(** [main], step by step. *)
Lemma main_steps module h :
  main module h =
    match module_target module h with
    | Raise (ValueError msg) => fail_json msg None
    | Raise e => uncaught e
    | Ok target =>
        match parse_date (DStr (module_date module h)) with
        | Raise (ValueError msg) => fail_json msg None
        | Raise e => uncaught e
        | Ok _ =>
            match run_command module rpm_query true with
            | inl msg => fail_json msg None
            | inr (_, output, _) =>
                match parse_rpm_modularity_output output with
                | Raise (ValueError msg) => fail_json msg None
                | Raise e => uncaught e
                | Ok (installed_dnf_modules_raw, installed_packages) =>
                    match evaluate_appstream_check
                            (param_grouped_data (module_params module)) target
                            (DStr (module_date module h))
                            installed_dnf_modules_raw installed_packages with
                    | Raise (KeyError _) => fail_json (target_not_found target) None
                    | Raise e => uncaught e
                    | Ok (result, removal) =>
                        let response :=
                          {| changed := false; appstream_check_result := result;
                             packages_to_remove := removal;
                             response_date := module_date module h |} in
                        if param_fail_on_match (module_params module) && any_match result
                        then fail_json (match_detected result removal) (Some response)
                        else exit_json response
                    end
                end
            end
        end
    end.
Proof.
  unfold main, module_target, module_date, _detect_target_major, _run_rpm_modularity,
    collect_installed_from_rpm.
  destruct (Py.truthy (param_target_major _));
    [|destruct (detect_target_major _) as [|[]]; try done];
    cbn [mbind step_bind];
    (destruct (parse_date _) as [|[]]; try done);
    cbn [mbind step_bind];
    (destruct (run_command _ _ _) as [|[[? ?] ?]]; [done|]);
    (destruct (parse_rpm_modularity_output _) as [[? ?]|[]]; try done);
    cbn [mbind step_bind];
    (destruct (evaluate_appstream_check _ _ _ _ _) as [[? ?]|[]]; try done);
    cbn [mbind step_bind]; by destruct (_ && _).
Qed.

Lemma module_target_raises module h e :
  module_target module h = Raise e → ∃ msg, e = ValueError msg.
Proof.
  unfold module_target. destruct (Py.truthy _); [discriminate|].
  apply detect_target_major_raises.
Qed.

(** The three ways of a run of [main]: it gets to the evaluation; it fails
    before, with a message; or the date of the run overflows. *)
Lemma main_evaluates module h o :
  main module h = o →
  (∃ target cutoff rc output error installed_dnf_modules_raw installed_packages,
     module_target module h = Ok target
     ∧ parse_date (DStr (module_date module h)) = Ok cutoff
     ∧ run_command module rpm_query true = inr (rc, output, error)
     ∧ parse_rpm_modularity_output output
       = Ok (installed_dnf_modules_raw, installed_packages)
     ∧ match evaluate_appstream_check (param_grouped_data (module_params module))
               target (DStr (module_date module h))
               installed_dnf_modules_raw installed_packages with
       | Ok (result, removal) =>
           let response :=
             {| changed := false; appstream_check_result := result;
                packages_to_remove := removal;
                response_date := module_date module h |} in
           o = if param_fail_on_match (module_params module) && any_match result
               then fail_json (match_detected result removal) (Some response)
               else exit_json response
       | Raise (KeyError _) => o = fail_json (target_not_found target) None
       | Raise e => o = uncaught e
       end)
  ∨ (∃ msg, o = fail_json msg None
            ∧ (module_target module h = Raise (ValueError msg)
               ∨ parse_date (DStr (module_date module h)) = Raise (ValueError msg)
               ∨ run_command module rpm_query true = inl msg
               ∨ ∃ rc output error,
                   run_command module rpm_query true = inr (rc, output, error)
                   ∧ parse_rpm_modularity_output output = Raise (ValueError msg)))
  ∨ (o = uncaught OverflowError
     ∧ parse_date (DStr (module_date module h)) = Raise OverflowError).
Proof.
  intros <-. rewrite main_steps.
  destruct (module_target module h) as [target|e] eqn:Ht.
  2:{ apply module_target_raises in Ht as Hmsg. destruct Hmsg as [msg ->].
      right. left. exists msg. by split; [|left]. }
  destruct (parse_date _) as [cutoff|e] eqn:Hdate.
  2:{ apply parse_date_raises in Hdate as Hs. destruct Hs as (s & _ & [->| ->]).
      - right. left. eexists. split; [done|]. right. by left.
      - right. by right. }
  destruct (run_command module rpm_query true) as [msg|[[rc output] error]] eqn:Hrun.
  { right. left. exists msg. split; [done|]. right. right. by left. }
  destruct (parse_rpm_modularity_output output) as [[mods pkgs]|e] eqn:Hparse.
  2:{ destruct (parse_rpm_modularity_output_raises _ _ Hparse) as [msg ->].
      right. left. exists msg. split; [done|]. right. right. right. by eexists _, _, _. }
  left. exists target, cutoff, rc, output, error, mods, pkgs. split_and!; try done.
  by destruct (evaluate_appstream_check _ _ _ _ _) as [[result removal]|[]].
Qed.

(** A run that gets through the evaluation ends with the response. *)
Lemma main_response module h target cutoff rc output error
    installed_dnf_modules_raw installed_packages result removal :
  module_target module h = Ok target →
  parse_date (DStr (module_date module h)) = Ok cutoff →
  run_command module rpm_query true = inr (rc, output, error) →
  parse_rpm_modularity_output output = Ok (installed_dnf_modules_raw, installed_packages) →
  evaluate_appstream_check (param_grouped_data (module_params module))
    target (DStr (module_date module h))
    installed_dnf_modules_raw installed_packages = Ok (result, removal) →
  main module h
  = let response :=
      {| changed := false; appstream_check_result := result;
         packages_to_remove := removal;
         response_date := module_date module h |} in
    if param_fail_on_match (module_params module) && any_match result
    then fail_json (match_detected result removal) (Some response)
    else exit_json response.
Proof.
  intros Ht Hc Hrun Hparse Heval.
  by rewrite main_steps, Ht, Hc, Hrun, Hparse, Heval.
Qed.

(** The runs of [main] that end with a response. *)
Lemma main_responds module h r :
  (main module h = exit_json r ∨ ∃ msg, main module h = fail_json msg (Some r)) ↔
  ∃ target cutoff rc output error installed_dnf_modules_raw installed_packages,
    module_target module h = Ok target
    ∧ parse_date (DStr (module_date module h)) = Ok cutoff
    ∧ run_command module rpm_query true = inr (rc, output, error)
    ∧ parse_rpm_modularity_output output
      = Ok (installed_dnf_modules_raw, installed_packages)
    ∧ evaluate_appstream_check (param_grouped_data (module_params module))
        target (DStr (module_date module h))
        installed_dnf_modules_raw installed_packages
      = Ok (appstream_check_result r, packages_to_remove r)
    ∧ changed r = false
    ∧ response_date r = module_date module h.
Proof.
  split.
  - intros Hmain.
    destruct (main_evaluates module h _ eq_refl)
      as [(target & cutoff & rc & output & error & mods & pkgs
           & Ht & Hc & Hrun & Hparse & Heval)|[(msg & Hmsg & _)|[Ho _]]].
    + exists target, cutoff, rc, output, error, mods, pkgs.
      destruct (evaluate_appstream_check _ _ _ _ _) as [[result removal]|e].
      * assert (Hr : r = {| changed := false; appstream_check_result := result;
                            packages_to_remove := removal;
                            response_date := module_date module h |}).
        { cbn zeta in Heval. rewrite Heval in Hmain.
          destruct (_ && _); destruct Hmain as [Hm|[msg Hm]]; congruence. }
        subst r. by split_and!.
      * destruct e; rewrite Heval in Hmain; destruct Hmain as [?|[? ?]]; discriminate.
    + rewrite Hmsg in Hmain. destruct Hmain as [?|[? ?]]; discriminate.
    + rewrite Ho in Hmain. destruct Hmain as [?|[? ?]]; discriminate.
  - intros (target & cutoff & rc & output & error & mods & pkgs
            & Ht & Hc & Hrun & Hparse & Heval & Hch & Hd).
    rewrite (main_response _ _ _ _ _ _ _ _ _ _ _ Ht Hc Hrun Hparse Heval). cbn zeta.
    replace {| changed := false; appstream_check_result := appstream_check_result r;
               packages_to_remove := packages_to_remove r;
               response_date := module_date module h |} with r
      by (destruct r; simpl in *; congruence).
    destruct (_ && _); [right; by eexists|by left].
Qed.


(** X15. [main] ends with a response exactly when the target key is given
    or detected, the date of the run parses, the query runs and its output
    parses, and the evaluation succeeds; the response holds the result of
    that evaluation and the date of the run as text, and [changed] is false.
    Then [any_match] says whether there is a package to remove, and the
    module fails on the match exactly when [fail_on_match] is set and there
    is one. *)
Theorem module_report module h r :
  ((main module h = exit_json r ∨ ∃ msg, main module h = fail_json msg (Some r)) ↔
   ∃ target cutoff rc output error installed_dnf_modules_raw installed_packages,
     module_target module h = Ok target
     ∧ parse_date (DStr (module_date module h)) = Ok cutoff
     ∧ run_command module rpm_query true = inr (rc, output, error)
     ∧ parse_rpm_modularity_output output
       = Ok (installed_dnf_modules_raw, installed_packages)
     ∧ evaluate_appstream_check (param_grouped_data (module_params module))
         target (DStr (module_date module h))
         installed_dnf_modules_raw installed_packages
       = Ok (appstream_check_result r, packages_to_remove r)
     ∧ changed r = false
     ∧ response_date r = module_date module h)
  ∧ ((main module h = exit_json r ∨ ∃ msg, main module h = fail_json msg (Some r)) →
     (any_match (appstream_check_result r) = true ↔ packages_to_remove r ≠ [])
     ∧ (main module h = exit_json r ↔
          param_fail_on_match (module_params module) = false
          ∨ packages_to_remove r = [])
     ∧ (main module h
        = fail_json (match_detected (appstream_check_result r) (packages_to_remove r))
            (Some r) ↔
          param_fail_on_match (module_params module) = true
          ∧ packages_to_remove r ≠ [])).
Proof.
  split; [apply main_responds|].
  intros (target & cutoff & rc & output & error & mods & pkgs
          & Ht & Hc & Hrun & Hparse & Heval & Hch & Hd)%main_responds.
  pose proof (main_response _ _ _ _ _ _ _ _ _ _ _ Ht Hc Hrun Hparse Heval) as Hmain.
  cbn zeta in Hmain.
  replace {| changed := false; appstream_check_result := appstream_check_result r;
             packages_to_remove := packages_to_remove r;
             response_date := module_date module h |} with r in Hmain
    by (destruct r; simpl in *; congruence).
  apply parse_Ok_inv in Hparse as [-> _].
  destruct (removal_nonempty _ _ _ _ _ _ _ Heval) as [Hany1 Hany2].
  assert (Hany : any_match (appstream_check_result r) = true ↔ packages_to_remove r ≠ []).
  { split; [|exact Hany1]. apply Hany2. intros key names. apply record_streams_nonempty. }
  split; [done|]. rewrite Hmain.
  destruct (param_fail_on_match _), (any_match _) eqn:Ha; simpl; split; split.
  - discriminate.
  - intros [?|Hnil]; [done|]. by destruct (proj1 Hany eq_refl).
  - intros _. split; [done|]. by apply Hany.
  - done.
  - intros _. right. destruct (packages_to_remove r) as [|x l]; [done|].
    by discriminate (proj2 Hany ltac:(done)).
  - done.
  - discriminate.
  - intros [_ Hne]. by discriminate (proj2 Hany Hne).
  - intros _. by left.
  - done.
  - discriminate.
  - by intros [? _].
  - intros _. by left.
  - done.
  - discriminate.
  - by intros [? _].
Qed.

End module_properties.

(** ** The stand-alone script *)

Section script_properties.
Context {interp : Interpreter} {system : appstream_check_standalone.System}.
Import appstream_check_standalone.

(** [_collect_payload], step by step. *)
Lemma collect_payload_steps a h :
  _collect_payload a h =
    match load_grouped_data (arg_grouped_data_file a) with
    | inl e => inl e
    | inr grouped_data =>
        match script_target a h with
        | Raise e => inl (core e)
        | Ok target =>
            match parse_date (DStr (script_date a h)) with
            | Raise e => inl (core e)
            | Ok _ =>
                match subprocess_run rpm_query with
                | inl e => inl e
                | inr (_, output, _) =>
                    match parse_rpm_modularity_output output with
                    | Raise e => inl (core e)
                    | Ok (installed_dnf_modules_raw, installed_packages) =>
                        match evaluate_appstream_check grouped_data target
                                (DStr (script_date a h))
                                installed_dnf_modules_raw installed_packages with
                        | Raise e => inl (core e)
                        | Ok (result, removal) =>
                            inr {| payload_date := script_date a h;
                                   appstream_check_result := result;
                                   packages_to_remove := removal |}
                        end
                    end
                end
            end
        end
    end.
Proof.
  unfold _collect_payload, script_target, script_date,
    collect_installed_from_rpm, _run_command, lift.
  destruct (load_grouped_data _); [done|].
  destruct (Py.truthy _); [|destruct (detect_target_major _); [|done]];
    (destruct (parse_date _); [|done]);
    (destruct (subprocess_run _) as [|[[? ?] ?]]; [done|]);
    (destruct (parse_rpm_modularity_output _) as [[? ?]|]; [|done]);
    by destruct (evaluate_appstream_check _ _ _ _ _) as [[? ?]|].
Qed.

(** A payload that [_collect_payload] returns is an evaluation of a parsed
    answer of the query. *)
Lemma collect_payload_Ok a h p :
  _collect_payload a h = inr p →
  ∃ grouped_data target rc output error installed_dnf_modules_raw installed_packages,
    load_grouped_data (arg_grouped_data_file a) = inr grouped_data
    ∧ script_target a h = Ok target
    ∧ subprocess_run rpm_query = inr (rc, output, error)
    ∧ parse_rpm_modularity_output output
      = Ok (installed_dnf_modules_raw, installed_packages)
    ∧ evaluate_appstream_check grouped_data target (DStr (script_date a h))
        installed_dnf_modules_raw installed_packages
      = Ok (appstream_check_result p, packages_to_remove p)
    ∧ payload_date p = script_date a h.
Proof.
  rewrite collect_payload_steps.
  destruct (load_grouped_data _) as [|grouped_data]; [discriminate|].
  destruct (script_target a h) as [target|]; [|discriminate].
  destruct (parse_date _); [|discriminate].
  destruct (subprocess_run _) as [|[[rc output] error]]; [discriminate|].
  destruct (parse_rpm_modularity_output _) as [[mods pkgs]|] eqn:Hparse; [|discriminate].
  destruct (evaluate_appstream_check _ _ _ _ _) as [[result removal]|] eqn:He;
    [|discriminate].
  intros [= <-]. by exists grouped_data, target, rc, output, error, mods, pkgs.
Qed.

(** An exception of [_collect_payload] is one of the loader or of the
    query, a [ValueError] or a [KeyError] of the core, or the
    [OverflowError] of a date. *)
Lemma collect_payload_raises a h e :
  _collect_payload a h = inl e →
  load_grouped_data (arg_grouped_data_file a) = inl e
  ∨ subprocess_run rpm_query = inl e
  ∨ (∃ msg, e = core (ValueError msg))
  ∨ (∃ key, e = core (KeyError key))
  ∨ e = core OverflowError.
Proof.
  rewrite collect_payload_steps.
  destruct (load_grouped_data _) as [e0|grouped_data]; [intros [= <-]; by left|].
  destruct (script_target a h) as [target|e0] eqn:Htarget.
  2:{ intros [= <-]. unfold script_target in Htarget.
      destruct (Py.truthy _); [discriminate|].
      apply detect_target_major_raises in Htarget as [msg ->]. right. right. left.
      by exists msg. }
  destruct (parse_date _) as [cutoff|e0] eqn:Hdate.
  2:{ intros [= <-]. apply parse_date_raises in Hdate as (s & _ & [->| ->]).
      - right. right. left. by eexists.
      - by repeat right. }
  destruct (subprocess_run _) as [e0|[[rc output] error]]; [intros [= <-]; by right; left|].
  destruct (parse_rpm_modularity_output output) as [[mods pkgs]|e0] eqn:Hparse.
  2:{ intros [= <-]. apply parse_rpm_modularity_output_raises in Hparse as [msg ->].
      right. right. left. by exists msg. }
  destruct (evaluate_appstream_check _ _ _ _ _) as [[result removal]|e0] eqn:He;
    [discriminate|].
  intros [= <-]. apply evaluate_Raise_inv in He
    as [He|[_ [[_ ->]|(? & ? & _ & -> & _)]]].
  - rewrite Hdate in He. discriminate.
  - right. right. right. left. by eexists.
  - by repeat right.
Qed.

(** X16. Once its arguments have parsed, the process of the script ends
    with status 0, 1 or 2, and with 1 exactly when collecting the payload
    has raised. An exception that
    [main] catches ([KeyError], [CalledProcessError], [ValueError],
    [OSError]) leaves nothing on the standard output and one line on the
    standard error; any other escapes [main], and of the core only the
    [OverflowError] of a date does. Without an exception nothing is written
    to the standard error and the payload is printed in the format asked
    for; [any_match] says whether there is a package to remove, and the
    status is 2 exactly when [--fail-on-match] is given and there is one. *)
Theorem script_exit_status a h :
  (exit_status (main a h) = 0 ∨ exit_status (main a h) = 1 ∨ exit_status (main a h) = 2)
  ∧ (exit_status (main a h) = 1 ↔ ∃ e, _collect_payload a h = inl e)
  ∧ (∀ e, _collect_payload a h = inl e →
       if caught e then ∃ line, main a h = exited EmptyString (print line) 1
       else main a h = uncaught e
            ∧ (load_grouped_data (arg_grouped_data_file a) = inl e
               ∨ subprocess_run rpm_query = inl e
               ∨ e = core OverflowError))
  ∧ (∀ p, _collect_payload a h = inr p →
       main a h
       = exited (_print_payload p (arg_output_format a)) EmptyString
           (exit_status (main a h))
       ∧ (any_match (appstream_check_result p) = true ↔ packages_to_remove p ≠ [])
       ∧ (exit_status (main a h) = 2 ↔
          arg_fail_on_match a = true ∧ packages_to_remove p ≠ [])
       ∧ (exit_status (main a h) = 0 ↔
          ¬ (arg_fail_on_match a = true ∧ packages_to_remove p ≠ []))).
Proof.
  unfold main. destruct (_collect_payload a h) as [e|p] eqn:Hp.
  - assert (Hone : exit_status
             match e with
             | core (KeyError missing_target) =>
                 exited EmptyString (print (target_not_found missing_target)) 1
             | CalledProcessError exc =>
                 exited EmptyString
                   (print ("Failed to query installed RPM data: " +:+ exc)) 1
             | core (ValueError exc) | OSError exc => exited EmptyString (print exc) 1
             | _ => uncaught e
             end = 1) by by destruct e as [[]| | |].
    rewrite Hone. split_and!; [by right; left|split; [by eexists|done]| |done].
    intros ? [= <-]. destruct (collect_payload_raises _ _ _ Hp)
      as [Hl|[Hs|[[msg ->]|[[key ->]| ->]]]]; simpl; try by eexists.
    + destruct e as [[]| | |]; simpl; try (by eexists); auto.
    + destruct e as [[]| | |]; simpl; try (by eexists); auto.
    + auto.
  - pose proof Hp as Hp'. apply collect_payload_Ok in Hp'
      as (g & target & rc & output & error & mods & pkgs & _ & _ & _ & Hparse & Heval & _).
    apply parse_Ok_inv in Hparse as [-> _].
    destruct (removal_nonempty _ _ _ _ _ _ _ Heval) as [Hany1 Hany2].
    assert (Hany : any_match (appstream_check_result p) = true
                   ↔ packages_to_remove p ≠ []).
    { split; [|exact Hany1]. apply Hany2. intros key names.
      apply record_streams_nonempty. }
    simpl. split_and!.
    + destruct (_ && _); auto.
    + split; [by destruct (_ && _)|by intros [? [=]]].
    + done.
    + intros ? [= <-].
      assert (Hstatus : (if arg_fail_on_match a
                            && any_match (appstream_check_result p)
                         then 2 else 0) = 2
                        ↔ arg_fail_on_match a = true ∧ packages_to_remove p ≠ []).
      { rewrite <-Hany.
        destruct (arg_fail_on_match a), (any_match (appstream_check_result p));
          simpl; split; try done; by intros [? ?]. }
      split_and!; [done..|]. rewrite <-Hstatus. by destruct (_ && _).
Qed.


End script_properties.

(** * Witnesses and counterexamples, on CPython 3.10 and 3.11 *)

Lemma evaluation_laws_witness :
  ∃ cutoff major reference_packages reference_modules,
    parse_date (interp := cpython310) (DStr "2026-02-17") = Ok cutoff
    ∧ scenario_reference !! "el9" = Some major
    ∧ reference_package_names (interp := cpython310) cutoff
        (default [] (package major)) = Ok reference_packages
    ∧ reference_module_names (interp := cpython310) cutoff
        (default [] (dnf_module major)) = Ok reference_modules
    ∧ (∀ x, x ∈ matched_packages scenario_result ↔
            x ∈ ["retired-nonmod"] ∧ x ∈ reference_packages)
    ∧ (∀ k, k ∈ matched_dnf_modules scenario_result ↔
            k ∈ dom scenario_modules ∧ k ∈ reference_modules)
    ∧ (∀ x, x ∈ ["nodejs-libs"; "retired-nonmod"] ↔
            x ∈ matched_packages scenario_result
            ∨ x ∈ matched_dnf_modules_packages scenario_result)
    ∧ NoDup ["nodejs-libs"; "retired-nonmod"]
    ∧ Sorted String.le (matched_packages scenario_result)
    ∧ Sorted String.le (matched_dnf_modules scenario_result)
    ∧ Sorted String.le (matched_dnf_modules_packages scenario_result)
    ∧ Sorted String.le ["nodejs-libs"; "retired-nonmod"].
Proof.
  apply (@evaluation_laws cpython310 scenario_reference "el9" (DStr "2026-02-17")
           scenario_modules ["retired-nonmod"]).
  vm_compute. reflexivity.
Defined.

Lemma unknown_target_witness :
  scenario_reference !! "el8" = None
  ∧ evaluate_appstream_check (interp := cpython310) scenario_reference "el8"
      (DStr "2026-02-17") ∅ [] = Raise (KeyError "el8").
Proof.
  split; [reflexivity|].
  apply (@unknown_target cpython310 scenario_reference "el8" (DStr "2026-02-17") ∅ []
           eq_refl) with (cutoff := Date 2026 2 17).
  vm_compute. reflexivity.
Defined.

(** C3, the counterexample: the key [el8] is missing and the cutoff is
    malformed; the evaluation fails with the [ValueError] of [parse_date],
    not with [KeyError]. *)
Lemma unknown_target_malformed_cutoff :
  scenario_reference !! "el8" = None
  ∧ evaluate_appstream_check (interp := cpython310) scenario_reference "el8"
      (DStr "not-a-date") ∅ []
    = Raise (ValueError "Invalid date format 'not-a-date', expected YYYY-MM-DD")
  ∧ evaluate_appstream_check (interp := cpython311) scenario_reference "el8"
      (DStr "not-a-date") ∅ []
    = Raise (ValueError "Invalid date format 'not-a-date', expected YYYY-MM-DD")
  ∧ evaluate_appstream_check (interp := cpython311) scenario_reference "el8"
      (DStr "not-a-date") ∅ [] ≠ Raise (KeyError "el8").
Proof.
  split; [reflexivity|]. split; [vm_compute; reflexivity|].
  split; [vm_compute; reflexivity|]. vm_compute. discriminate.
Qed.

Lemma evaluate_errors_witness :
  parse_date (interp := cpython311) (DStr "2026-02-17") = Raise (KeyError "el8")
  ∨ (scenario_reference !! "el8" = None ∧ KeyError "el8" = KeyError "el8")
  ∨ KeyError "el8" = OverflowError.
Proof.
  apply (@evaluate_errors cpython311 scenario_reference "el8" (DStr "2026-02-17") ∅ []).
  vm_compute. reflexivity.
Defined.

Lemma parse_date_sound_witness :
  parse_date (interp := cpython311) (DStr "2026-2-1") = Ok (Date 2026 2 1)
  ∧ parse_date (interp := cpython311) (DStr "2026-02-01") = Ok (Date 2026 2 1)
  ∧ parse_date (interp := cpython311) (DDate (Date 2026 2 1)) = Ok (Date 2026 2 1).
Proof.
  apply (@parse_date_sound cpython311 (Date 2026 2 1) "2026" "2" "1").
  - valid_date.
  - left.
  - right. left.
  - right. left.
Defined.

Lemma parse_date_errors_witness :
  ∃ s, DStr "not-a-date" = DStr s
       ∧ (ValueError "Invalid date format 'not-a-date', expected YYYY-MM-DD"
          = ValueError ("Invalid date format " +:+ Py.repr s +:+ ", expected YYYY-MM-DD")
          ∨ ValueError "Invalid date format 'not-a-date', expected YYYY-MM-DD"
            = OverflowError).
Proof.
  apply (@parse_date_errors cpython311 (DStr "not-a-date")).
  vm_compute. reflexivity.
Defined.

Lemma nameless_package_excluded_witness :
  evaluate_appstream_check (interp := cpython311)
    (<["el9" := {| package := Some ([] ++ [named_retired]); dnf_module := None |}]>
       nameless_reference)
    "el9" (DStr "2026-02-17") ∅ ["old"; "None"]
  = Ok ({| target_major := "el9";
           matched_packages := ["old"];
           matched_dnf_modules := [];
           matched_dnf_modules_packages := [];
           any_match := true |}, ["old"])
  ∧ ∃ cutoff names,
      parse_date (interp := cpython311) (DStr "2026-02-17") = Ok cutoff
      ∧ reference_package_names (interp := cpython311) cutoff
          ([] ++ nameless_retired :: [named_retired]) = Ok names
      ∧ reference_package_names (interp := cpython311) cutoff
          ([] ++ [named_retired]) = Ok names
      ∧ (∀ x, x ∈ names →
           ∃ named, named ∈ [] ++ [named_retired] ∧ pkg_name named = Some x
                    ∧ x ≠ EmptyString
                    ∧ _is_retired (interp := cpython311) (pkg_end_date named) cutoff
                      = Ok true)
      ∧ (∀ x, x ∈ ["old"] → x ∈ names).
Proof.
  apply (@nameless_package_excluded cpython311 nameless_reference "el9"
           {| package := Some [nameless_retired; named_retired]; dnf_module := None |}
           (DStr "2026-02-17") ∅ ["old"; "None"] [] nameless_retired [named_retired]
           {| target_major := "el9";
              matched_packages := ["old"];
              matched_dnf_modules := [];
              matched_dnf_modules_packages := [];
              any_match := true |}
           ["old"]).
  - left. reflexivity.
  - reflexivity.
  - reflexivity.
  - vm_compute. reflexivity.
Defined.

Lemma blank_output_empty_witness :
  parse_rpm_modularity_output (String Py.LF ("  " +:+ String Py.LF EmptyString))
  = Ok (∅, []).
Proof.
  apply (blank_output_empty (String Py.LF ("  " +:+ String Py.LF EmptyString))).
  vm_compute. repeat constructor.
Defined.

Lemma parser_output_witness :
  parse_rpm_modularity_output repeated_output = Ok (repeated_modules, ["b"])
  ∧ ["b"] = Py.sorted_set (list_to_set (non_modular_names (Py.splitlines repeated_output)))
  ∧ NoDup ["b"]
  ∧ Sorted String.le ["b"]
  ∧ (∀ line package_name label,
       line ∈ Py.splitlines repeated_output → blank line = false →
       columns line = Some (package_name, label) → label ≠ "(none)" →
       ∃ l0 l1 rest,
         Py.split ":" label = l0 :: l1 :: rest
         ∧ classify line = Modular (l0 +:+ ":" +:+ l1) package_name)
  ∧ (∀ key,
       repeated_modules !! key =
         match stream_packages key (Py.splitlines repeated_output) with
         | [] => None
         | names => Some names
         end).
Proof.
  assert (H : parse_rpm_modularity_output repeated_output = Ok (repeated_modules, ["b"]))
    by (vm_compute; reflexivity).
  split; [exact H|]. exact (parser_output repeated_output repeated_modules ["b"] H).
Defined.

Lemma parser_streams_nonempty_witness :
  parse_rpm_modularity_output repeated_output = Ok (repeated_modules, ["b"])
  ∧ (∀ key names, repeated_modules !! key = Some names → names ≠ [])
  ∧ ∀ grouped_data target selected_date installed r removal,
      evaluate_appstream_check (interp := cpython310) grouped_data target selected_date
        repeated_modules installed = Ok (r, removal) →
      ∀ key, key ∈ matched_dnf_modules r →
        ∃ package_name, package_name ∈ default [] (repeated_modules !! key)
                        ∧ package_name ∈ matched_dnf_modules_packages r.
Proof.
  assert (H : parse_rpm_modularity_output repeated_output = Ok (repeated_modules, ["b"]))
    by (vm_compute; reflexivity).
  split; [exact H|].
  exact (@parser_streams_nonempty cpython310 repeated_output repeated_modules ["b"] H).
Defined.

Lemma later_cutoff_keeps_matches_witness :
  ∃ r2 removal2,
    evaluate_appstream_check (interp := cpython311) staggered_reference "el9"
      (DStr "2027-01-01") scenario_modules ["newer"; "retired-nonmod"]
    = Ok (r2, removal2)
    ∧ (∀ x, x ∈ matched_packages scenario_result → x ∈ matched_packages r2)
    ∧ (∀ k, k ∈ matched_dnf_modules scenario_result → k ∈ matched_dnf_modules r2)
    ∧ (∀ x, x ∈ matched_dnf_modules_packages scenario_result →
            x ∈ matched_dnf_modules_packages r2)
    ∧ (∀ x, x ∈ ["nodejs-libs"; "retired-nonmod"] → x ∈ removal2)
    ∧ (any_match scenario_result = true → any_match r2 = true).
Proof.
  apply (@later_cutoff_keeps_matches cpython311 staggered_reference "el9"
           (DStr "2026-02-17") (DStr "2027-01-01") (Date 2026 2 17) (Date 2027 1 1)
           scenario_modules ["newer"; "retired-nonmod"]
           scenario_result ["nodejs-libs"; "retired-nonmod"]);
    vm_compute; reflexivity.
Defined.

Lemma evaluation_matches_witness :
  ∃ cutoff major,
    parse_date (interp := cpython311) (DStr "2026-02-17") = Ok cutoff
    ∧ scenario_reference !! "el9" = Some major
    ∧ (∀ x, x ∈ matched_packages scenario_result ↔
         x ∈ ["retired-nonmod"] ∧ retired_package (interp := cpython311) cutoff major x)
    ∧ (∀ key, key ∈ matched_dnf_modules scenario_result ↔
         key ∈ dom scenario_modules
         ∧ retired_stream (interp := cpython311) cutoff major key)
    ∧ (∀ x, x ∈ matched_dnf_modules_packages scenario_result ↔
         ∃ key names, key ∈ matched_dnf_modules scenario_result
                      ∧ scenario_modules !! key = Some names ∧ x ∈ names).
Proof.
  apply (@evaluation_matches cpython311 scenario_reference "el9" (DStr "2026-02-17")
           scenario_modules ["retired-nonmod"] scenario_result
           ["nodejs-libs"; "retired-nonmod"]).
  vm_compute. reflexivity.
Defined.

Lemma evaluation_order_independent_witness :
  same_outcome
    (evaluate_appstream_check (interp := cpython311) nameless_reference "el9"
       (DStr "2026-02-17") ∅ ["old"; "old"])
    (evaluate_appstream_check (interp := cpython311) swapped_reference "el9"
       (DStr "2026-02-17") ∅ ["old"]).
Proof.
  apply (@evaluation_order_independent cpython311 nameless_reference swapped_reference
           "el9"
           {| package := Some [nameless_retired; named_retired]; dnf_module := None |}
           {| package := Some [named_retired; nameless_retired]; dnf_module := None |}).
  - reflexivity.
  - reflexivity.
  - simpl. apply perm_swap.
  - reflexivity.
  - intros x. rewrite !elem_of_cons. tauto.
Defined.

Lemma inventory_report_witness :
  ∃ return_code output error cutoff major,
    scenario_runner rpm_query = inr (return_code, output, error)
    ∧ parse_date (interp := cpython311) (DStr "2026-02-17") = Ok cutoff
    ∧ scenario_reference !! "el9" = Some major
    ∧ (∀ x, x ∈ matched_packages scenario_result ↔
         (∃ line, line ∈ Py.splitlines output ∧ classify line = NonModular x)
         ∧ retired_package (interp := cpython311) cutoff major x)
    ∧ (∀ key, key ∈ matched_dnf_modules scenario_result ↔
         (∃ line x, line ∈ Py.splitlines output ∧ classify line = Modular key x)
         ∧ retired_stream (interp := cpython311) cutoff major key)
    ∧ (∀ x, x ∈ ["nodejs-libs"; "retired-nonmod"] ↔
         x ∈ matched_packages scenario_result
         ∨ ∃ line key,
             line ∈ Py.splitlines output ∧ classify line = Modular key x
             ∧ key ∈ matched_dnf_modules scenario_result)
    ∧ (any_match scenario_result = true ↔ ["nodejs-libs"; "retired-nonmod"] ≠ []).
Proof.
  apply (@inventory_report cpython311 string scenario_runner scenario_modules
           ["bash"; "retired-nonmod"] scenario_reference "el9" (DStr "2026-02-17")
           scenario_result ["nodejs-libs"; "retired-nonmod"]);
    vm_compute; reflexivity.
Defined.


Lemma end_date_boundary_witness :
  _is_retired (interp := cpython310) (Some (DStr "2026-2-1")) (Date 2026 2 2) = Ok true
  ∧ _is_retired (interp := cpython310) (Some (DDate (Date 2026 2 1))) (Date 2026 2 2)
    = Ok true
  ∧ _is_retired (interp := cpython310) (Some (DStr "2026-2-1")) (Date 2026 2 1)
    = Ok false
  ∧ (_is_retired (interp := cpython310) (Some (DStr "2026-2-1")) (Date 2026 2 2)
     = Ok false
     ↔ Date 2026 2 2 = Date 2026 2 1 ∨ date_ltb (Date 2026 2 2) (Date 2026 2 1) = true).
Proof.
  apply (@end_date_boundary cpython310 (Date 2026 2 1) "2026" "2" "1" (Date 2026 2 2)).
  - valid_date.
  - left.
  - right. left.
  - right. left.
Defined.
